(** * Mobius condor_client: a shallow embedding of [python/condor_client.py]

    The script provisions a Condor cluster (storage, master, submit and
    worker nodes) on a Chameleon and an Exogeni site through the Mobius
    workflow service, publishes host names through COMET and stitches the
    two sites together.

    Layout of this file:
    - [PyStr]: the Python string primitives the script uses
      ([str.split], [str.join], [str.replace], [in], [int], [str]);
    - the address helpers of lines 32-74;
    - the run state (JSON objects on a heap, the allocation map, the trace of
      remote calls) and the error monad;
    - [create_compute], [provision_storage], [provision_condor_cluster],
      [perform_stitch] and [main];
    - the theorems. *)

From Stdlib Require Import ZArith Lia Ascii String List.
From stdpp Require Import base tactics option list gmap strings pretty.


Local Open Scope Z_scope.

(** ** Python exceptions and results *)

Inductive exn :=
| KeyError | TypeError | AttributeError | ValueError | IndexError
| SystemExit (code : Z)
| OutOfFuel.

Inductive res (A : Type) :=
| Ok (a : A)
| Raise (e : exn).
Arguments Ok {A} a.
Arguments Raise {A} e.

#[global] Instance res_ret : MRet res := @Ok.
#[global] Instance res_bind : MBind res := λ A B f m,
  match m with Ok a => f a | Raise e => Raise e end.

(** ** Python string primitives *)

Module PyStr.

(** [old in s] *)
Fixpoint occurs (t s : string) : bool :=
  String.prefix t s ||
  match s with
  | EmptyString => false
  | String _ s' => occurs t s'
  end.

(** [s.replace(old, new)] for a non-empty [old]: scan from the left, at each
    position where [old] starts emit [new] and skip [len(old)] characters.
    [skip] counts the characters of a match still to be dropped. *)
Fixpoint replace_from (old new : string) (skip : nat) (s : string) : string :=
  match s with
  | EmptyString => EmptyString
  | String c s' =>
      match skip with
      | S k => replace_from old new k s'
      | O =>
          if String.prefix old s
          then new +:+ replace_from old new (String.length old - 1) s'
          else String c (replace_from old new 0 s')
      end
  end.

(** [s.replace("", new)] puts [new] before every character and at the end. *)
Fixpoint intersperse (new s : string) : string :=
  match s with
  | EmptyString => new
  | String c s' => new +:+ String c (intersperse new s')
  end.

Definition replace (old new s : string) : string :=
  match old with
  | EmptyString => intersperse new s
  | _ => replace_from old new 0 s
  end.

(** [s.split(sep)] for a one-character separator. *)
Fixpoint split (sep : ascii) (s : string) : list string :=
  match s with
  | EmptyString => [EmptyString]
  | String c s' =>
      if Ascii.eqb c sep then EmptyString :: split sep s'
      else match split sep s' with
           | h :: t => String c h :: t
           | [] => [String c EmptyString]
           end
  end.

(** [sep.join(parts)] *)
Definition join (sep : string) (parts : list string) : string :=
  String.concat sep parts.

(** [l[i]] and [l[i] = v] on a list: [IndexError] out of range. *)
Definition list_get {A} (l : list A) (i : nat) : res A :=
  match l !! i with
  | Some x => Ok x
  | None => Raise IndexError
  end.

Definition list_set {A} (l : list A) (i : nat) (v : A) : res (list A) :=
  if decide (i < length l)%nat then Ok (<[i:=v]> l) else Raise IndexError.

Definition digit_val (c : ascii) : option N :=
  let n := N_of_ascii c in
  if (48 <=? n)%N && (n <=? 57)%N then Some (n - 48)%N else None.

Fixpoint digits_val (acc : N) (s : string) : option N :=
  match s with
  | EmptyString => Some acc
  | String c s' =>
      match digit_val c with
      | Some d => digits_val (acc * 10 + d) s'
      | None => None
      end
  end.

Definition unsigned_int (s : string) : res Z :=
  match s with
  | EmptyString => Raise ValueError
  | _ => match digits_val 0 s with
         | Some n => Ok (Z.of_N n)
         | None => Raise ValueError
         end
  end.

(** [int(s)] on an optional sign followed by ASCII digits; every other text
    is a [ValueError] here (Python also accepts surrounding blanks and
    underscores between digits, which no octet that passed
    [is_valid_ipv4_address] contains). *)
Definition int (s : string) : res Z :=
  match s with
  | String "-"%char s' => n ← unsigned_int s'; Ok (- n)
  | String "+"%char s' => unsigned_int s'
  | _ => unsigned_int s
  end.

(** [str(n)] for an integer *)
Definition str (n : Z) : string := pretty n.

(** The last character of a string *)
Fixpoint last_char (s : string) : option ascii :=
  match s with
  | EmptyString => None
  | String c EmptyString => Some c
  | String _ s' => last_char s'
  end.

(** The characters of a string *)
Fixpoint chars (s : string) : list ascii :=
  match s with
  | EmptyString => []
  | String c s' => c :: chars s'
  end.

(** A non-empty text that shares no character with the token [tok]:
    substituting it cannot complete an occurrence of [tok]. *)
Definition inert (tok v : string) : Prop :=
  v ≠ EmptyString ∧ ∀ c, c ∈ chars tok → c ∉ chars v.

(** Upper-case ASCII letters, of which the tokens are made *)
Definition is_upper (c : ascii) : bool :=
  let n := N_of_ascii c in (65 <=? n)%N && (n <=? 90)%N.

Definition upper (s : string) : bool := forallb is_upper (chars s).

(** Texts without upper-case letters, and the non-empty ones among them:
    addresses, subnets, lower-case names. *)
Definition lower (s : string) : bool :=
  forallb (λ c, negb (is_upper c)) (chars s).

Definition plain (s : string) : bool :=
  match s with
  | EmptyString => false
  | _ => lower s
  end.

(** Some non-empty end of [a] is a beginning of [b]. *)
Fixpoint overlaps (a b : string) : bool :=
  match a with
  | EmptyString => false
  | String _ a' => String.prefix a b || overlaps a' b
  end.

(** [v] cannot complete an occurrence of [tok], whatever text it is put
    into: neither text contains the other, and no end of one is a beginning
    of the other. *)
Definition sealed (tok v : string) : bool :=
  negb (occurs tok v) && negb (occurs v tok) &&
  negb (overlaps tok v) && negb (overlaps v tok).

(** A string in which the character [sep] does not occur *)
Fixpoint free_of (sep : ascii) (s : string) : Prop :=
  match s with
  | EmptyString => True
  | String c s' => c ≠ sep ∧ free_of sep s'
  end.

End PyStr.

(** ** Address helpers (lines 32-74) *)

(** [socket.inet_pton(AF_INET, address)] succeeds on exactly four
    dot-separated octets, each a non-empty run of decimal digits without a
    leading zero and of value at most 255. *)
Definition octet_ok (p : string) : bool :=
  match p with
  | EmptyString => false
  | String "0"%char (String _ _) => false
  | _ => match PyStr.digits_val 0 p with
         | Some v => (v <=? 255)%N
         | None => false
         end
  end.

Definition inet_pton (address : string) : bool :=
  match PyStr.split "." address with
  | [a; b; c; d] => octet_ok a && octet_ok b && octet_ok c && octet_ok d
  | _ => false
  end.

(** Lines 32-44. [inet_pton] exists on the platform, so the [AttributeError]
    fallback is not taken; [socket.error] gives [False]. *)
Definition is_valid_ipv4_address (address : string) : bool :=
  inet_pton address.

(** Lines 46-50 *)
Definition can_ip_satisfy_range (ip : string) (n : Z) : res bool :=
  let octets := PyStr.split "." ip in
  o3 ← PyStr.list_get octets 3;
  v ← PyStr.int o3;
  octets ← PyStr.list_set octets 3 (PyStr.str (v + n));
  Ok (is_valid_ipv4_address (PyStr.join "." octets)).

(** Lines 52-56 *)
Definition get_cidr (ip : string) : res string :=
  let octets := PyStr.split "." ip in
  octets ← PyStr.list_set octets 3 "0/24";
  Ok (PyStr.join "." octets).

(** Lines 58-62. The Python literal ['0\/24'] keeps its backslash. *)
Definition get_cidr_escape (ip : string) : res string :=
  let octets := PyStr.split "." ip in
  octets ← PyStr.list_set octets 3 "0\/24";
  Ok (PyStr.join "." octets).

(** Lines 64-68 *)
Definition get_default_ip_for_condor (ip : string) : res string :=
  let octets := PyStr.split "." ip in
  octets ← PyStr.list_set octets 3 "*";
  Ok (PyStr.join "." octets).

(** Lines 70-74 *)
Definition get_next_ip (ip : string) : res string :=
  let octets := PyStr.split "." ip in
  o3 ← PyStr.list_get octets 3;
  v ← PyStr.int o3;
  octets ← PyStr.list_set octets 3 (PyStr.str (v + 1));
  Ok (PyStr.join "." octets).

(** [next] applied [n] times *)
Fixpoint iter_next_ip (n : nat) (ip : string) : res string :=
  match n with
  | O => Ok ip
  | S k => ip' ← get_next_ip ip; iter_next_ip k ip'
  end.

(** [int(ip.split('.')[3])] *)
Definition last_octet (ip : string) : res Z :=
  o3 ← PyStr.list_get (PyStr.split "." ip) 3;
  PyStr.int o3.

(** The text [a.b.c.d] *)
Definition dotted (a b c : string) (d : Z) : string :=
  a +:+ "." +:+ b +:+ "." +:+ c +:+ "." +:+ PyStr.str d.


(** ** Values, JSON objects and remote interfaces *)

(** A Python value as the script meets it in its JSON files and variables:
    [None]/[null], a string or an integer. *)
Inductive val :=
| VNone
| VStr (s : string)
| VInt (z : Z).

#[global] Instance val_eq_dec : EqDecision val.
Proof. solve_decision. Defined.

(** [str(v)] *)
Definition py_str (v : val) : string :=
  match v with
  | VNone => "None"
  | VStr s => s
  | VInt z => PyStr.str z
  end.

(** A JSON object ([dict]) *)
Abbreviation obj := (gmap string val).

(** A reference to a [dict] created by [json.load] *)
Abbreviation loc := nat.

(** The decoded [workflowStatus] of a Mobius response: per-site request
    records with [site], an optional [vlan] and [slices[].nodes[]]. *)
Record node := { node_name : string; node_state : string }.
Record slice := { slice_slice : string; slice_nodes : list node }.
Record request := {
  req_site : string;
  req_vlan : option val;
  req_slices : list slice
}.

(** [response.json()]: [status] and the decoded [value]. *)
Record response := { status : Z; value : list request }.

(** The methods of [MobiusInterface] the script calls. *)
Module Mobius.
Inductive call :=
| create_workflow (host wid : string)
| get_workflow (host wid : string)
| delete_workflow (host wid : string)
| create_compute (host wid : string) (payload : obj)
| create_stitchport (host wid : string) (payload : obj).

Definition is_create_compute (c : call) : bool :=
  match c with create_compute _ _ _ => true | _ => false end.
End Mobius.

(** The methods of [CometInterface] the script calls; the published value is
    kept as its JSON text. *)
Module Comet.
Inductive call :=
| update_family (host wid nodename readToken writeToken family value : string)
| delete_families (host wid : string).
End Comet.

(** What a run does to the outside: remote calls with the response received,
    sleeps, and the [ERROR] lines printed before [sys.exit(1)]. *)
Inductive event :=
| EMobius (c : Mobius.call) (r : response)
| EComet (c : Comet.call)
| ESleep (secs : Z)
| EError (msg : string).

(** The surroundings of a run: the JSON files that exist (path to content) and
    the Mobius service, which answers a call knowing everything that happened
    before it. *)
Record world := {
  files : gmap string obj;
  mobius_reply : list event → Mobius.call → response
}.

(** Command-line arguments after [parser.parse_args()] (lines 77-201). *)
Record args := {
  exogenisite : option string;
  chameleonsite : option string;
  exoworkers : option Z;
  chworkers : option Z;
  comethost : option string;
  cert : option string;
  key : option string;
  mobiushost : string;
  operation : string;
  workflowId : string;
  exoipStart : option string;
  chipStart : option string;
  leaseEnd : option string;
  exodatadir : option string;
  chdatadir : option string
}.

(** ** Run state and monad *)

(** The dicts made by [json.load] live on a heap and are passed by reference;
    [ipMap] is the one dict of line 215 that every function receives; [trace]
    grows at its end. *)
Record state := {
  heap : list obj;
  ipMap : gmap string string;
  trace : list event
}.

Definition M (A : Type) : Type := state → res A * state.

#[global] Instance M_ret : MRet M := λ A a st, (Ok a, st).
#[global] Instance M_bind : MBind M := λ A B f m st,
  match m st with
  | (Ok a, st') => f a st'
  | (Raise e, st') => (Raise e, st')
  end.

Definition ret {A} (x : A) : M A := mret x.
Definition lift {A} (r : res A) : M A := λ st, (r, st).
Definition raise {A} (e : exn) : M A := λ st, (Raise e, st).

Definition init_state : state := {| heap := []; ipMap := ∅; trace := [] |}.

(** [json.load]: a fresh dict *)
Definition json_load (o : obj) : M loc := λ st,
  (Ok (length (heap st)),
   {| heap := heap st ++ [o]; ipMap := ipMap st; trace := trace st |}).

(** The dict behind a reference *)
Definition deref (l : loc) : M obj := λ st,
  (Ok (default ∅ (heap st !! l)), st).

(** [d[k]] *)
Definition obj_get (l : loc) (k : string) : M val := λ st,
  match default ∅ (heap st !! l) !! k with
  | Some v => (Ok v, st)
  | None => (Raise KeyError, st)
  end.

(** [d[k] = v] *)
Definition obj_set (l : loc) (k : string) (v : val) : M unit := λ st,
  (Ok tt,
   {| heap := alter (λ o : obj, <[k:=v]> o) l (heap st);
      ipMap := ipMap st; trace := trace st |}).

(** [ipMap = dict()] *)
Definition ipMap_new : M unit := λ st,
  (Ok tt, {| heap := heap st; ipMap := ∅; trace := trace st |}).

(** [ipMap[k] = v] *)
Definition ipMap_set (k v : string) : M unit := λ st,
  (Ok tt, {| heap := heap st; ipMap := <[k:=v]> (ipMap st); trace := trace st |}).

(** [ipMap[k]] *)
Definition ipMap_get (k : string) : M string := λ st,
  match ipMap st !! k with
  | Some v => (Ok v, st)
  | None => (Raise KeyError, st)
  end.

(** [k in ipMap] *)
Definition ipMap_mem (k : string) : M bool := λ st,
  (Ok (bool_decide (is_Some (ipMap st !! k))), st).

Definition emit (e : event) : M unit := λ st,
  (Ok tt, {| heap := heap st; ipMap := ipMap st; trace := trace st ++ [e] |}).

(** [time.sleep(secs)] *)
Definition sleep (secs : Z) : M unit := emit (ESleep secs).

(** An [ERROR] line, [parser.print_help()] and [sys.exit(1)] *)
Definition usage_error (msg : string) : M unit :=
  emit (EError msg);; raise (SystemExit 1).

(** [s.replace(old, new)] on a value [s] known not to be [None]: an integer
    has no [replace]. *)
Definition replace_method (s : val) (old new : string) : res string :=
  match s with
  | VStr s => Ok (PyStr.replace old new s)
  | _ => Raise AttributeError
  end.

(** [ip.split('.')] and the rest of a helper of lines 46-74 on a value: only a
    string has [split]. *)
Definition on_str {A} (f : string → res A) (v : val) : res A :=
  match v with
  | VStr s => f s
  | _ => Raise AttributeError
  end.

(** [a + b] with [a] a string: [b] has to be one too. *)
Definition str_add (a : string) (b : val) : res string :=
  match b with
  | VStr s => Ok (a +:+ s)
  | _ => Raise TypeError
  end.

(** The double quote, and the JSON texts of lines 28-29 as [json.dumps]
    prints them. *)
Definition dq : string := String "034"%char EmptyString.
Definition bsdq : string := String "092"%char dq.

Definition pubKeysVal : string :=
  "{" +:+ dq +:+ "val_" +:+ dq +:+ ": " +:+ dq +:+
  "[{" +:+ bsdq +:+ "publicKey" +:+ bsdq +:+ ":" +:+ bsdq +:+ bsdq +:+ "}]" +:+
  dq +:+ "}".

Definition hostNameVal : string :=
  "{" +:+ dq +:+ "val_" +:+ dq +:+ ": " +:+ dq +:+
  "[{" +:+ bsdq +:+ "hostName" +:+ bsdq +:+ ":" +:+ bsdq +:+ "REPLACE" +:+ bsdq +:+
  "," +:+ bsdq +:+ "ip" +:+ bsdq +:+ ":" +:+ bsdq +:+ "IPADDR" +:+ bsdq +:+ "}]" +:+
  dq +:+ "}".

(** What an early [return] of [main] leaves to the code after a block. *)
Inductive flow (A : Type) :=
| Continue (a : A)
| Return.
Arguments Continue {A} a.
Arguments Return {A}.

(** ** The script *)

Section Script.
Context (W : world).

(** A call of a [MobiusInterface] method: the service answers, the call and
    its response are appended to the trace. *)
Definition mobius (c : Mobius.call) : M response := λ st,
  let r := mobius_reply W (trace st) c in
  (Ok r, {| heap := heap st; ipMap := ipMap st;
            trace := trace st ++ [EMobius c r] |}).

(** A call of a [CometInterface] method; its response is only printed. *)
Definition comet (c : Comet.call) : M unit := emit (EComet c).

(** [os.path.exists(d)] followed by [json.load] of the opened file *)
Definition load_if_exists (d : string) : M (option loc) :=
  match files W !! d with
  | Some o => l ← json_load o; ret (Some l)
  | None => ret None
  end.

(** Lines 546-562: the substitutions applied to the boot script [s0], a
    value that is not [None]. *)
Definition render (s0 : val) (workflowId oldnodename nodename : string)
    (submitSubnet : option string) (forwardIP : val)
    (subnet ipStart defIP storagename : option string) : res string :=
  s ← replace_method s0 "WORKFLOW" workflowId;
  let s := PyStr.replace oldnodename nodename s in
  let s := PyStr.replace "SUBMIT"
             (match submitSubnet with Some x => x | None => "None" end) s in
  s ← match forwardIP with
      | VNone => Ok s
      | VStr f =>
          let s := PyStr.replace "IPADDR" f s in
          Ok (match subnet with
              | Some sn => PyStr.replace "SUBNET" sn s
              | None => s
              end)
      | VInt _ => Raise TypeError
      end;
  let s := match ipStart with
           | Some ip =>
               let s := PyStr.replace "IPADDR" ip s in
               match subnet with
               | Some sn => PyStr.replace "SUBNET" sn s
               | None => s
               end
           | None => s
           end in
  let s := match defIP with
           | Some d => PyStr.replace "REPLACEIP" d s
           | None => s
           end in
  let s := match storagename with
           | Some sn => PyStr.replace "STORAGENODE" sn s
           | None => s
           end in
  Ok s.

(** The rendering as section 4.2 of the specification words it: steps 1-3
    unconditional, then the forward address if present, else this node's own
    address if present (the two are exclusive), then the wildcard and the
    storage node name. *)
Definition render_spec (s : string) (workflowId oldnodename nodename : string)
    (submitSubnet forwardIP subnet ipStart defIP storagename : option string)
    : string :=
  let s := PyStr.replace "WORKFLOW" workflowId s in
  let s := PyStr.replace oldnodename nodename s in
  let s := PyStr.replace "SUBMIT"
             (match submitSubnet with Some x => x | None => "None" end) s in
  let peer (addr : string) (s : string) :=
    let s := PyStr.replace "IPADDR" addr s in
    match subnet with
    | Some sn => PyStr.replace "SUBNET" sn s
    | None => s
    end in
  let s := match forwardIP, ipStart with
           | Some f, _ => peer f s
           | None, Some ip => peer ip s
           | None, None => s
           end in
  let s := match defIP with
           | Some d => PyStr.replace "REPLACEIP" d s
           | None => s
           end in
  match storagename with
  | Some sn => PyStr.replace "STORAGENODE" sn s
  | None => s
  end.

(** Lines 531-535: the name of the node. *)
Definition resolve_name (prefix : val) (site workflowId nodename : string)
    (count : Z) : res string :=
  match prefix with
  | VNone => Ok nodename
  | _ =>
      if PyStr.occurs "Exogeni" site
      then p ← str_add "" prefix; Ok (p +:+ PyStr.str count)
      else p ← str_add (workflowId +:+ "-") prefix; Ok (p +:+ PyStr.str count)
  end.

(** Lines 530-568 *)
Definition create_compute (host nodename : string)
    (ipStart leaseEnd : option string) (workflowId : string) (mdata : loc)
    (count : Z) (oldnodename site : string) (submitSubnet : option string)
    (storagename subnet : option string) (forwardIP : val)
    : M (response * string) :=
  prefix ← obj_get mdata "hostNamePrefix";
  nodename ← lift (resolve_name prefix site workflowId nodename count);
  defIP ← match ipStart with
          | Some ip =>
              obj_set mdata "ipAddress" (VStr ip);;
              ipMap_set nodename ip;;
              d ← lift (get_default_ip_for_condor ip);
              ret (Some d)
          | None => ret None
          end;
  match leaseEnd with
  | Some le => obj_set mdata "leaseEnd" (VStr le)
  | None => ret tt
  end;;
  script ← obj_get mdata "postBootScript";
  match script with
  | VNone => ret tt
  | _ =>
      s ← lift (render script workflowId oldnodename nodename submitSubnet
                  forwardIP subnet ipStart defIP storagename);
      obj_set mdata "postBootScript" (VStr s)
  end;;
  payload ← deref mdata;
  response ← mobius (Mobius.create_compute host workflowId payload);
  ret (response, nodename).

(** What [create_compute] does to the dict [o] behind [mdata] and the name it
    resolves, as a function: the dict sent to Mobius and left on the heap. *)
Definition node_payload (o : obj) (nodename : string)
    (ipStart leaseEnd : option string) (workflowId : string)
    (count : Z) (oldnodename site : string) (submitSubnet : option string)
    (storagename subnet : option string) (forwardIP : val)
    : res (obj * string) :=
  prefix ← match o !! "hostNamePrefix" with
           | Some v => Ok v
           | None => Raise KeyError
           end;
  nodename ← resolve_name prefix site workflowId nodename count;
  '(o, defIP) ← match ipStart with
                | Some ip =>
                    d ← get_default_ip_for_condor ip;
                    Ok (<["ipAddress" := VStr ip]> o, Some d)
                | None => Ok (o, None)
                end;
  let o := match leaseEnd with
           | Some le => <["leaseEnd" := VStr le]> o
           | None => o
           end in
  script ← match o !! "postBootScript" with
           | Some v => Ok v
           | None => Raise KeyError
           end;
  o ← match script with
      | VNone => Ok o
      | _ =>
          s ← render script workflowId oldnodename nodename submitSubnet
                forwardIP subnet ipStart defIP storagename;
          Ok (<["postBootScript" := VStr s]> o)
      end;
  Ok (o, nodename).

Context (a : args).

(** Lines 411-423 *)
Definition perform_stitch (datadir : option string) (site : option string)
    (vlan : string) (data : option loc) : M (option response) :=
  data ← match data with
         | None =>
             match datadir with
             | None => raise TypeError
             | Some dir => load_if_exists (dir +:+ "/stitch.json")
             end
         | Some l => ret (Some l)
         end;
  match data with
  | Some l =>
      obj_set l "tag" (VStr vlan);;
      payload ← deref l;
      response ← mobius (Mobius.create_stitchport (mobiushost a) (workflowId a) payload);
      ret (Some response)
  | None => ret None
  end.

(** Lines 425-458. [ipStart] is [None] or a string; [get_cidr_escape(None)]
    is an [AttributeError]. *)
Definition provision_storage (datadir site : string) (count : Z)
    (ipStart : option string) (submitSubnet : option string) (sip : val)
    (exogeniSubnet : option string) : M (bool * Z * option string) :=
  stdata ← load_if_exists (datadir +:+ "/storage.json");
  match stdata with
  | None => ret (true, count, None)
  | Some stdata =>
      obj_set stdata "site" (VStr site);;
      script ← obj_get stdata "postBootScript";
      match script with
      | VNone => ret tt
      | _ =>
          cidr ← lift (match ipStart with
                       | Some ip => get_cidr_escape ip
                       | None => Raise AttributeError
                       end);
          s ← lift (replace_method script "CIDR" cidr);
          let s := match sip with
                   | VNone => s
                   | _ => PyStr.replace "SIP" (py_str sip) s
                   end in
          obj_set stdata "postBootScript" (VStr s)
      end;;
      let nodename := "Node" +:+ PyStr.str count in
      let oldnodename := "NODENAME" in
      '(response, nodename) ←
        create_compute (mobiushost a) nodename ipStart (leaseEnd a)
          (workflowId a) stdata count oldnodename site submitSubnet
          None exogeniSubnet VNone;
      if decide (status response ≠ 200) then
        mobius (Mobius.delete_workflow (mobiushost a) (workflowId a));;
        ret (false, count, None)
      else
        ret (true, count + 1, Some nodename)
  end.

(** What lines 433-444 do to the dict loaded from [storage.json], as a
    function. *)
Definition storage_shape (o : obj) (site : string) (ipStart : option string)
    (sip : val) : res obj :=
  let o := <["site" := VStr site]> o in
  script ← match o !! "postBootScript" with
           | Some v => Ok v
           | None => Raise KeyError
           end;
  match script with
  | VNone => Ok o
  | _ =>
      cidr ← match ipStart with
             | Some ip => get_cidr_escape ip
             | None => Raise AttributeError
             end;
      s ← replace_method script "CIDR" cidr;
      let s := match sip with
               | VNone => s
               | _ => PyStr.replace "SIP" (py_str sip) s
               end in
      Ok (<["postBootScript" := VStr s]> o)
  end.

(** The event of a Mobius call made after the trace [tr] *)
Definition mobius_event (tr : list event) (c : Mobius.call) : event :=
  EMobius c (mobius_reply W tr c).

(** [ipMap] after a node creation *)
Definition record_ip (name : string) (ipStart : option string)
    (m : gmap string string) : gmap string string :=
  match ipStart with
  | Some ip => <[name:=ip]> m
  | None => m
  end.

(** [ipStart = get_next_ip(ipStart)] when [ipStart] is not [None] *)
Definition next_start (ipStart : option string) : res (option string) :=
  match ipStart with
  | Some ip => ip' ← get_next_ip ip; Ok (Some ip')
  | None => Ok None
  end.

Definition advance (ipStart : option string) : M (option string) :=
  lift (next_start ipStart).

(** Lines 515-527: the remaining [n] rounds of [for x in range(workers)];
    [wdata] is the same dict in every round. *)
Fixpoint worker_loop (n : nat) (site : string) (wdata : loc) (count : Z)
    (ipStart : option string) (oldnodename : string)
    (storagename subnet : option string) (forwardIP : val)
    (submitSubnet : option string) : M (bool * Z) :=
  match n with
  | O => ret (true, count)
  | S k =>
      let nodename := "Node" +:+ PyStr.str count in
      ipStart ← advance ipStart;
      '(response, nodename) ←
        create_compute (mobiushost a) nodename ipStart (leaseEnd a)
          (workflowId a) wdata count oldnodename site submitSubnet
          storagename subnet forwardIP;
      let oldnodename := nodename in
      if decide (status response ≠ 200) then
        mobius (Mobius.delete_workflow (mobiushost a) (workflowId a));;
        ret (false, count)
      else
        worker_loop k site wdata (count + 1) ipStart oldnodename
          storagename subnet forwardIP submitSubnet
  end.

(** The workers of one site as the loop makes them, as a function: the dict
    sent for each worker, its name and its address. Each round starts from the
    dict the round before left behind. *)
Fixpoint worker_payloads (n : nat) (site : string) (o : obj) (count : Z)
    (ipStart : option string) (oldnodename : string)
    (storagename subnet : option string) (forwardIP : val)
    (submitSubnet : option string)
    : res (list (obj * string * option string)) :=
  match n with
  | O => Ok []
  | S k =>
      ipStart ← next_start ipStart;
      '(o', name) ← node_payload o ("Node" +:+ PyStr.str count) ipStart
                      (leaseEnd a) (workflowId a) count oldnodename site
                      submitSubnet storagename subnet forwardIP;
      rest ← worker_payloads k site o' (count + 1) ipStart name
               storagename subnet forwardIP submitSubnet;
      Ok ((o', name, ipStart) :: rest)
  end.

(** Lines 460-528 *)
Definition provision_condor_cluster (datadir site : string) (count : Z)
    (ipStart : option string) (workers : option Z)
    (storagename subnet : option string) (forwardIP : val)
    (submitSubnet : option string) : M (bool * Z) :=
  mdata ← load_if_exists (datadir +:+ "/master.json");
  match mdata with Some l => obj_set l "site" (VStr site) | None => ret tt end;;
  sdata ← load_if_exists (datadir +:+ "/submit.json");
  match sdata with Some l => obj_set l "site" (VStr site) | None => ret tt end;;
  wdata ← load_if_exists (datadir +:+ "/worker.json");
  match wdata with Some l => obj_set l "site" (VStr site) | None => ret tt end;;
  r ← match mdata with
      | None => ret (Continue (count, ipStart))
      | Some mdata =>
          let nodename := "Node" +:+ PyStr.str count in
          let oldnodename := "NODENAME" in
          ipStart ← match storagename with
                    | Some _ => advance ipStart
                    | None => ret ipStart
                    end;
          '(response, nodename) ←
            create_compute (mobiushost a) nodename ipStart (leaseEnd a)
              (workflowId a) mdata count oldnodename site submitSubnet
              storagename subnet forwardIP;
          if decide (status response ≠ 200) then
            mobius (Mobius.delete_workflow (mobiushost a) (workflowId a));;
            ret Return
          else ret (Continue (count + 1, ipStart))
      end;
  match r with
  | Return => ret (false, count)
  | Continue (count, ipStart) =>
  r ← match sdata with
      | None => ret (Continue (count, ipStart))
      | Some sdata =>
          let nodename := "Node" +:+ PyStr.str count in
          let oldnodename := "NODENAME" in
          ipStart ← advance ipStart;
          '(response, nodename) ←
            create_compute (mobiushost a) nodename ipStart (leaseEnd a)
              (workflowId a) sdata count oldnodename site submitSubnet
              storagename subnet forwardIP;
          if decide (status response ≠ 200) then
            mobius (Mobius.delete_workflow (mobiushost a) (workflowId a));;
            ret Return
          else ret (Continue (count + 1, ipStart))
      end;
  match r with
  | Return => ret (false, count)
  | Continue (count, ipStart) =>
  match wdata with
  | None => ret (true, count)
  | Some wdata =>
      match workers with
      | None => raise TypeError
      | Some workers =>
          worker_loop (Z.to_nat workers) site wdata count ipStart "NODENAME"
            storagename subnet forwardIP submitSubnet
      end
  end
  end
  end.

(** A [for] loop threading the variables it assigns *)
Fixpoint for_each {A S : Type} (l : list A) (body : A → S → M S) (s : S)
    : M S :=
  match l with
  | [] => ret s
  | x :: l' => s' ← body x s; for_each l' body s'
  end.

Definition is_none {A} (o : option A) : bool :=
  match o with None => true | Some _ => false end.

(** Lines 215-252: the checks of a [create] before the first remote call. *)
Definition check_start_ip (ipStart : option string) (workers : option Z)
    : M unit :=
  match ipStart with
  | None => ret tt
  | Some ip =>
      (if is_valid_ipv4_address ip then ret tt
       else usage_error "ERROR: Invalid start ip address specified");;
      n ← match workers with
          | Some n => ret (n + 1)
          | None => raise TypeError
          end;
      fits ← lift (can_ip_satisfy_range ip n);
      if (fits : bool) then ret tt
      else usage_error "ERROR: Invalid start ip address specified; cannot accomdate the ip for all nodes"
  end.

Definition check_site (site : option string) (marker : string) : M unit :=
  match site with
  | Some s =>
      if PyStr.occurs marker s then ret tt
      else usage_error "ERROR: Invalid site specified"
  | None => ret tt
  end.

Definition validate : M unit :=
  ipMap_new;;
  (if (is_none (exogenisite a) && is_none (chameleonsite a))
      || (is_none (exoworkers a) && is_none (chworkers a))
      || (is_none (exodatadir a) && is_none (chdatadir a))
   then usage_error "ERROR: site name, number of workers and data directory must be specified for create operation"
   else ret tt);;
  check_start_ip (exoipStart a) (exoworkers a);;
  check_start_ip (chipStart a) (chworkers a);;
  (match comethost a with
   | Some _ =>
       if is_none (cert a) || is_none (key a)
       then usage_error "ERROR: comet certificate and key must be specified when comethost is indicated"
       else ret tt
   | None => ret tt
   end);;
  check_site (chameleonsite a) "Chameleon";;
  check_site (exogenisite a) "Exogeni".

(** [get_cidr(args.exoipStart)] when the start IP is given (lines 280-282,
    292-294) and the same for the chameleon start IP (lines 317-320) *)
Definition subnet_of (ipStart : option string) : M (option string) :=
  match ipStart with
  | Some ip => c ← lift (get_cidr ip); ret (Some c)
  | None => ret None
  end.

(** Lines 261-278: [stitchdata], [sip] and [submitSubnet]. *)
Definition read_hints : M (option loc * val * option string) :=
  match exogenisite a, exodatadir a with
  | Some _, Some dir =>
      stitchdata ← load_if_exists (dir +:+ "/stitch.json");
      sip ← match stitchdata with
            | Some l => obj_get l "stitchIP"
            | None => ret VNone
            end;
      submitdata ← load_if_exists (dir +:+ "/storage.json");
      submitSubnet ← match submitdata with
                     | Some l =>
                         ip ← obj_get l "stitchIP";
                         c ← lift (on_str get_cidr ip);
                         ret (Some c)
                     | None => ret None
                     end;
      ret (stitchdata, sip, submitSubnet)
  | _, _ => ret (None, VNone, None)
  end.

(** Lines 279-286: the chameleon storage node; gives [count] and
    [chstoragename]. [None + ".novalocal"] is a [TypeError]. *)
Definition chameleon_storage (count : Z) (submitSubnet : option string)
    : M (flow (Z * option string)) :=
  match chameleonsite a, chdatadir a with
  | Some site, Some dir =>
      exogeniSubnet ← subnet_of (exoipStart a);
      '(status, count, chstoragename) ←
        provision_storage dir site count (chipStart a) submitSubnet VNone
          exogeniSubnet;
      if negb status then ret Return
      else match chstoragename with
           | Some n => ret (Continue (count, Some (n +:+ ".novalocal")))
           | None => raise TypeError
           end
  | _, _ => ret (Continue (count, None))
  end.

(** Lines 287-290: the exogeni storage node; gives [count] and
    [exostoragename]. *)
Definition exogeni_storage (count : Z) (submitSubnet : option string)
    (sip : val) : M (flow (Z * option string)) :=
  match exogenisite a, exodatadir a with
  | Some site, Some dir =>
      '(status, count, exostoragename) ←
        provision_storage dir site count (exoipStart a) submitSubnet sip None;
      if negb status then ret Return
      else ret (Continue (count, exostoragename))
  | _, _ => ret (Continue (count, None))
  end.

(** Lines 291-301: the chameleon cluster. *)
Definition chameleon_cluster (count : Z) (stitchdata : option loc)
    (chstoragename submitSubnet : option string) : M (flow Z) :=
  match chameleonsite a, chdatadir a with
  | Some site, Some dir =>
      exogeniSubnet ← subnet_of (exoipStart a);
      forwardIP ← match stitchdata with
                  | Some l => obj_get l "stitchIP"
                  | None => ret VNone
                  end;
      '(status, count) ←
        provision_condor_cluster dir site count (chipStart a) (chworkers a)
          chstoragename exogeniSubnet forwardIP submitSubnet;
      if negb status then ret Return else ret (Continue count)
  | _, _ => ret (Continue count)
  end.

(** Lines 302-326: the exogeni cluster. *)
Definition exogeni_cluster (count : Z)
    (exostoragename submitSubnet : option string) : M (flow Z) :=
  match exogenisite a, exodatadir a with
  | Some site, Some dir =>
      chSubnet ← subnet_of (chipStart a);
      forwardIP ← match exostoragename with
                  | Some n => ip ← ipMap_get n; ret (VStr ip)
                  | None => ret VNone
                  end;
      '(status, count) ←
        provision_condor_cluster dir site count (exoipStart a) (exoworkers a)
          exostoragename chSubnet forwardIP submitSubnet;
      if negb status then ret Return else ret (Continue count)
  | _, _ => ret (Continue count)
  end.

(** Lines 345-381: the two COMET records of one node; gives
    [stitchNodeStatus]. The [hostsall] value is the text handed to
    [json.loads]. *)
Definition publish_node (host : string) (stitchdata : option loc)
    (slice_name : string) (n : node) (stitchNodeStatus : option string)
    : M (option string) :=
  let readToken := workflowId a +:+ "read" in
  let writeToken := workflowId a +:+ "write" in
  comet (Comet.update_family host (workflowId a) (node_name n)
           readToken writeToken "pubkeysall" pubKeysVal);;
  let hostVal := hostNameVal in
  '(hostname, stitchNodeStatus) ←
    (if PyStr.occurs "Chameleon" slice_name
     then ret (node_name n +:+ ".novalocal", stitchNodeStatus)
     else
       match stitchdata with
       | Some l =>
           target ← obj_get l "target";
           match target with
           | VStr t =>
               if PyStr.occurs t (node_name n) then
                 obj_set l "target" (VStr (node_name n));;
                 ret (node_name n, Some (node_state n))
               else ret (node_name n, stitchNodeStatus)
           | _ => raise TypeError
           end
       | None => ret (node_name n, stitchNodeStatus)
       end);
  let hostVal := PyStr.replace "REPLACE" hostname hostVal in
  known ← ipMap_mem (node_name n);
  hostVal ← (if (known : bool)
             then ip ← ipMap_get (node_name n);
                  ret (PyStr.replace "IPADDR" ip hostVal)
             else ret (PyStr.replace "IPADDR" "" hostVal));
  comet (Comet.update_family host (workflowId a) (node_name n)
           readToken writeToken "hostsall" hostVal);;
  ret stitchNodeStatus.

(** Lines 337-381: gives [stitcVlanToChameleon] and [stitchNodeStatus]. *)
Definition publish_request (host : string) (stitchdata : option loc)
    (req : request) (vs : option string * option string)
    : M (option string * option string) :=
  let '(stitcVlanToChameleon, stitchNodeStatus) := vs in
  let stitcVlanToChameleon :=
    if PyStr.occurs "Chameleon" (req_site req) then
      match req_vlan req with
      | Some v => Some (py_str v)
      | None => stitcVlanToChameleon
      end
    else stitcVlanToChameleon in
  stitchNodeStatus ←
    for_each (req_slices req) (λ s st,
      for_each (slice_nodes s)
        (publish_node host stitchdata (slice_slice s)) st) stitchNodeStatus;
  ret (stitcVlanToChameleon, stitchNodeStatus).

(** Lines 328-381 *)
Definition publish (stitchdata : option loc) (response : response)
    : M (option string * option string) :=
  match comethost a with
  | Some host =>
      if decide (status response = 200) then
        for_each (value response) (publish_request host stitchdata)
          (None, None)
      else ret (None, None)
  | None => ret (None, None)
  end.

(** Lines 386-397: the state of the stitch target in a polled status. *)
Definition observe (target : val) (response : response)
    (stitchNodeStatus : option string) : option string :=
  if decide (status response = 200) then
    fold_left (λ st req,
      if PyStr.occurs "Exogeni" (req_site req) then
        fold_left (λ st s,
          fold_left (λ st n,
            if decide (target = VStr (node_name n))
            then Some (node_state n) else st)
            (slice_nodes s) st)
          (req_slices req) st
      else st)
      (value response) stitchNodeStatus
  else stitchNodeStatus.

(** Lines 383-399: the [while] loop, at most [fuel] rounds. Subscripting
    [stitchdata = None] and adding a non-string to a string are
    [TypeError]s. *)
Fixpoint wait_active (fuel : nat) (stitchdata : option loc)
    (stitchNodeStatus : option string) : M unit :=
  if decide (stitchNodeStatus = Some "Active") then ret tt
  else
    match fuel with
    | O => raise OutOfFuel
    | S k =>
        target ← match stitchdata with
                 | Some l => obj_get l "target"
                 | None => raise TypeError
                 end;
        lift (str_add "Waiting for the " target);;
        response ← mobius (Mobius.get_workflow (mobiushost a) (workflowId a));
        let stitchNodeStatus := observe target response stitchNodeStatus in
        sleep 5;;
        wait_active k stitchdata stitchNodeStatus
    end.

(** Lines 382-404 *)
Definition stitch (fuel : nat) (stitchdata : option loc)
    (stitcVlanToChameleon stitchNodeStatus : option string) : M unit :=
  match stitcVlanToChameleon, exogenisite a with
  | Some vlan, Some _ =>
      wait_active fuel stitchdata stitchNodeStatus;;
      sleep 60;;
      perform_stitch (exodatadir a) (exogenisite a) vlan stitchdata;;
      ret tt
  | _, _ => ret tt
  end.

(** Lines 254-404: [create] after its checks. *)
Definition create (fuel : nat) : M unit :=
  response ← mobius (Mobius.create_workflow (mobiushost a) (workflowId a));
  let count := 0 in
  if decide (status response = 200) then
    '(stitchdata, sip, submitSubnet) ← read_hints;
    r ← chameleon_storage count submitSubnet;
    match r with
    | Return => ret tt
    | Continue (count, chstoragename) =>
    r ← exogeni_storage count submitSubnet sip;
    match r with
    | Return => ret tt
    | Continue (count, exostoragename) =>
    r ← chameleon_cluster count stitchdata chstoragename submitSubnet;
    match r with
    | Return => ret tt
    | Continue count =>
    r ← exogeni_cluster count exostoragename submitSubnet;
    match r with
    | Return => ret tt
    | Continue count =>
    response ← mobius (Mobius.get_workflow (mobiushost a) (workflowId a));
    '(stitcVlanToChameleon, stitchNodeStatus) ← publish stitchdata response;
    stitch fuel stitchdata stitcVlanToChameleon stitchNodeStatus;;
    raise (SystemExit 0)
    end end end end
  else raise (SystemExit 0).

(** Lines 76-409. [fuel] bounds the rounds of the polling loop. *)
Definition main (fuel : nat) : M unit :=
  if decide (operation a = "get") then
    mobius (Mobius.get_workflow (mobiushost a) (workflowId a));;
    raise (SystemExit 0)
  else if decide (operation a = "delete") then
    mobius (Mobius.delete_workflow (mobiushost a) (workflowId a));;
    match comethost a with
    | Some host => comet (Comet.delete_families host (workflowId a))
    | None => ret tt
    end;;
    raise (SystemExit 0)
  else if decide (operation a = "create") then
    validate;;
    create fuel
  else
    raise (SystemExit 1).

End Script.

(** The exit status of the process: [sys.exit(code)] gives [code], falling off
    the end of [main] gives 0, an uncaught exception gives 1. *)
Definition exit_status {A} (r : res A) : Z :=
  match r with
  | Ok _ => 0
  | Raise (SystemExit code) => code
  | Raise _ => 1
  end.

(** The remote calls of a trace *)
Definition is_remote (e : event) : bool :=
  match e with
  | EMobius _ _ | EComet _ => true
  | _ => false
  end.

Definition is_comet (e : event) : bool :=
  match e with EComet _ => true | _ => false end.

(** ** Traces of provisioning *)

(** A node-creation call that Mobius answered with a status other than 200 *)
Definition failed_create (e : event) : bool :=
  match e with
  | EMobius (Mobius.create_compute _ _ _) r => negb (status r =? 200)
  | _ => false
  end.

(** [shaped a aborted evs]: no event of [evs] is a failed node creation,
    except that when [aborted] the last two events are a failed node creation
    and the [delete_workflow] of the workflow of [a]. *)
Inductive shaped (a : args) : bool → list event → Prop :=
| shaped_nil : shaped a false []
| shaped_cons e evs b :
    failed_create e = false → shaped a b evs → shaped a b (e :: evs)
| shaped_abort e r :
    failed_create e = true →
    shaped a true
      [e; EMobius (Mobius.delete_workflow (mobiushost a) (workflowId a)) r].

(** What the claim asks of the events of a run: a failed node creation is
    followed by [delete_workflow] on the workflow and by nothing else. *)
Definition abort_discipline (a : args) (evs : list event) : Prop :=
  ∀ pre e post,
    evs = pre ++ e :: post → failed_create e = true →
    ∃ r, post =
         [EMobius (Mobius.delete_workflow (mobiushost a) (workflowId a)) r].

(** What a provisioning step leaves behind: [ok] reads the success flag off
    its result; the events abort exactly when the step reports failure. *)
Definition pass_post (a : args) {A} (ok : A → bool) (r : res A)
    (evs : list event) : Prop :=
  match r with
  | Ok z => shaped a (negb (ok z)) evs
  | Raise _ => shaped a false evs
  end.

(** Events among which no node creation failed *)
Definition calm (evs : list event) : Prop :=
  Forall (λ e, failed_create e = false) evs.

(** The success flag of the results of the provisioning steps *)
Definition flow_ok {A} (f : flow A) : bool :=
  match f with Continue _ => true | Return => false end.

(** [emits m P]: from every state, [m] appends events [evs] to the trace and
    ends with a result [r] such that [P r evs]. *)
Definition emits {A} (m : M A) (P : res A → list event → Prop) : Prop :=
  ∀ st, ∃ evs, trace (m st).2 = trace st ++ evs ∧ P (m st).1 evs.

(** [silent m]: [m] leaves the trace alone. *)
Definition silent {A} (m : M A) : Prop :=
  ∀ st, trace (m st).2 = trace st.

(** The events of the Mobius calls [cs] made one after the other from the
    trace [tr] on. *)
Fixpoint call_events (W : world) (tr : list event) (cs : list Mobius.call)
    : list event :=
  match cs with
  | [] => []
  | c :: cs' =>
      let e := mobius_event W tr c in
      e :: call_events W (tr ++ [e]) cs'
  end.

(** [ipMap] after the creations [ps] *)
Definition record_ips (ps : list (obj * string * option string))
    (m : gmap string string) : gmap string string :=
  fold_left (λ m p, record_ip p.1.2 p.2 m) ps m.

(** The dict a sequence of creations leaves behind *)
Definition final_dict (ps : list (obj * string * option string)) (o : obj)
    : obj :=
  fold_left (λ _ p, p.1.1) ps o.

(** Every node creation is answered with status 200. *)
Definition creations_succeed (W : world) : Prop :=
  ∀ tr host wid p,
    status (mobius_reply W tr (Mobius.create_compute host wid p)) = 200.

(** A shape whose host-name prefix and boot script are present, each [null]
    or a string. *)
Definition wf_field (o : obj) (k : string) : bool :=
  match o !! k with
  | Some VNone | Some (VStr _) => true
  | _ => false
  end.

Definition wf_shape (o : obj) : bool :=
  wf_field o "hostNamePrefix" && wf_field o "postBootScript".

(** ** The polling of the stitching coordinator *)

(** The events of [n] rounds of the loop of lines 383-399 from the trace [tr]
    on, with [stitchNodeStatus] as observed so far: a status query and a
    five-second sleep per round. *)
Fixpoint poll_events (W : world) (a : args) (target : string) (n : nat)
    (tr : list event) (stitchNodeStatus : option string) : list event :=
  match n with
  | O => []
  | S k =>
      let c := Mobius.get_workflow (mobiushost a) (workflowId a) in
      let r := mobius_reply W tr c in
      let evs := [EMobius c r; ESleep 5] in
      evs ++ poll_events W a target k (tr ++ evs)
               (observe (VStr target) r stitchNodeStatus)
  end.

(** [active_after W a target n tr s]: polling from the trace [tr] with the
    status [s] observed so far, the target is seen [Active] after exactly [n]
    polls. *)
Inductive active_after (W : world) (a : args) (target : string)
    : nat → list event → option string → Prop :=
| active_now tr : active_after W a target 0 tr (Some "Active")
| active_later n tr s :
    s ≠ Some "Active" →
    (let c := Mobius.get_workflow (mobiushost a) (workflowId a) in
     let r := mobius_reply W tr c in
     active_after W a target n (tr ++ [EMobius c r; ESleep 5])
       (observe (VStr target) r s)) →
    active_after W a target (S n) tr s.

(** Lines 337-340 as a function: [stitcVlanToChameleon] after the requests
    [reqs] of a status, the VLAN of the last chameleon request that carries
    one. *)
Definition vlan_of (reqs : list request) (v0 : option string)
    : option string :=
  fold_left (λ v req,
    if PyStr.occurs "Chameleon" (req_site req) then
      match req_vlan req with
      | Some x => Some (py_str x)
      | None => v
      end
    else v) reqs v0.

(** Steps that leave [ipMap] alone *)
Definition keeps_ipMap {A} (m : M A) : Prop :=
  ∀ st, ipMap (m st).2 = ipMap st.

(** ** Validation outcomes *)

(** A start IP is given with its worker count and the last octet plus
    [workers + 1] passes 255. *)
Definition cannot_accommodate (ipStart : option string) (workers : option Z)
    : Prop :=
  ∃ ip w d,
    ipStart = Some ip ∧ workers = Some w ∧
    last_octet ip = Ok d ∧ 255 < d + (w + 1).

(** How a check ends a run: an [ERROR] line and [sys.exit(1)], or the
    [TypeError] of [None + 1] when a start IP came without its worker
    count. *)
Definition stops {A} (r : res A) (evs : list event) : Prop :=
  (∃ msg, r = Raise (SystemExit 1) ∧ evs = [EError msg]) ∨
  (r = Raise TypeError ∧ evs = []).

Definition passes_or_stops {A} (r : res A) (evs : list event) : Prop :=
  stops r evs ∨ (∃ x, r = Ok x ∧ evs = []).

(** ** Reading a trace *)

(** The 5- and 60-second waits and the stitch request: the events of the
    stitching step alone. *)
Definition is_stitch_step (e : event) : bool :=
  match e with
  | ESleep _ => true
  | EMobius (Mobius.create_stitchport _ _ _) _ => true
  | _ => false
  end.

(** The boot scripts of the node creations of a trace, in order *)
Definition sent_script (e : event) : option string :=
  match e with
  | EMobius (Mobius.create_compute _ _ p) _ =>
      match p !! "postBootScript" with
      | Some (VStr s) => Some s
      | _ => None
      end
  | _ => None
  end.

Definition sent_scripts (tr : list event) : list string :=
  omap sent_script tr.

(** The dicts of the node creations of a trace, in order *)
Definition sent_payload (e : event) : option obj :=
  match e with
  | EMobius (Mobius.create_compute _ _ p) _ => Some p
  | _ => None
  end.

Definition sent_payloads (tr : list event) : list obj :=
  omap sent_payload tr.

(** The tokens [create_compute] substitutes for (lines 547-562), and the
    texts that cannot complete any of them. *)
Definition tokens : list string :=
  ["WORKFLOW"; "SUBMIT"; "IPADDR"; "SUBNET"; "REPLACEIP"; "STORAGENODE"].

Definition safe (v : string) : bool :=
  forallb (λ tok, PyStr.sealed tok v) tokens.

Definition is_status_query (e : event) : bool :=
  match e with
  | EMobius (Mobius.get_workflow _ _) _ => true
  | _ => false
  end.

(** ** Further readings of a run *)

(** The address a node creation was sent with *)
Definition payload_address (p : obj) : option string :=
  match p !! "ipAddress" with
  | Some (VStr s) => Some s
  | _ => None
  end.

Definition sent_address (e : event) : option string :=
  match e with
  | EMobius (Mobius.create_compute _ _ p) _ => payload_address p
  | _ => None
  end.

Definition sent_addresses (tr : list event) : list string :=
  omap sent_address tr.

(** The addresses [a.b.c.d], [a.b.c.(d+1)], ... of [n] consecutive nodes *)
Definition address_run (a b c : string) (d : Z) (n : nat) : list string :=
  map (λ i, dotted a b c (d + Z.of_nat i)) (seq 0 n).

(** Lines 216-252 as one test: what a [create] asks of its arguments. *)
Definition start_ip_ok (ipStart : option string) (workers : option Z) : bool :=
  match ipStart with
  | None => true
  | Some ip =>
      is_valid_ipv4_address ip &&
      match workers with
      | Some w =>
          match can_ip_satisfy_range ip (w + 1) with
          | Ok fits => fits
          | Raise _ => false
          end
      | None => false
      end
  end.

Definition site_ok (site : option string) (marker : string) : bool :=
  match site with
  | Some s => PyStr.occurs marker s
  | None => true
  end.

Definition arguments_ok (a : args) : bool :=
  negb ((is_none (exogenisite a) && is_none (chameleonsite a))
        || (is_none (exoworkers a) && is_none (chworkers a))
        || (is_none (exodatadir a) && is_none (chdatadir a)))
  && start_ip_ok (exoipStart a) (exoworkers a)
  && start_ip_ok (chipStart a) (chworkers a)
  && match comethost a with
     | Some _ => negb (is_none (cert a) || is_none (key a))
     | None => true
     end
  && site_ok (chameleonsite a) "Chameleon"
  && site_ok (exogenisite a) "Exogeni".

(** [avoids p m]: [m] appends no event that [p] marks. *)
Definition avoids (p : event → bool) {A} (m : M A) : Prop :=
  emits m (λ _ evs, Forall (λ e, p e = false) evs).

(** How a run of [main] ends with respect to failed node creations: the
    events abort at most once, and a run that aborted returned normally. *)
Definition ends_quietly (a : args) (r : res unit) (evs : list event) : Prop :=
  ∃ b, shaped a b evs ∧ (b = true → r = Ok tt).

(** Texts of lower-case letters, digits, [-] and [.]: host names and
    addresses, which [json.loads] reads back unchanged. *)
Definition is_label_char (c : ascii) : bool :=
  let n := N_of_ascii c in
  ((97 <=? n)%N && (n <=? 122)%N) || ((48 <=? n)%N && (n <=? 57)%N)
  || (n =? 45)%N || (n =? 46)%N.

Definition label (s : string) : bool :=
  forallb is_label_char (PyStr.chars s).

(** The JSON text of a host record, [json.dumps] of
    [{"val_": "[{\"hostName\":\"<hostname>\",\"ip\":\"<ip>\"}]"}]. *)
Definition host_record (hostname ip : string) : string :=
  "{" +:+ dq +:+ "val_" +:+ dq +:+ ": " +:+ dq +:+
  "[{" +:+ bsdq +:+ "hostName" +:+ bsdq +:+ ":" +:+ bsdq +:+ hostname +:+ bsdq +:+
  "," +:+ bsdq +:+ "ip" +:+ bsdq +:+ ":" +:+ bsdq +:+ ip +:+ bsdq +:+ "}]" +:+
  dq +:+ "}".

(** The two COMET records of lines 346-376 for the node [name] *)
Definition node_records (a : args) (host name hostname ip : string)
    : list event :=
  [EComet (Comet.update_family host (workflowId a) name
             (workflowId a +:+ "read") (workflowId a +:+ "write")
             "pubkeysall" pubKeysVal);
   EComet (Comet.update_family host (workflowId a) name
             (workflowId a +:+ "read") (workflowId a +:+ "write")
             "hostsall" (host_record hostname ip))].

(** [keeps_loaded h m]: run from a heap that starts with the dicts [h], [m]
    leaves these dicts as they are. *)
Definition keeps_loaded (h : list obj) {A} (m : M A) : Prop :=
  ∀ st ext, heap st = h ++ ext → ∃ ext', heap (m st).2 = h ++ ext'.

(** * Sample runs *)

(** Shape files and command lines in the manner of the repository's
    [chameleon/] and [exogeni/] directories, cut down to the two keys the
    script reads. *)
Module Examples.

Definition shape (p s : val) : obj :=
  {[ "hostNamePrefix" := p; "postBootScript" := s ]}.

Definition ok_reply : response := {| status := 200; value := [] |}.

Definition storage_json : obj :=
  shape (VStr "st") (VStr "mount CIDR for WORKFLOW").
Definition master_json : obj :=
  shape (VStr "m") (VStr "master of WORKFLOW at STORAGENODE").
Definition submit_json : obj := shape (VStr "s") VNone.
Definition worker_json : obj :=
  shape (VStr "w") (VStr "NODENAME of WORKFLOW from IPADDR to REPLACEIP").

Definition chameleon_files : gmap string obj :=
  {[ "d/storage.json" := storage_json;
     "d/master.json" := master_json;
     "d/submit.json" := submit_json;
     "d/worker.json" := worker_json ]}.

(** A chameleon site alone, every call answered with 200 *)
Definition chameleon_world : world :=
  {| files := chameleon_files; mobius_reply := λ _ _, ok_reply |}.

Definition chameleon_args (wid ip : string) (workers : Z) : args :=
  {| exogenisite := None; chameleonsite := Some "Chameleon:CHI@UC";
     exoworkers := None; chworkers := Some workers;
     comethost := None; cert := None; key := None;
     mobiushost := "http://localhost:8080/mobius";
     operation := "create"; workflowId := wid;
     exoipStart := None; chipStart := Some ip;
     leaseEnd := None; exodatadir := None; chdatadir := Some "d" |}.

(** The two workers of that site as the loop makes them from
    [worker_json] *)
Definition first_worker : obj :=
  <["postBootScript" := VStr "wf1-w3 of wf1 from 10.0.0.13 to 10.0.0.*"]>
    (<["ipAddress" := VStr "10.0.0.13"]> worker_json).
Definition second_worker : obj :=
  <["postBootScript" := VStr "wf1-w4 of wf1 from 10.0.0.13 to 10.0.0.*"]>
    (<["ipAddress" := VStr "10.0.0.14"]> first_worker).
Definition sample_workers : list (obj * string * option string) :=
  [(first_worker, "wf1-w3", Some "10.0.0.13");
   (second_worker, "wf1-w4", Some "10.0.0.14")].

(** Both sites *)
Definition exogeni_site : string := "Exogeni:UH (Houston, TX USA) XO Rack".

Definition stitch_json (target : string) : obj :=
  {[ "target" := VStr target; "stitchIP" := VStr "192.168.10.5" ]}.

Definition exo_storage_json : obj :=
  <["stitchIP" := VStr "192.168.10.5"]> (shape (VStr "st") VNone).

Definition both_files : gmap string obj :=
  <["e/stitch.json" := stitch_json "st"]>
  (<["e/storage.json" := exo_storage_json]>
  (<["e/master.json" := shape (VStr "m") VNone]>
  (<["e/submit.json" := shape (VStr "s") VNone]>
  (<["e/worker.json" := shape (VStr "w") (VStr "WORKFLOW worker NODENAME")]>
   chameleon_files)))).

(** A status that lists the chameleon side with its VLAN and the exogeni
    storage node in the state [state]. *)
Definition status_reply (state : string) : response :=
  {| status := 200;
     value :=
       [ {| req_site := "Chameleon:CHI@UC"; req_vlan := Some (VStr "3291");
            req_slices :=
              [ {| slice_slice := "Chameleon:CHI@UC";
                   slice_nodes :=
                     [ {| node_name := "wf1-st0";
                          node_state := "ACTIVE" |} ] |} ] |};
         {| req_site := exogeni_site; req_vlan := None;
            req_slices :=
              [ {| slice_slice := exogeni_site;
                   slice_nodes :=
                     [ {| node_name := "st1";
                          node_state := state |} ] |} ] |} ] |}.

(** The exogeni storage node is reported [Active] from the third status
    query on. *)
Definition two_site_world : world :=
  {| files := both_files;
     mobius_reply := λ tr c,
       match c with
       | Mobius.get_workflow _ _ =>
           if (2 <=? length (filter (λ e, is_status_query e = true) tr))%nat
           then status_reply "Active" else status_reply "Ticketed"
       | _ => ok_reply
       end |}.

(** The same files; the fourth node-level call, the creation of the
    chameleon master, is answered with 500. *)
Definition failing_master_world : world :=
  {| files := both_files;
     mobius_reply := λ tr c,
       if Mobius.is_create_compute c && (3 <=? length tr)%nat
       then {| status := 500; value := [] |} else ok_reply |}.

Definition two_site_args (comet : option string) (exoip : option string)
    : args :=
  {| exogenisite := Some exogeni_site;
     chameleonsite := Some "Chameleon:CHI@UC";
     exoworkers := Some 1; chworkers := Some 1;
     comethost := comet; cert := Some "cert.pem"; key := Some "key.pem";
     mobiushost := "http://localhost:8080/mobius";
     operation := "create"; workflowId := "wf1";
     exoipStart := exoip; chipStart := Some "10.0.0.10";
     leaseEnd := None; exodatadir := Some "e"; chdatadir := Some "d" |}.

(** An exogeni site alone, without a start IP *)
Definition exogeni_args : args :=
  {| exogenisite := Some exogeni_site; chameleonsite := None;
     exoworkers := Some 1; chworkers := None;
     comethost := None; cert := None; key := None;
     mobiushost := "http://localhost:8080/mobius";
     operation := "create"; workflowId := "wf1";
     exoipStart := None; chipStart := None;
     leaseEnd := None; exodatadir := Some "e"; chdatadir := None |}.

End Examples.

(** Further worlds and command lines *)
Module MoreExamples.
Import Examples.

(** Mobius answers every call with status 500. *)
Definition refusing_world : world :=
  {| files := chameleon_files;
     mobius_reply := λ _ _, {| status := 500; value := [] |} |}.

(** No shape file at all *)
Definition empty_world : world :=
  {| files := ∅; mobius_reply := λ _ _, ok_reply |}.

(** An exogeni [storage.json] without its [stitchIP] *)
Definition bare_storage_world : world :=
  {| files := {[ "e/storage.json" := shape (VStr "st") VNone ]};
     mobius_reply := λ _ _, ok_reply |}.

(** A COMET host and certificate without the key *)
Definition keyless_args : args :=
  {| exogenisite := None; chameleonsite := Some "Chameleon:CHI@UC";
     exoworkers := None; chworkers := Some 2;
     comethost := Some "https://comet"; cert := Some "cert.pem"; key := None;
     mobiushost := "http://localhost:8080/mobius";
     operation := "create"; workflowId := "wf1";
     exoipStart := None; chipStart := Some "10.0.0.10";
     leaseEnd := None; exodatadir := None; chdatadir := Some "d" |}.

(** The site of one family, worker count and data directory of the other *)
Definition crossed_args : args :=
  {| exogenisite := Some exogeni_site; chameleonsite := None;
     exoworkers := None; chworkers := Some 1;
     comethost := None; cert := None; key := None;
     mobiushost := "http://localhost:8080/mobius";
     operation := "create"; workflowId := "wf1";
     exoipStart := None; chipStart := None;
     leaseEnd := None; exodatadir := None; chdatadir := Some "d" |}.

(** The creation of the first worker of the sample chameleon site *)
Definition worker_state : state :=
  {| heap := [worker_json]; ipMap := ∅; trace := [] |}.

Definition sample_creation : res (response * string) * state :=
  create_compute chameleon_world "http://localhost:8080/mobius" "Node3"
    (Some "10.0.0.13") None "wf1" 0 3 "NODENAME" "Chameleon:CHI@UC" None
    None None VNone worker_state.

End MoreExamples.

(** * Properties *)

(** ** Facts about the string primitives *)

Module PyStrFacts.
Import PyStr.

#[local] Arguments String.append !s1 s2 : simpl nomatch.

Lemma app_nil_r (s : string) : s +:+ "" = s.
Proof. induction s; simpl; congruence. Qed.

Lemma app_assoc (s1 s2 s3 : string) : (s1 +:+ s2) +:+ s3 = s1 +:+ (s2 +:+ s3).
Proof. induction s1; simpl; congruence. Qed.

Lemma split_not_nil sep s : split sep s ≠ [].
Proof.
  destruct s as [|c s]; simpl; [done|].
  destruct (Ascii.eqb c sep); [done|]. by destruct (split sep s).
Qed.

Lemma split_free sep s : Forall (free_of sep) (split sep s).
Proof.
  induction s as [|c s IH]; simpl.
  - by repeat constructor.
  - destruct (Ascii.eqb_spec c sep) as [->|Hne].
    + by constructor.
    + destruct (split sep s) as [|h t]; [by repeat constructor|].
      inversion IH; subst. by repeat constructor.
Qed.

Lemma join_split sep s : join (String sep "") (split sep s) = s.
Proof.
  induction s as [|c s IH]; simpl; [done|].
  destruct (Ascii.eqb_spec c sep) as [->|Hne].
  - unfold join in *. simpl.
    destruct (split sep s) eqn:E; [by destruct (split_not_nil sep s)|].
    simpl. by rewrite <- IH.
  - unfold join in *.
    destruct (split sep s) as [|h [|h' t]] eqn:E;
      [by destruct (split_not_nil sep s)| |]; simpl in *; congruence.
Qed.

Lemma split_free_id sep s : free_of sep s → split sep s = [s].
Proof.
  induction s as [|c s IH]; simpl; [done|]. intros [Hc Hs].
  destruct (Ascii.eqb_spec c sep); [done|]. by rewrite IH.
Qed.

Lemma split_app sep p s :
  free_of sep p →
  split sep (p +:+ String sep s) = p :: split sep s.
Proof.
  induction p as [|c p IH]; simpl.
  - intros _. by rewrite Ascii.eqb_refl.
  - intros [Hc Hp]. destruct (Ascii.eqb_spec c sep); [done|]. by rewrite IH.
Qed.

Lemma split_join sep parts :
  parts ≠ [] → Forall (free_of sep) parts →
  split sep (join (String sep "") parts) = parts.
Proof.
  induction parts as [|p [|q parts] IH]; [done| |].
  - intros _ H. inversion H; subst. simpl. by apply split_free_id.
  - intros _ H. inversion H as [|?? Hp Hrest]; subst.
    unfold join in *.
    change (String.concat (String sep "") (p :: q :: parts))
      with (p +:+ String sep (String.concat (String sep "") (q :: parts))).
    rewrite split_app by done. f_equal. by apply IH.
Qed.

(** Decimal digits *)

Lemma digit_val_char c d : digit_val c = Some d → pretty_N_char d = c ∧ (d < 10)%N.
Proof.
  destruct c as [[] [] [] [] [] [] [] []]; vm_compute; intros [= <-]; done.
Qed.

Lemma digit_val_pretty d : (d < 10)%N → digit_val (pretty_N_char d) = Some d.
Proof.
  intros H.
  assert (d = 0 ∨ d = 1 ∨ d = 2 ∨ d = 3 ∨ d = 4 ∨ d = 5 ∨ d = 6 ∨ d = 7
          ∨ d = 8 ∨ d = 9)%N as Hd by lia.
  repeat (destruct Hd as [->|Hd]; [done|]). by subst.
Qed.

Lemma digits_val_app acc s1 s2 :
  digits_val acc (s1 +:+ s2) = digits_val acc s1 ≫= λ v, digits_val v s2.
Proof.
  revert acc. induction s1 as [|c s1 IH]; intros acc; simpl; [done|].
  destruct (digit_val c); [apply IH|done].
Qed.

Lemma pretty_N_go_app x s : pretty_N_go x s = pretty_N_go x "" +:+ s.
Proof.
  revert s. induction (N.lt_wf_0 x) as [x _ IH]; intros s.
  destruct (decide (x = 0)%N) as [->|Hx]; [done|].
  assert (x `div` 10 < x)%N as Hlt by (apply N.div_lt; lia).
  rewrite !(pretty_N_go_step x) by lia.
  rewrite (IH _ Hlt (String _ s)), (IH _ Hlt (String _ "")).
  by rewrite app_assoc.
Qed.

Lemma pretty_N_go_snoc x :
  (0 < x)%N →
  pretty_N_go x "" =
  pretty_N_go (x `div` 10) "" +:+ String (pretty_N_char (x `mod` 10)) "".
Proof. intros. rewrite pretty_N_go_step by done. apply pretty_N_go_app. Qed.

Lemma digits_val_pretty_go x : digits_val 0 (pretty_N_go x "") = Some x.
Proof.
  induction (N.lt_wf_0 x) as [x _ IH].
  destruct (decide (x = 0)%N) as [->|Hx]; [done|].
  rewrite pretty_N_go_snoc, digits_val_app by lia.
  rewrite IH by (apply N.div_lt; lia). simpl.
  rewrite digit_val_pretty by (apply N.mod_lt; lia).
  f_equal. pose proof (N.div_mod x 10). lia.
Qed.

Lemma pretty_N_go_head x :
  (0 < x)%N → ∃ c s, pretty_N_go x "" = String c s ∧ c ≠ "0"%char.
Proof.
  induction (N.lt_wf_0 x) as [x _ IH]. intros Hx.
  rewrite pretty_N_go_snoc by done.
  destruct (decide (x `div` 10 = 0)%N) as [E|E].
  - rewrite E. simpl. eexists _, _. split; [done|].
    assert (x < 10)%N by (apply N.div_small_iff in E; lia).
    rewrite N.mod_small by done.
    assert (x = 1 ∨ x = 2 ∨ x = 3 ∨ x = 4 ∨ x = 5 ∨ x = 6 ∨ x = 7
            ∨ x = 8 ∨ x = 9)%N as Hd by lia.
    repeat (destruct Hd as [->|Hd]; [done|]). by subst.
  - destruct (IH (x `div` 10)%N) as (c & s & -> & Hc);
      [apply N.div_lt; lia|by apply N.neq_0_lt_0|].
    simpl. eauto.
Qed.

Lemma pretty_N_go_digits_val s : ∀ acc v,
  digits_val acc s = Some v →
  (0 < acc)%N ∨ (match s with String "0"%char _ => False | _ => True end) →
  pretty_N_go v "" = pretty_N_go acc "" +:+ s.
Proof.
  induction s as [|c s IH]; intros acc v; simpl.
  - intros [= ->] _. by rewrite app_nil_r.
  - destruct (digit_val c) as [d|] eqn:Hd; [|done]. intros Hv Hlead.
    destruct (digit_val_char _ _ Hd) as [Hc Hlt].
    assert (0 < acc * 10 + d)%N as Hpos.
    { destruct Hlead as [?|Hlead]; [lia|].
      destruct (decide (d = 0)%N) as [->|]; [|lia].
      simpl in Hc. subst c. done. }
    rewrite (IH _ _ Hv) by (by left).
    rewrite (pretty_N_go_snoc (acc * 10 + d)) by done.
    replace ((acc * 10 + d) `div` 10)%N with acc
      by (apply N.div_unique with d; lia).
    replace ((acc * 10 + d) `mod` 10)%N with d
      by (apply N.mod_unique with acc; lia).
    rewrite Hc. by rewrite app_assoc.
Qed.

Lemma str_nonneg z :
  0 ≤ z → str z = if decide (z = 0) then "0" else pretty_N_go (Z.to_N z) "".
Proof.
  intros Hz. unfold str, pretty. destruct z as [|p|p]; simpl; [done| |lia].
  unfold pretty_Z, pretty, pretty_positive, pretty, pretty_N.
  by rewrite decide_False by done.
Qed.

Lemma str_free z : free_of "." (str z).
Proof.
  assert (∀ x s, free_of "." s → free_of "." (pretty_N_go x s)) as Hgo.
  { intros x. induction (N.lt_wf_0 x) as [x _ IH]; intros s Hs.
    destruct (decide (x = 0)%N) as [->|Hx]; [done|].
    rewrite pretty_N_go_step by lia. apply IH; [apply N.div_lt; lia|].
    split; [|done]. unfold pretty_N_char. by repeat case_match. }
  assert (∀ x : N, free_of "." (pretty x)) as HN.
  { intros x. unfold pretty, pretty_N. case_decide; [by repeat split|].
    by apply Hgo. }
  unfold str, pretty, pretty_Z. destruct z as [|p|p].
  - by repeat split.
  - apply HN.
  - split; [done|]. apply HN.
Qed.

Lemma int_str z : 0 ≤ z → int (str z) = Ok z.
Proof.
  intros Hz. rewrite str_nonneg by done. case_decide as E; [by subst|].
  destruct (pretty_N_go_head (Z.to_N z)) as (c & s & Hs & Hc); [lia|].
  assert (digits_val 0 (String c s) = Some (Z.to_N z)) as Hv
    by (rewrite <- Hs; apply digits_val_pretty_go).
  rewrite Hs. unfold int, unsigned_int.
  assert (c ≠ "-"%char ∧ c ≠ "+"%char) as [??].
  { simpl in Hv. destruct (digit_val c) eqn:Hd; [|done].
    split; intros ->; done. }
  rewrite Hv.
  replace (Z.of_N (Z.to_N z)) with z by lia.
  destruct c as [[] [] [] [] [] [] [] []]; done.
Qed.

(** *** [str.replace] and [in] *)

Lemma prefix_app p rest : String.prefix p (p +:+ rest) = true.
Proof.
  induction p as [|c p IH]; simpl; [by destruct rest|].
  destruct (ascii_dec c c); [done|congruence].
Qed.

Lemma prefix_inv p s : String.prefix p s = true → ∃ rest, s = p +:+ rest.
Proof.
  revert s. induction p as [|c p IH]; intros s; simpl; [by exists s|].
  destruct s as [|c' s]; simpl; [done|].
  destruct (ascii_dec c c') as [<-|]; [|done].
  intros [rest ->]%IH. by exists rest.
Qed.

Lemma prefix_cons c p c' s :
  String.prefix (String c p) (String c' s) = bool_decide (c = c') && String.prefix p s.
Proof.
  simpl. destruct (ascii_dec c c');
    [by rewrite bool_decide_true|by rewrite bool_decide_false].
Qed.

Lemma length_app s1 s2 :
  String.length (s1 +:+ s2) = (String.length s1 + String.length s2)%nat.
Proof. induction s1; simpl; lia. Qed.

Lemma replace_from_skip old new p rest :
  replace_from old new (String.length p) (p +:+ rest) = replace_from old new 0 rest.
Proof.
  induction p as [|c p IH]; simpl; [|done].
  destruct rest; [done|]. simpl. done.
Qed.

Lemma replace_nil old new : old ≠ "" → replace old new "" = "".
Proof. by destruct old. Qed.

Lemma replace_match old new rest :
  old ≠ "" → replace old new (old +:+ rest) = new +:+ replace old new rest.
Proof.
  destruct old as [|c old]; [done|]. intros _. unfold replace.
  change (String c old +:+ rest) with (String c (old +:+ rest)).
  cbn [replace_from].
  change (String c (old +:+ rest)) with (String c old +:+ rest).
  rewrite prefix_app. f_equal.
  replace (String.length (String c old) - 1)%nat with (String.length old)
    by (simpl; lia).
  apply replace_from_skip.
Qed.

Lemma replace_step old new c s :
  String.prefix old (String c s) = false →
  replace old new (String c s) = String c (replace old new s).
Proof.
  destruct old as [|c' old]; [done|]. intros H. unfold replace.
  cbn [replace_from]. by rewrite H.
Qed.

(** Induction along the scan of [replace old _] *)
Lemma replace_ind old (P : string → Prop) :
  old ≠ "" →
  P "" →
  (∀ rest, P rest → P (old +:+ rest)) →
  (∀ c s, String.prefix old (String c s) = false → P s → P (String c s)) →
  ∀ s, P s.
Proof.
  intros Hold H0 Hm Hs.
  assert (∀ n s, (String.length s < n)%nat → P s) as Hn.
  { induction n as [|n IHn]; intros s Hlen; [lia|].
    destruct s as [|c s]; [done|].
    destruct (String.prefix old (String c s)) eqn:E.
    - apply prefix_inv in E as [rest E]. rewrite E. apply Hm, IHn.
      apply (f_equal String.length) in E. rewrite length_app in E.
      destruct old; [done|]. simpl in *. lia.
    - apply Hs; [done|]. apply IHn. simpl in Hlen. lia. }
  intros s. apply (Hn (S (String.length s))). lia.
Qed.

Lemma occurs_cons t c s : occurs t (String c s) = String.prefix t (String c s) || occurs t s.
Proof. done. Qed.

Lemma occurs_nil_r t : t ≠ "" → occurs t "" = false.
Proof. by destruct t. Qed.

Lemma occurs_app_r t p s : occurs t s = true → occurs t (p +:+ s) = true.
Proof.
  intros H. induction p as [|c p IH]; [done|].
  change (String c p +:+ s) with (String c (p +:+ s)).
  rewrite occurs_cons, IH. apply orb_true_r.
Qed.

Lemma replace_absent old new s : old ≠ "" → occurs old s = false → replace old new s = s.
Proof.
  intros Hold. induction s as [|c s IH]; [by rewrite replace_nil|].
  rewrite occurs_cons. intros [Hp Ho]%orb_false_iff.
  by rewrite replace_step, IH.
Qed.

Lemma chars_app s1 s2 : chars (s1 +:+ s2) = chars s1 ++ chars s2.
Proof. induction s1; simpl; congruence. Qed.

(** A prefix of the output made of characters foreign to [new] is a prefix of
    the input. *)
Lemma prefix_replace_inv old new u : ∀ s,
  old ≠ "" → new ≠ "" → (∀ c, c ∈ chars u → c ∉ chars new) →
  String.prefix u (replace old new s) = true → String.prefix u s = true.
Proof.
  intros s Hold Hnew. revert u.
  induction s as [|c s IH]; intros u Hu.
  - by rewrite replace_nil.
  - destruct u as [|u0 u]; [done|].
    destruct (String.prefix old (String c s)) eqn:E.
    + apply prefix_inv in E as [rest ->]. rewrite replace_match by done.
      destruct new as [|n0 new]; [done|].
      change (String n0 new +:+ ?x) with (String n0 (new +:+ x)).
      rewrite prefix_cons. intros [Hc _]%andb_true_iff.
      apply bool_decide_eq_true in Hc as ->.
      destruct (Hu n0); simpl; set_solver.
    + rewrite replace_step by done. rewrite !prefix_cons.
      intros [-> Hp]%andb_true_iff. simpl. apply IH; [|done].
      intros c' Hc'. apply Hu. simpl. set_solver.
Qed.

Lemma occurs_app_inert tok new s :
  tok ≠ "" → (∀ c, c ∈ chars tok → c ∉ chars new) →
  occurs tok (new +:+ s) = occurs tok s.
Proof.
  intros Htok Hd. induction new as [|n0 new IH]; [done|].
  change (String n0 new +:+ s) with (String n0 (new +:+ s)).
  rewrite occurs_cons, IH by (intros c Hc; specialize (Hd c Hc); simpl in Hd; set_solver).
  destruct tok as [|t0 tok]; [done|]. rewrite prefix_cons.
  rewrite bool_decide_false; [done|]. intros ->.
  destruct (Hd n0); simpl; set_solver.
Qed.

(** Substituting an inert text leaves no occurrence of a token that was
    absent before, whatever is replaced. *)
Lemma occurs_replace_absent tok old new s :
  tok ≠ "" → old ≠ "" → inert tok new →
  occurs tok s = false → occurs tok (replace old new s) = false.
Proof.
  intros Htok Hold [Hnew Hd]. pattern s. revert s.
  apply (replace_ind old); [done|..].
  - intros _. rewrite replace_nil by done. by apply occurs_nil_r.
  - intros rest IH Ho. rewrite replace_match, occurs_app_inert by done.
    apply IH. destruct (occurs tok rest) eqn:E; [|done].
    by rewrite occurs_app_r in Ho.
  - intros c s E IH. rewrite occurs_cons.
    intros [Hp Ho]%orb_false_iff.
    rewrite replace_step, occurs_cons, IH, orb_false_r by done.
    destruct tok as [|t0 tok]; [done|]. rewrite prefix_cons in *.
    destruct (bool_decide (t0 = c)); [|done]. simpl in *.
    destruct (String.prefix tok (replace old new s)) eqn:E'; [|done].
    apply prefix_replace_inv in E'; [congruence|done..|].
    intros c' Hc'. apply Hd. simpl. set_solver.
Qed.

(** Substituting an inert text for a token removes every occurrence of it. *)
Lemma occurs_replace_self tok new s :
  tok ≠ "" → inert tok new → occurs tok (replace tok new s) = false.
Proof.
  intros Htok [Hnew Hd]. pattern s. revert s.
  apply (replace_ind tok); [done|..].
  - rewrite replace_nil by done. by apply occurs_nil_r.
  - intros rest IH. by rewrite replace_match, occurs_app_inert.
  - intros c s E IH.
    rewrite replace_step, occurs_cons, IH, orb_false_r by done.
    destruct tok as [|t0 tok]; [done|]. rewrite prefix_cons in *.
    destruct (bool_decide (t0 = c)); [|done]. simpl in *.
    destruct (String.prefix tok (replace (String t0 tok) new s)) eqn:E'; [|done].
    apply prefix_replace_inv in E'; [congruence|done..|].
    intros c' Hc'. apply Hd. simpl. set_solver.
Qed.

Lemma lower_app s1 s2 : lower (s1 +:+ s2) = lower s1 && lower s2.
Proof. unfold lower. by rewrite chars_app, forallb_app. Qed.

Lemma plain_lower s : plain s = true → lower s = true.
Proof. by destruct s. Qed.

Lemma plain_app_l s1 s2 : plain s1 = true → lower s2 = true → plain (s1 +:+ s2) = true.
Proof.
  destruct s1 as [|c s1]; [done|]. intros H1 H2.
  change (plain (String c s1 +:+ s2)) with (lower (String c s1 +:+ s2)).
  rewrite lower_app, H2. by rewrite (plain_lower _ H1).
Qed.

Lemma plain_app_r s1 s2 : lower s1 = true → plain s2 = true → plain (s1 +:+ s2) = true.
Proof.
  intros H1 H2. destruct s1 as [|c s1]; [done|].
  change (plain (String c s1 +:+ s2)) with (lower (String c s1 +:+ s2)).
  rewrite lower_app, H1. by rewrite (plain_lower _ H2).
Qed.

Lemma plain_inert tok v : upper tok = true → plain v = true → inert tok v.
Proof.
  unfold upper. intros Ht Hv. split; [by intros ->|].
  apply plain_lower in Hv. unfold lower in Hv.
  rewrite forallb_forall in Ht, Hv. intros c Hc Hc'.
  apply list_elem_of_In in Hc, Hc'.
  specialize (Ht _ Hc). specialize (Hv _ Hc'). by rewrite Ht in Hv.
Qed.

Lemma lower_pretty_N_go x s : lower s = true → lower (pretty_N_go x s) = true.
Proof.
  revert s. induction (N.lt_wf_0 x) as [x _ IH]; intros s Hs.
  destruct (decide (x = 0)%N) as [->|Hx]; [done|].
  rewrite pretty_N_go_step by lia. apply IH; [apply N.div_lt; lia|].
  unfold lower in *. simpl. rewrite Hs.
  unfold pretty_N_char. by repeat case_match.
Qed.

Lemma lower_str z : lower (str z) = true.
Proof.
  assert (∀ x : N, lower (pretty x) = true) as HN.
  { intros x. unfold pretty, pretty_N. case_decide; [done|].
    by apply lower_pretty_N_go. }
  unfold str, pretty, pretty_Z. destruct z as [|p|p]; [done|apply HN|].
  change ("-" +:+ ?x) with (String "-" x). unfold lower. simpl. apply HN.
Qed.

Lemma plain_str z : plain (str z) = true.
Proof.
  assert (∀ x : N, plain (pretty x) = true) as HN.
  { intros x. unfold pretty, pretty_N. case_decide as E; [done|].
    destruct (pretty_N_go_head x) as (c & s & Hs & _); [lia|].
    pose proof (lower_pretty_N_go x "" eq_refl) as Hl.
    rewrite Hs in *. done. }
  unfold str, pretty, pretty_Z. destruct z as [|p|p]; [done|apply HN|].
  change ("-" +:+ ?x) with (String "-" x).
  change (lower (String "-" (pretty p)) = true). apply (lower_str (Z.neg p)).
Qed.

(** So a second substitution for the same token changes nothing. *)
Lemma replace_twice tok new new' s :
  tok ≠ "" → inert tok new →
  replace tok new' (replace tok new s) = replace tok new s.
Proof. intros. by apply replace_absent, occurs_replace_self. Qed.

(** *** Texts that cannot complete a token *)

Lemma prefix_app_split u : ∀ v r,
  String.prefix u (v +:+ r) = true →
  String.prefix u v = true ∨ String.prefix v u = true.
Proof.
  induction u as [|c u IH]; intros v r; [intros _; left; by destruct v|].
  destruct v as [|d v]; [intros _; by right|].
  change (String d v +:+ r) with (String d (v +:+ r)).
  rewrite !prefix_cons. intros [Hc Hp]%andb_true_iff.
  apply bool_decide_eq_true in Hc as ->.
  destruct (IH _ _ Hp) as [H|H]; [left|right];
    by rewrite H, bool_decide_true.
Qed.

Lemma prefix_occurs t s : String.prefix t s = true → occurs t s = true.
Proof.
  intros H. destruct s; [cbn [occurs]|rewrite occurs_cons]; by rewrite H.
Qed.

Lemma overlaps_cons c a b :
  overlaps (String c a) b = String.prefix (String c a) b || overlaps a b.
Proof. done. Qed.

Lemma overlaps_app_l p u b : overlaps u b = true → overlaps (p +:+ u) b = true.
Proof.
  intros H. induction p as [|c p IH]; [done|].
  change (String c p +:+ u) with (String c (p +:+ u)).
  rewrite overlaps_cons, IH. apply orb_true_r.
Qed.

Lemma occurs_app_sealed tok v r :
  occurs tok v = false → overlaps v tok = false →
  occurs tok (v +:+ r) = occurs tok r.
Proof.
  induction v as [|c v IH]; [done|].
  rewrite occurs_cons, overlaps_cons.
  intros [Hp Ho]%orb_false_iff [Hq Hv]%orb_false_iff.
  change (String c v +:+ r) with (String c (v +:+ r)).
  rewrite occurs_cons, IH by done.
  destruct (String.prefix tok (String c (v +:+ r))) eqn:E; [|done].
  change (String c (v +:+ r)) with (String c v +:+ r) in E.
  apply prefix_app_split in E as [E|E]; congruence.
Qed.

Lemma prefix_replace_sealed tok old new : ∀ s u p,
  old ≠ "" → tok = p +:+ u →
  occurs new tok = false → overlaps tok new = false →
  String.prefix u (replace old new s) = true → String.prefix u s = true.
Proof.
  induction s as [|c s IH]; intros u p Hold Htok Hn Ho.
  - by rewrite replace_nil.
  - destruct u as [|u0 u]; [done|].
    destruct (String.prefix old (String c s)) eqn:E.
    + apply prefix_inv in E as [rest ->]. rewrite replace_match by done.
      intros [H|H]%prefix_app_split.
      * assert (overlaps (p +:+ String u0 u) new = true) as Hc
          by (apply overlaps_app_l; rewrite overlaps_cons, H; done).
        congruence.
      * assert (occurs new (p +:+ String u0 u) = true) as Hc
          by (by apply occurs_app_r, prefix_occurs).
        congruence.
    + rewrite replace_step by done. rewrite !prefix_cons.
      intros [-> Hp]%andb_true_iff. simpl.
      apply (IH u (p +:+ String u0 "")); [done| |done..].
      by rewrite Htok, app_assoc.
Qed.

Lemma sealed_inv tok v :
  sealed tok v = true →
  occurs tok v = false ∧ occurs v tok = false ∧
  overlaps tok v = false ∧ overlaps v tok = false.
Proof.
  unfold sealed. rewrite !andb_true_iff, !negb_true_iff. tauto.
Qed.

Lemma sealed_ne tok v : sealed tok v = true → v ≠ "".
Proof. intros (_ & H & _)%sealed_inv ->. by destruct tok. Qed.

(** Substituting a sealed text leaves no occurrence of a token that was
    absent before, whatever is replaced. *)
Lemma occurs_replace_sealed tok old new s :
  old ≠ "" → sealed tok new = true →
  occurs tok s = false → occurs tok (replace old new s) = false.
Proof.
  intros Hold (H1 & H2 & H3 & H4)%sealed_inv. pattern s. revert s.
  apply (replace_ind old); [done|..].
  - intros Ho. by rewrite replace_nil.
  - intros rest IH Ho. rewrite replace_match, occurs_app_sealed by done.
    apply IH. destruct (occurs tok rest) eqn:E; [|done].
    by rewrite occurs_app_r in Ho.
  - intros c s E IH. rewrite occurs_cons.
    intros [Hp Ho]%orb_false_iff.
    rewrite replace_step, occurs_cons, IH, orb_false_r by done.
    destruct tok as [|t0 tok]; [done|]. rewrite prefix_cons in *.
    destruct (bool_decide (t0 = c)); [|done]. simpl in *.
    destruct (String.prefix tok (replace old new s)) eqn:E'; [|done].
    apply (prefix_replace_sealed (String t0 tok) old new s tok (String t0 ""))
      in E'; [congruence|done..].
Qed.

(** Substituting a sealed text for a token removes every occurrence of it. *)
Lemma occurs_replace_token tok new s :
  sealed tok new = true → occurs tok (replace tok new s) = false.
Proof.
  intros Hs. pose proof Hs as (H1 & H2 & H3 & H4)%sealed_inv.
  assert (tok ≠ "") as Htok by (intros ->; by destruct new).
  pattern s. revert s.
  apply (replace_ind tok); [done|..].
  - rewrite replace_nil by done. by apply occurs_nil_r.
  - intros rest IH. by rewrite replace_match, occurs_app_sealed.
  - intros c s E IH.
    rewrite replace_step, occurs_cons, IH, orb_false_r by done.
    destruct tok as [|t0 tok]; [done|]. rewrite prefix_cons in *.
    destruct (bool_decide (t0 = c)); [|done]. simpl in *.
    destruct (String.prefix tok (replace (String t0 tok) new s)) eqn:E';
      [|done].
    apply (prefix_replace_sealed (String t0 tok) (String t0 tok) new s tok
             (String t0 "")) in E'; [congruence|done..].
Qed.

(** Texts with a character in common *)
Lemma prefix_head c t s : String.prefix (String c t) s = true → c ∈ chars s.
Proof.
  destruct s as [|d s]; [done|]. rewrite prefix_cons.
  intros [Hc _]%andb_true_iff. apply bool_decide_eq_true in Hc as ->.
  simpl. set_solver.
Qed.

Lemma occurs_head c t s : occurs (String c t) s = true → c ∈ chars s.
Proof.
  induction s as [|d s IH]; [done|]. rewrite occurs_cons.
  intros [H|H]%orb_true_iff; [by eapply prefix_head|].
  simpl. set_solver.
Qed.

Lemma overlaps_shared a b :
  overlaps a b = true → ∃ c, c ∈ chars a ∧ c ∈ chars b.
Proof.
  induction a as [|c a IH]; [done|]. rewrite overlaps_cons.
  intros [H|H]%orb_true_iff.
  - exists c. split; [simpl; by left|by eapply prefix_head].
  - destruct (IH H) as (d & ? & ?). exists d. split; [simpl; by right|done].
Qed.

Lemma inert_sealed tok v : tok ≠ "" → inert tok v → sealed tok v = true.
Proof.
  intros Htok [Hv Hd]. unfold sealed.
  rewrite !andb_true_iff, !negb_true_iff. split_and!.
  - destruct tok as [|t0 tok]; [done|].
    destruct (occurs (String t0 tok) v) eqn:E; [|done].
    apply occurs_head in E. destruct (Hd t0); [simpl; set_solver|done].
  - destruct v as [|v0 v]; [done|].
    destruct (occurs (String v0 v) tok) eqn:E; [|done].
    apply occurs_head in E. destruct (Hd v0); [done|simpl; set_solver].
  - destruct (overlaps tok v) eqn:E; [|done].
    apply overlaps_shared in E as (c & ? & ?). by destruct (Hd c).
  - destruct (overlaps v tok) eqn:E; [|done].
    apply overlaps_shared in E as (c & ? & ?). by destruct (Hd c).
Qed.

Lemma prefix_app_l v r : ∀ s,
  String.prefix (v +:+ r) s = true → String.prefix v s = true.
Proof.
  induction v as [|c v IH]; intros s; [intros _; by destruct s|].
  change (String c v +:+ r) with (String c (v +:+ r)).
  destruct s as [|d s]; [done|]. rewrite !prefix_cons.
  intros [-> Hp]%andb_true_iff. simpl. by apply IH.
Qed.

Lemma occurs_app_l v r s : occurs (v +:+ r) s = true → occurs v s = true.
Proof.
  induction s as [|d s IH].
  - cbn [occurs]. rewrite !orb_false_r. apply prefix_app_l.
  - rewrite !occurs_cons. intros [H|H]%orb_true_iff.
    + by rewrite (prefix_app_l _ _ _ H).
    + rewrite IH by done. apply orb_true_r.
Qed.

Lemma overlaps_app_r tok v r :
  overlaps tok (v +:+ r) = true →
  overlaps tok v = true ∨ occurs v tok = true.
Proof.
  induction tok as [|c t IH]; [done|]. rewrite !overlaps_cons, occurs_cons.
  intros [[H|H]%prefix_app_split|H]%orb_true_iff.
  - left. by rewrite H.
  - right. by rewrite H.
  - destruct (IH H) as [H'|H']; [left|right]; rewrite H'; apply orb_true_r.
Qed.

Lemma overlaps_app v r tok :
  overlaps (v +:+ r) tok = true →
  overlaps v tok = true ∨ overlaps r tok = true.
Proof.
  induction v as [|c v IH]; [by right|].
  change (String c v +:+ r) with (String c (v +:+ r)).
  rewrite !overlaps_cons. intros [H|H]%orb_true_iff.
  - left. change (String c (v +:+ r)) with (String c v +:+ r) in H.
    by rewrite (prefix_app_l _ _ _ H).
  - destruct (IH H) as [H'|H']; [left|by right]. rewrite H'.
    apply orb_true_r.
Qed.

(** A sealed text stays sealed when a text follows it that neither contains
    the token nor ends with a beginning of it. *)
Lemma sealed_app tok v r :
  sealed tok v = true → occurs tok r = false → overlaps r tok = false →
  sealed tok (v +:+ r) = true.
Proof.
  intros (H1 & H2 & H3 & H4)%sealed_inv Hr1 Hr2. unfold sealed.
  rewrite !andb_true_iff, !negb_true_iff. split_and!.
  - by rewrite occurs_app_sealed.
  - destruct (occurs (v +:+ r) tok) eqn:E; [|done].
    apply occurs_app_l in E. congruence.
  - destruct (overlaps tok (v +:+ r)) eqn:E; [|done].
    apply overlaps_app_r in E as [E|E]; congruence.
  - destruct (overlaps (v +:+ r) tok) eqn:E; [|done].
    apply overlaps_app in E as [E|E]; congruence.
Qed.

End PyStrFacts.

(** ** The address helpers *)

Section Address.
Import PyStr PyStrFacts.

#[local] Arguments String.append !s1 s2 : simpl nomatch.

Lemma octet_ok_cons c s :
  c ≠ "0"%char →
  octet_ok (String c s) =
  match digits_val 0 (String c s) with
  | Some v => (v <=? 255)%N
  | None => false
  end.
Proof. intros Hc. destruct c as [[] [] [] [] [] [] [] []]; done. Qed.

Lemma octet_ok_str z : 0 ≤ z → octet_ok (str z) = bool_decide (z ≤ 255).
Proof.
  intros Hz. rewrite str_nonneg by done. case_decide as E; [by subst|].
  destruct (pretty_N_go_head (Z.to_N z)) as (c & s & Hs & Hc); [lia|].
  rewrite Hs, octet_ok_cons, <- Hs, digits_val_pretty_go by done.
  destruct (N.leb_spec (Z.to_N z) 255);
    [rewrite bool_decide_true|rewrite bool_decide_false]; (done || lia).
Qed.

Lemma octet_ok_canon p :
  octet_ok p = true → ∃ d, 0 ≤ d ≤ 255 ∧ p = str d.
Proof.
  intros Hp. destruct p as [|c s]; [done|].
  destruct (decide (c = "0"%char)) as [->|Hc].
  { destruct s; [|done]. exists 0. by split; [lia|]. }
  rewrite octet_ok_cons in Hp by done.
  destruct (digits_val 0 (String c s)) as [v|] eqn:Hv; [|done].
  apply N.leb_le in Hp.
  assert (pretty_N_go v "" = String c s) as Hgo.
  { rewrite (pretty_N_go_digits_val _ _ _ Hv); [done|].
    right. destruct c as [[] [] [] [] [] [] [] []]; done. }
  exists (Z.of_N v). split; [lia|].
  assert (v ≠ 0%N) by (intros ->; done).
  rewrite str_nonneg by lia. rewrite decide_False by lia.
  by rewrite N2Z.id.
Qed.

Lemma octet_ok_free p : octet_ok p = true → free_of "." p.
Proof. intros (d & _ & ->)%octet_ok_canon. apply str_free. Qed.

Lemma dotted_join a b c d : dotted a b c d = join "." [a; b; c; str d].
Proof. done. Qed.

Lemma split_dotted a b c d :
  free_of "." a → free_of "." b → free_of "." c →
  split "." (dotted a b c d) = [a; b; c; str d].
Proof.
  intros. rewrite dotted_join. apply split_join; [done|].
  repeat constructor; auto using str_free.
Qed.

Lemma valid_inv ip :
  is_valid_ipv4_address ip = true →
  ∃ a b c d, ip = dotted a b c d ∧ 0 ≤ d ≤ 255 ∧
    octet_ok a = true ∧ octet_ok b = true ∧ octet_ok c = true.
Proof.
  unfold is_valid_ipv4_address, inet_pton. intros H.
  destruct (split "." ip) as [|a [|b [|c [|ds [|]]]]] eqn:E; try done.
  apply andb_true_iff in H as [H Hd]. apply andb_true_iff in H as [H Hc].
  apply andb_true_iff in H as [Ha Hb].
  destruct (octet_ok_canon _ Hd) as (d & Hr & ->).
  exists a, b, c, d. split_and!; try (done || lia).
  by rewrite dotted_join, <- E, join_split.
Qed.

Lemma valid_dotted a b c d :
  free_of "." a → free_of "." b → free_of "." c → 0 ≤ d →
  is_valid_ipv4_address (dotted a b c d) =
  octet_ok a && octet_ok b && octet_ok c && bool_decide (d ≤ 255).
Proof.
  intros. unfold is_valid_ipv4_address, inet_pton.
  by rewrite split_dotted, octet_ok_str.
Qed.

Lemma last_octet_dotted a b c d :
  free_of "." a → free_of "." b → free_of "." c → 0 ≤ d →
  last_octet (dotted a b c d) = Ok d.
Proof.
  intros. unfold last_octet. rewrite split_dotted by done. simpl.
  by apply int_str.
Qed.

Lemma get_next_ip_dotted a b c d :
  free_of "." a → free_of "." b → free_of "." c → 0 ≤ d →
  get_next_ip (dotted a b c d) = Ok (dotted a b c (d + 1)).
Proof.
  intros. unfold get_next_ip. rewrite split_dotted by done. simpl.
  by rewrite int_str.
Qed.

Lemma iter_next_ip_dotted a b c (n : nat) : ∀ d,
  free_of "." a → free_of "." b → free_of "." c → 0 ≤ d →
  iter_next_ip n (dotted a b c d) = Ok (dotted a b c (d + Z.of_nat n)).
Proof.
  induction n as [|n IH]; intros d ????; simpl.
  - by rewrite Z.add_0_r.
  - rewrite get_next_ip_dotted by done. simpl. rewrite IH by (done || lia).
    do 2 f_equal. lia.
Qed.

Lemma can_ip_satisfy_range_dotted a b c d n :
  free_of "." a → free_of "." b → free_of "." c → 0 ≤ d → 0 ≤ d + n →
  can_ip_satisfy_range (dotted a b c d) n =
  Ok (octet_ok a && octet_ok b && octet_ok c && bool_decide (d + n ≤ 255)).
Proof.
  intros. unfold can_ip_satisfy_range. rewrite split_dotted by done. simpl.
  rewrite int_str by done. simpl. f_equal.
  by apply (valid_dotted a b c (d + n)).
Qed.

Lemma can_ip_satisfy_range_total ip n :
  is_valid_ipv4_address ip = true → ∃ fits, can_ip_satisfy_range ip n = Ok fits.
Proof.
  intros (a & b & c & d & -> & Hd & Ha & Hb & Hc)%valid_inv.
  unfold can_ip_satisfy_range.
  rewrite split_dotted by auto using octet_ok_free. simpl.
  rewrite int_str by lia. simpl. eauto.
Qed.

Lemma get_cidr_dotted a b c d :
  free_of "." a → free_of "." b → free_of "." c →
  get_cidr (dotted a b c d) = Ok (a +:+ "." +:+ b +:+ "." +:+ c +:+ ".0/24").
Proof. intros. unfold get_cidr. by rewrite split_dotted. Qed.

Lemma get_cidr_escape_dotted a b c d :
  free_of "." a → free_of "." b → free_of "." c →
  get_cidr_escape (dotted a b c d) =
  Ok (a +:+ "." +:+ b +:+ "." +:+ c +:+ ".0\/24").
Proof. intros. unfold get_cidr_escape. by rewrite split_dotted. Qed.

Lemma get_default_ip_dotted a b c d :
  free_of "." a → free_of "." b → free_of "." c →
  get_default_ip_for_condor (dotted a b c d) =
  Ok (a +:+ "." +:+ b +:+ "." +:+ c +:+ ".*").
Proof. intros. unfold get_default_ip_for_condor. by rewrite split_dotted. Qed.

(** C7. For every valid IPv4 address [a.b.c.d] and every [n >= 0],
    [can_ip_satisfy_range] answers true exactly when [d + n <= 255], and
    when it does, [get_next_ip] applied [n] times gives [a.b.c.(d+n)]. *)
Theorem can_fit_iff_and_next_iterated (ip : string) :
  is_valid_ipv4_address ip = true →
  ∃ a b c d,
    ip = dotted a b c d ∧ last_octet ip = Ok d ∧ 0 ≤ d ≤ 255 ∧
    ∀ n, 0 ≤ n →
      can_ip_satisfy_range ip n = Ok (bool_decide (d + n ≤ 255)) ∧
      (d + n ≤ 255 →
       iter_next_ip (Z.to_nat n) ip = Ok (dotted a b c (d + n))).
Proof.
  intros (a & b & c & d & -> & Hd & Ha & Hb & Hc)%valid_inv.
  pose proof (octet_ok_free _ Ha). pose proof (octet_ok_free _ Hb).
  pose proof (octet_ok_free _ Hc).
  exists a, b, c, d. split_and!; try done; try lia.
  - apply last_octet_dotted; (done || lia).
  - intros n Hn. split.
    + rewrite can_ip_satisfy_range_dotted by (done || lia).
      by rewrite Ha, Hb, Hc.
    + intros _. rewrite iter_next_ip_dotted by (done || lia).
      do 2 f_equal. lia.
Qed.

Lemma can_fit_iff_and_next_iterated_witness :
  ∃ a b c d,
    "10.0.0.250" = dotted a b c d ∧ last_octet "10.0.0.250" = Ok d ∧
    0 ≤ d ≤ 255 ∧
    ∀ n, 0 ≤ n →
      can_ip_satisfy_range "10.0.0.250" n = Ok (bool_decide (d + n ≤ 255)) ∧
      (d + n ≤ 255 →
       iter_next_ip (Z.to_nat n) "10.0.0.250" = Ok (dotted a b c (d + n))).
Proof. apply (can_fit_iff_and_next_iterated "10.0.0.250"). reflexivity. Defined.

(** C5, as the code has it. On a valid address whose last octet is 255,
    [get_next_ip] does not fail and does not wrap around: it returns the
    text [a.b.c.256], which [is_valid_ipv4_address] rejects. *)
Theorem next_ip_past_255 (ip : string) :
  is_valid_ipv4_address ip = true →
  last_octet ip = Ok 255 →
  ∃ a b c,
    ip = dotted a b c 255 ∧
    get_next_ip ip = Ok (dotted a b c 256) ∧
    is_valid_ipv4_address (dotted a b c 256) = false.
Proof.
  intros (a & b & c & d & -> & Hd & Ha & Hb & Hc)%valid_inv Hl.
  pose proof (octet_ok_free _ Ha). pose proof (octet_ok_free _ Hb).
  pose proof (octet_ok_free _ Hc).
  rewrite last_octet_dotted in Hl by (done || lia).
  injection Hl as ->. exists a, b, c. split_and!; [done| |].
  - by rewrite get_next_ip_dotted.
  - rewrite valid_dotted by done. by rewrite Ha, Hb, Hc.
Qed.

Lemma next_ip_past_255_witness :
  ∃ a b c,
    "10.0.0.255" = dotted a b c 255 ∧
    get_next_ip "10.0.0.255" = Ok (dotted a b c 256) ∧
    is_valid_ipv4_address (dotted a b c 256) = false.
Proof. apply (next_ip_past_255 "10.0.0.255"); reflexivity. Defined.

(** C5, as stated, fails: on [10.0.0.255] the next-address operation returns
    an address string with last octet 256 instead of failing. *)
Lemma next_ip_255_returns :
  get_next_ip "10.0.0.255" = Ok "10.0.0.256" ∧
  ¬ ∃ e, get_next_ip "10.0.0.255" = Raise e.
Proof. split; [reflexivity|]. intros [e H]. vm_compute in H. discriminate. Qed.

End Address.

(** ** Running the monad *)

Section RunFacts.
Context (W : world).

Lemma bind_run {A B} (m : M A) (f : A → M B) st :
  (m ≫= f) st =
  match m st with
  | (Ok x, st') => f x st'
  | (Raise e, st') => (Raise e, st')
  end.
Proof. done. Qed.

Lemma bind_ok {A B} (m : M A) (f : A → M B) st x st' :
  m st = (Ok x, st') → (m ≫= f) st = f x st'.
Proof. intros H. by rewrite bind_run, H. Qed.

Lemma bind_raise {A B} (m : M A) (f : A → M B) st e st' :
  m st = (Raise e, st') → (m ≫= f) st = (Raise e, st').
Proof. intros H. by rewrite bind_run, H. Qed.

Lemma alter_insert (h : list obj) l o (f : obj → obj) :
  h !! l = Some o → alter f l h = <[l:=f o]> h.
Proof.
  revert l. induction h as [|x h IH]; intros [|l] H; simplify_eq/=; [done|].
  f_equal. by apply IH.
Qed.

Lemma insert_insert_heap (h : list obj) l o o' :
  <[l:=o']> (<[l:=o]> h) = <[l:=o']> h.
Proof.
  revert l. induction h as [|x h IH]; intros [|l]; simpl; [done..|].
  by rewrite IH.
Qed.

Lemma lookup_insert_heap (h : list obj) l o o' :
  h !! l = Some o → <[l:=o']> h !! l = Some o'.
Proof. intros H. apply list_lookup_insert_eq. by eapply lookup_lt_Some. Qed.

Lemma heap_alter (h : list obj) l o (f : obj → obj) :
  h !! l = Some o → alter f l h = <[l:=f o]> h.
Proof. apply alter_insert. Qed.

Lemma heap_alter_insert (h : list obj) l o o1 (f : obj → obj) :
  h !! l = Some o → alter f l (<[l:=o1]> h) = <[l:=f o1]> h.
Proof.
  intros H. rewrite (alter_insert _ _ o1) by (by eapply lookup_insert_heap).
  apply insert_insert_heap.
Qed.

End RunFacts.

(** Symbolic execution: [munfold] exposes the primitives, [mstep H] runs the
    first bind on the current state, where [H : heap st !! l = Some o] is the
    dict the code works on. *)
Ltac heap_norm H :=
  repeat first
    [ rewrite (heap_alter_insert _ _ _ _ _ H)
    | rewrite (heap_alter _ _ _ _ H)
    | rewrite (lookup_insert_heap _ _ _ _ H)
    | rewrite H ].

Ltac munfold :=
  unfold obj_get, obj_set, deref, ipMap_set, ipMap_get, ipMap_mem, ipMap_new,
    sleep, emit, lift, ret, raise, mobius, comet; unfold mret, M_ret.

Ltac mstep H :=
  progress (cbv beta iota; try rewrite bind_run; cbv beta iota;
            cbn [heap ipMap trace]; heap_norm H;
            cbn [default from_option id]).

Ltac mrun H := repeat mstep H.

(** [mnorm]: run the binds whose first step is a [ret], a [lift] or an
    already known result. *)
Ltac mnorm :=
  repeat (progress (rewrite ?bind_run;
                    unfold ret, mret, M_ret, raise, lift;
                    cbv beta iota zeta;
                    cbn [heap ipMap trace fst snd negb app])).

(** [cc_step Hp tac]: run the [create_compute] call at the head of the goal
    with [create_compute_ok]; [Hp] is its [node_payload] and [tac] finds the
    dict on the heap. *)
Ltac cc_step lemma Hp tac :=
  match goal with
  | |- context [create_compute ?W ?host ?nn ?ip ?le ?wid ?l ?c ?old ?site
                  ?ss ?sn ?sub ?fip ?st] =>
      match type of Hp with
      | node_payload ?o1 _ _ _ _ _ _ _ _ _ _ _ = _ =>
          let H := fresh "Hl" in
          assert (heap st !! l = Some o1) as H by (cbn [heap]; tac);
          rewrite (lemma W host nn ip le wid l c old site ss sn sub fip st
                     _ _ _ H Hp);
          clear H
      end
  end.

Section CreateCompute.
Context (W : world).

(** [create_compute] on the dict [o], when nothing is raised: the dict sent
    and left behind is the one [node_payload] gives, the name is recorded in
    [ipMap] when a start IP was given, and the call is the one new event. *)
Lemma create_compute_ok host nodename ipStart leaseEnd wid l count old site
    ss sn subnet fip st o o' name :
  heap st !! l = Some o →
  node_payload o nodename ipStart leaseEnd wid count old site ss sn subnet fip
    = Ok (o', name) →
  create_compute W host nodename ipStart leaseEnd wid l count old site ss sn
    subnet fip st =
  let c := Mobius.create_compute host wid o' in
  let r := mobius_reply W (trace st) c in
  (Ok (r, name),
   {| heap := <[l:=o']> (heap st);
      ipMap := match ipStart with
               | Some ip => <[name:=ip]> (ipMap st)
               | None => ipMap st
               end;
      trace := trace st ++ [EMobius c r] |}).
Proof.
  intros Hl Hp. unfold create_compute, node_payload in *. munfold.
  mstep Hl.
  destruct (o !! "hostNamePrefix") as [pv|]; [|done]. simpl in Hp.
  mstep Hl.
  destruct (resolve_name pv site wid nodename count) as [nm|]; [|done].
  simpl in Hp.
  destruct ipStart as [ip|]; simpl in Hp;
    [destruct (get_default_ip_for_condor ip) as [d|] eqn:Ed; [|done];
     simpl in Hp|];
  mrun Hl; try rewrite Ed; mrun Hl.
  all: destruct leaseEnd as [le|]; mrun Hl.
  all: destruct (_ !! "postBootScript") as [sv|] eqn:Es; [|done]; simpl in Hp.
  all: destruct sv; simpl in Hp;
    [|destruct (render _ _ _ _ _ _ _ _ _ _) as [rs|] eqn:Er; [|done]..];
    simpl in Hp; simplify_eq; mrun Hl; try rewrite Er; mrun Hl;
    rewrite ?(list_insert_id _ _ _ Hl); done.
Qed.

(** When something is raised, it is raised before the remote call. *)
Lemma create_compute_raise host nodename ipStart leaseEnd wid l count old site
    ss sn subnet fip st o e :
  heap st !! l = Some o →
  node_payload o nodename ipStart leaseEnd wid count old site ss sn subnet fip
    = Raise e →
  ∃ st',
    create_compute W host nodename ipStart leaseEnd wid l count old site ss sn
      subnet fip st = (Raise e, st') ∧
    trace st' = trace st ∧
    length (heap st') = length (heap st).
Proof.
  intros Hl Hp. unfold create_compute, node_payload in *. munfold.
  assert (∀ h i t, ∃ st', (Raise e : res (response * string),
      {| heap := h; ipMap := i; trace := t |}) = (Raise e, st') ∧
      trace st' = t ∧ length (heap st') = length h) as Hfin by (by eexists).
  mstep Hl.
  destruct (o !! "hostNamePrefix") as [pv|]; simpl in Hp;
    [|simplify_eq; destruct st; apply Hfin].
  mstep Hl.
  destruct (resolve_name pv site wid nodename count) as [nm|]; simpl in Hp;
    [|simplify_eq; destruct st; apply Hfin].
  destruct ipStart as [ip|]; simpl in Hp;
    [destruct (get_default_ip_for_condor ip) as [d|] eqn:Ed; simpl in Hp|];
  mrun Hl; try rewrite Ed; mrun Hl.
  2: { simplify_eq. eexists. split_and!; [done..|]. apply length_insert. }
  all: destruct leaseEnd as [le|]; mrun Hl.
  all: destruct (_ !! "postBootScript") as [sv|] eqn:Es; simpl in Hp.
  all: try (simplify_eq; eexists; split_and!; [done..|];
            cbn [heap]; by rewrite ?length_insert).
  all: destruct sv; simpl in Hp; try (by simplify_eq).
  all: destruct (render _ _ _ _ _ _ _ _ _ _) as [rs|] eqn:Er;
    simpl in Hp; simplify_eq; mrun Hl; try rewrite Er; mrun Hl;
    try (unfold render in Er; simpl in Er; simplify_eq);
    eexists; split_and!; [done..|]; cbn [heap]; by rewrite ?length_insert.
Qed.

End CreateCompute.

(** ** Rendering the boot script *)

Section Rendering.
Import PyStr PyStrFacts.

#[local] Arguments String.append !s1 s2 : simpl nomatch.

Lemma plain_dotted_tail a b c (t : string) :
  octet_ok a = true → octet_ok b = true → octet_ok c = true →
  lower t = true →
  plain (a +:+ "." +:+ b +:+ "." +:+ c +:+ "." +:+ t) = true.
Proof.
  intros (da & _ & ->)%octet_ok_canon (db & _ & ->)%octet_ok_canon
         (dc & _ & ->)%octet_ok_canon Ht.
  apply plain_app_l; [apply plain_str|].
  rewrite !lower_app, !lower_str, Ht. done.
Qed.

Lemma valid_plain ip : is_valid_ipv4_address ip = true → plain ip = true.
Proof.
  intros (a & b & c & d & -> & _ & Ha & Hb & Hc)%valid_inv.
  apply plain_dotted_tail; auto using lower_str.
Qed.

Lemma cidr_plain ip x :
  is_valid_ipv4_address ip = true → get_cidr ip = Ok x → plain x = true.
Proof.
  intros (a & b & c & d & -> & _ & Ha & Hb & Hc)%valid_inv.
  rewrite get_cidr_dotted by auto using octet_ok_free. intros [= <-].
  by apply (plain_dotted_tail a b c "0/24").
Qed.

Lemma default_ip_plain ip x :
  is_valid_ipv4_address ip = true → get_default_ip_for_condor ip = Ok x →
  plain x = true.
Proof.
  intros (a & b & c & d & -> & _ & Ha & Hb & Hc)%valid_inv.
  rewrite get_default_ip_dotted by auto using octet_ok_free. intros [= <-].
  by apply (plain_dotted_tail a b c "*").
Qed.

(** After an address and a subnet were substituted, substituting again (the
    second [if] of lines 555-558) changes nothing. *)
Lemma peer_step_once f subnet ip s :
  plain f = true → (∀ x, subnet = Some x → plain x = true) →
  let s1 := replace "IPADDR" f s in
  let s2 := match subnet with Some sn => replace "SUBNET" sn s1 | None => s1 end in
  let s3 := replace "IPADDR" ip s2 in
  match subnet with Some sn => replace "SUBNET" sn s3 | None => s3 end = s2.
Proof.
  intros Hf Hsub s1 s2 s3.
  assert (occurs "IPADDR" s1 = false) as H1
    by (apply occurs_replace_self; [done|by apply plain_inert]).
  assert (occurs "IPADDR" s2 = false) as H2.
  { subst s2. destruct subnet as [x|]; [|done].
    apply occurs_replace_absent; [done..| |done].
    apply plain_inert; [done|]. by apply Hsub. }
  assert (s3 = s2) as -> by (by apply replace_absent).
  subst s2. destruct subnet as [x|]; [|done].
  apply replace_twice; [done|]. apply plain_inert; [done|]. by apply Hsub.
Qed.

(** C6. With a forward IP and a start IP both present, the rendering is the
    one of the specification, in which the peer-address token receives the
    forward IP and the start-IP branch is not taken. The forward IP is an IPv4
    address and the subnet, when present, is the [get_cidr] of one, as in
    [main]. *)
Theorem render_prefers_forward_ip (s wid old nm : string)
    (ss : option string) (f : string) (subnet : option string) (ip : string)
    (defIP sn : option string) :
  is_valid_ipv4_address f = true →
  (∀ x, subnet = Some x →
        ∃ ip', is_valid_ipv4_address ip' = true ∧ get_cidr ip' = Ok x) →
  render (VStr s) wid old nm ss (VStr f) subnet (Some ip) defIP sn =
  Ok (render_spec s wid old nm ss (Some f) subnet (Some ip) defIP sn).
Proof.
  intros Hf Hsub. unfold render, render_spec. cbn [replace_method mbind res_bind].
  f_equal.
  rewrite (peer_step_once f subnet ip); [done|by apply valid_plain|].
  intros x Hx. destruct (Hsub x Hx) as (ip' & Hv & Hc). by eapply cidr_plain.
Qed.

Lemma render_prefers_forward_ip_witness :
  render (VStr "route IPADDR via SUBNET") "wf1" "NODENAME" "wf1-m1" None
    (VStr "192.168.10.5") (Some "10.0.1.0/24") (Some "10.0.0.11") None None =
  Ok (render_spec "route IPADDR via SUBNET" "wf1" "NODENAME" "wf1-m1" None
        (Some "192.168.10.5") (Some "10.0.1.0/24") (Some "10.0.0.11")
        None None).
Proof.
  apply (render_prefers_forward_ip "route IPADDR via SUBNET" "wf1" "NODENAME"
           "wf1-m1" None "192.168.10.5" (Some "10.0.1.0/24") "10.0.0.11").
  - reflexivity.
  - intros x [= <-]. exists "10.0.1.7". split; reflexivity.
Defined.

End Rendering.

(** ** The events of a run *)

Section Emits.
Context (W : world).

Lemma emits_ret {A} (x : A) (P : res A → list event → Prop) :
  P (Ok x) [] → emits (ret x) P.
Proof. intros H st. exists []. by rewrite app_nil_r. Qed.

Lemma emits_raise {A} e (P : res A → list event → Prop) :
  P (Raise e) [] → emits (raise e) P.
Proof. intros H st. exists []. by rewrite app_nil_r. Qed.

Lemma emits_bind {A B} (m : M A) (f : A → M B) P1 (P : res B → list event → Prop) :
  emits m P1 →
  (∀ x evs1, P1 (Ok x) evs1 → emits (f x) (λ r evs2, P r (evs1 ++ evs2))) →
  (∀ e evs1, P1 (Raise e) evs1 → P (Raise e) evs1) →
  emits (m ≫= f) P.
Proof.
  intros Hm Hf He st. rewrite bind_run.
  destruct (Hm st) as (evs1 & Ht1 & H1).
  destruct (m st) as [[x|e] st1]; simpl in *.
  - destruct (Hf x evs1 H1 st1) as (evs2 & Ht2 & H2).
    exists (evs1 ++ evs2). by rewrite Ht2, Ht1, app_assoc.
  - exists evs1. eauto.
Qed.

Lemma emits_silent_bind {A B} (m : M A) (f : A → M B) (P : res B → list event → Prop) :
  silent m →
  (∀ x, emits (f x) P) →
  (∀ e, P (Raise e) []) →
  emits (m ≫= f) P.
Proof.
  intros Hm Hf He st. rewrite bind_run. specialize (Hm st).
  destruct (m st) as [[x|e] st1]; simpl in *.
  - destruct (Hf x st1) as (evs & Ht & H). exists evs. by rewrite Ht, Hm.
  - exists []. by rewrite app_nil_r.
Qed.

Lemma emits_ret_bind {A B} (x : A) (f : A → M B) P :
  emits (f x) P → emits (ret x ≫= f) P.
Proof. intros H st. apply H. Qed.

Lemma emits_lift_bind {A B} (x : A) (f : A → M B) P :
  emits (f x) P → emits (lift (Ok x) ≫= f) P.
Proof. intros H st. apply H. Qed.

Lemma emits_weaken {A} (m : M A) (P Q : res A → list event → Prop) :
  emits m P → (∀ r evs, P r evs → Q r evs) → emits m Q.
Proof. intros Hm HPQ st. destruct (Hm st) as (evs & ? & ?). eauto. Qed.

Lemma emits_silent {A} (m : M A) (P : res A → list event → Prop) :
  silent m → (∀ r, P r []) → emits m P.
Proof. intros Hm HP st. exists []. by rewrite app_nil_r. Qed.

Lemma silent_ret {A} (x : A) : silent (ret x).
Proof. done. Qed.
Lemma silent_raise {A} e : silent (raise e : M A).
Proof. done. Qed.
Lemma silent_lift {A} (r : res A) : silent (lift r).
Proof. done. Qed.
Lemma silent_obj_get l k : silent (obj_get l k).
Proof. intros st. unfold obj_get. by destruct (_ !! k). Qed.
Lemma silent_obj_set l k v : silent (obj_set l k v).
Proof. done. Qed.
Lemma silent_deref l : silent (deref l).
Proof. done. Qed.
Lemma silent_json_load o : silent (json_load o).
Proof. done. Qed.
Lemma silent_ipMap_new : silent ipMap_new.
Proof. done. Qed.
Lemma silent_ipMap_set k v : silent (ipMap_set k v).
Proof. done. Qed.
Lemma silent_ipMap_get k : silent (ipMap_get k).
Proof. intros st. unfold ipMap_get. by destruct (_ !! k). Qed.
Lemma silent_ipMap_mem k : silent (ipMap_mem k).
Proof. done. Qed.

Lemma silent_bind {A B} (m : M A) (f : A → M B) :
  silent m → (∀ x, silent (f x)) → silent (m ≫= f).
Proof.
  intros Hm Hf st. rewrite bind_run. specialize (Hm st).
  destruct (m st) as [[x|e] st1]; simpl in *; [|done].
  by rewrite Hf.
Qed.

Lemma silent_load_if_exists d : silent (load_if_exists W d).
Proof. unfold load_if_exists. by destruct (files W !! d). Qed.

Lemma emits_mobius c (P : res response → list event → Prop) :
  (∀ r, P (Ok r) [EMobius c r]) → emits (mobius W c) P.
Proof. intros H st. eexists. split; [done|]. apply H. Qed.

Lemma emits_emit e (P : res unit → list event → Prop) :
  P (Ok tt) [e] → emits (emit e) P.
Proof. intros H st. eexists. split; [done|]. apply H. Qed.

End Emits.

Create HintDb silent.

#[global] Hint Resolve silent_ret silent_raise silent_lift silent_obj_get
  silent_obj_set silent_deref silent_json_load silent_ipMap_new
  silent_ipMap_set silent_ipMap_get silent_ipMap_mem silent_load_if_exists
  : silent.

(** [silent] goals: split binds, split the [match]es of the code. *)
Ltac silent_tac :=
  repeat first
    [ progress intros
    | apply silent_bind
    | solve [auto with silent]
    | match goal with
      | |- silent (match ?x with _ => _ end) => destruct x
      | |- silent (if ?x then _ else _) => destruct x
      | |- silent (let '(_, _) := ?x in _) => destruct x
      end ].

Section PassEvents.
Context (W : world) (a : args).

#[local] Abbreviation delete_call :=
  (Mobius.delete_workflow (mobiushost a) (workflowId a)).

Lemma shaped_app evs1 evs2 b :
  shaped a false evs1 → shaped a b evs2 → shaped a b (evs1 ++ evs2).
Proof.
  intros H1 H2. remember false as b1 eqn:Hb. induction H1; simplify_eq/=;
    [done|]. constructor; auto.
Qed.

Lemma shaped_quiet evs :
  Forall (λ e, failed_create e = false) evs → shaped a false evs.
Proof. induction 1; constructor; auto. Qed.

Lemma shaped_discipline b evs : shaped a b evs → abort_discipline a evs.
Proof.
  induction 1 as [|e evs b He Hs IH|e r He]; intros pre x post Heq Hx.
  - by destruct pre.
  - destruct pre as [|y pre]; simplify_eq/=; [congruence|]. by eapply IH.
  - destruct pre as [|y [|z [|]]]; simplify_eq/=; eauto.
Qed.

Lemma shaped_failed b evs :
  shaped a b evs → b = true ↔ ∃ e, e ∈ evs ∧ failed_create e = true.
Proof.
  induction 1 as [|e evs b He Hs IH|e r He].
  - split; [done|]. intros (e & He & _). by apply elem_of_nil in He.
  - rewrite IH. split.
    + intros (x & Hx & Hf). exists x. split; [by right|done].
    + intros (x & Hx & Hf). apply elem_of_cons in Hx as [->|Hx];
        [congruence|eauto].
  - split; [|done]. intros _. exists e. split; [by left|done].
Qed.

Lemma emits_mobius_call c :
  emits (mobius W c) (λ r evs, ∃ resp, r = Ok resp ∧ evs = [EMobius c resp]).
Proof. apply emits_mobius. eauto. Qed.

Lemma emits_create_compute host nodename ipStart leaseEnd wid l count old site
    ss sn subnet fip :
  emits (create_compute W host nodename ipStart leaseEnd wid l count old site
           ss sn subnet fip)
    (λ r evs,
       match r with
       | Raise _ => evs = []
       | Ok (resp, _) =>
           ∃ p, evs = [EMobius (Mobius.create_compute host wid p) resp]
       end).
Proof.
  unfold create_compute.
  apply emits_silent_bind; [silent_tac| |done]. intros prefix.
  apply emits_silent_bind; [silent_tac| |done]. intros name.
  apply emits_silent_bind; [silent_tac| |done]. intros defIP.
  apply emits_silent_bind; [silent_tac| |done]. intros _.
  apply emits_silent_bind; [silent_tac| |done]. intros script.
  apply emits_silent_bind; [silent_tac| |done]. intros _.
  apply emits_silent_bind; [silent_tac| |done]. intros payload.
  eapply emits_bind; [apply emits_mobius_call| |].
  - intros resp evs1 (? & [= <-] & ->). apply emits_ret. eauto.
  - intros e evs1 (? & [=] & _).
Qed.

(** After a node creation: the status test of lines 453-457 and its
    siblings, followed by [m]. *)
Lemma emits_status_test {A} (ok : A → bool) (resp : response) host wid p
    (x : A) (m : M A) :
  ok x = false →
  emits m (pass_post a ok) →
  emits
    (if decide (status resp ≠ 200)
     then mobius W delete_call;; ret x
     else m)
    (λ r evs,
       pass_post a ok r
         ([EMobius (Mobius.create_compute host wid p) resp] ++ evs)).
Proof.
  intros Hx Hm. destruct (decide (status resp ≠ 200)) as [Hs|Hs].
  - eapply emits_bind; [apply emits_mobius_call| |].
    + intros r evs1 (? & [= <-] & ->). apply emits_ret.
      unfold pass_post. rewrite Hx. simpl.
      apply shaped_abort. simpl. apply negb_true_iff, Z.eqb_neq. done.
    + intros e evs1 (? & [=] & _).
  - eapply emits_weaken; [apply Hm|]. intros r evs Hr.
    assert (failed_create (EMobius (Mobius.create_compute host wid p) resp)
            = false) as Hf.
    { simpl. apply negb_false_iff, Z.eqb_eq.
      by destruct (decide (status resp = 200)). }
    destruct r; simpl in *; by apply shaped_cons.
Qed.

Lemma emits_frame {A} (ok : A → bool) evs1 (m : M A) :
  shaped a false evs1 →
  emits m (pass_post a ok) →
  emits m (λ r evs2, pass_post a ok r (evs1 ++ evs2)).
Proof.
  intros H1 Hm. eapply emits_weaken; [apply Hm|].
  intros [z|e] evs2 H2; simpl in *; by apply shaped_app.
Qed.

(** One node creation followed by the status test *)
Lemma emits_create_then {A} (ok : A → bool) host nodename ipStart leaseEnd wid
    l count old site ss sn subnet fip (x : A) (f : response * string → M A)
    (k : response → string → M A) :
  ok x = false →
  (∀ resp name,
     f (resp, name) =
     if decide (status resp ≠ 200)
     then mobius W delete_call;; ret x
     else k resp name) →
  (∀ resp name, emits (k resp name) (pass_post a ok)) →
  emits
    (create_compute W host nodename ipStart leaseEnd wid l count old site ss
       sn subnet fip ≫= f)
    (pass_post a ok).
Proof.
  intros Hx Hf Hk.
  eapply emits_bind; [apply emits_create_compute| |].
  - intros [resp name] evs1 [p ->]. rewrite Hf. by apply emits_status_test.
  - intros e evs1 ->. constructor.
Qed.

(** The events of a storage pass *)
Lemma emits_provision_storage datadir site count ipStart ss sip es :
  emits (provision_storage W a datadir site count ipStart ss sip es)
    (pass_post a (λ r, r.1.1)).
Proof.
  unfold provision_storage.
  apply emits_silent_bind; [silent_tac| |constructor]. intros [stdata|].
  2: { apply emits_ret. constructor. }
  apply emits_silent_bind; [silent_tac| |constructor]. intros _.
  apply emits_silent_bind; [silent_tac| |constructor]. intros script.
  apply emits_silent_bind; [silent_tac| |constructor]. intros _.
  eapply (emits_create_then (λ r : bool * Z * option string, r.1.1));
    [|intros; reflexivity|]; [done|].
  intros resp name. apply emits_ret. constructor.
Qed.

(** The events of the worker loop *)
Lemma emits_worker_loop n : ∀ site wdata count ipStart old sn subnet fip ss,
  emits (worker_loop W a n site wdata count ipStart old sn subnet fip ss)
    (pass_post a (λ r : bool * Z, r.1)).
Proof.
  induction n as [|n IH]; intros; simpl.
  - apply emits_ret. constructor.
  - apply emits_silent_bind; [unfold advance; silent_tac| |constructor].
    intros ip.
    eapply (emits_create_then (λ r : bool * Z, r.1));
      [|intros; reflexivity|]; [done|].
    intros resp name. apply IH.
Qed.

(** The events of a cluster pass *)
Lemma emits_provision_condor_cluster datadir site count ipStart workers sn
    subnet fip ss :
  emits (provision_condor_cluster W a datadir site count ipStart workers sn
           subnet fip ss)
    (pass_post a (λ r : bool * Z, r.1)).
Proof.
  unfold provision_condor_cluster.
  apply emits_silent_bind; [silent_tac| |constructor]. intros mdata.
  apply emits_silent_bind; [silent_tac| |constructor]. intros _.
  apply emits_silent_bind; [silent_tac| |constructor]. intros sdata.
  apply emits_silent_bind; [silent_tac| |constructor]. intros _.
  apply emits_silent_bind; [silent_tac| |constructor]. intros wdata.
  apply emits_silent_bind; [silent_tac| |constructor]. intros _.
  eapply emits_bind with (P1 := pass_post a flow_ok).
  { destruct mdata as [mdata|]; [|apply emits_ret; constructor].
    apply emits_silent_bind; [unfold advance; silent_tac| |constructor].
    intros ip.
    eapply (emits_create_then flow_ok); [|intros; reflexivity|]; [done|].
    intros resp name. apply emits_ret. constructor. }
  2: { intros e evs1 H. exact H. }
  intros [[count1 ip1]|] evs1 H1; simpl in H1.
  2: { apply emits_ret. simpl. by rewrite app_nil_r. }
  apply emits_frame; [done|].
  eapply emits_bind with (P1 := pass_post a flow_ok).
  { destruct sdata as [sdata|]; [|apply emits_ret; constructor].
    apply emits_silent_bind; [unfold advance; silent_tac| |constructor].
    intros ip.
    eapply (emits_create_then flow_ok); [|intros; reflexivity|]; [done|].
    intros resp name. apply emits_ret. constructor. }
  2: { intros e evs2 H. exact H. }
  intros [[count2 ip2]|] evs2 H2; simpl in H2.
  2: { apply emits_ret. simpl. by rewrite app_nil_r. }
  apply emits_frame; [done|].
  destruct wdata as [wdata|]; [|apply emits_ret; constructor].
  destruct workers as [workers|]; [|apply emits_raise; constructor].
  apply emits_worker_loop.
Qed.

(** Steps that make no node creation *)
Lemma calm_silent {A} (m : M A) : silent m → emits m (λ _ evs, calm evs).
Proof. intros. apply emits_silent; [done|]. intros. constructor. Qed.

Lemma calm_bind {A B} (m : M A) (f : A → M B) :
  emits m (λ _ evs, calm evs) →
  (∀ x, emits (f x) (λ _ evs, calm evs)) →
  emits (m ≫= f) (λ _ evs, calm evs).
Proof.
  intros Hm Hf. eapply emits_bind; [apply Hm| |done].
  intros x evs1 H1. eapply emits_weaken; [apply Hf|].
  intros r evs2 H2. by apply Forall_app.
Qed.

Lemma calm_mobius c :
  Mobius.is_create_compute c = false →
  emits (mobius W c) (λ _ evs, calm evs).
Proof.
  intros Hc. apply emits_mobius. intros r. repeat constructor.
  by destruct c.
Qed.

Lemma calm_emit e :
  failed_create e = false → emits (emit e) (λ _ evs, calm evs).
Proof. intros He. apply emits_emit. by repeat constructor. Qed.

Lemma calm_for_each {A S} (l : list A) (body : A → S → M S) :
  (∀ x s, emits (body x s) (λ _ evs, calm evs)) →
  ∀ s, emits (for_each l body s) (λ _ evs, calm evs).
Proof.
  intros Hb. induction l as [|x l IH]; intros s; simpl.
  - by apply calm_silent.
  - apply calm_bind; [apply Hb|]. intros s'. apply IH.
Qed.

End PassEvents.

(** [calm] goals: split binds and the [match]es of the code, close the
    leaves. *)
Ltac calm_tac :=
  repeat first
    [ progress intros
    | apply calm_bind
    | solve [apply calm_silent; silent_tac]
    | solve [apply calm_mobius; reflexivity]
    | solve [apply calm_emit; reflexivity]
    | match goal with H : _ |- _ => solve [apply H] end
    | match goal with
      | |- emits (match ?x with _ => _ end) _ => destruct x
      | |- emits (if ?x then _ else _) _ => destruct x
      | |- emits (let '(_, _) := ?x in _) _ => destruct x
      end ].

Section RunEvents.
Context (W : world) (a : args).

Lemma calm_usage_error msg : emits (usage_error msg) (λ _ evs, calm evs).
Proof. unfold usage_error. calm_tac. Qed.

Lemma calm_validate : emits (validate a) (λ _ evs, calm evs).
Proof.
  unfold validate, check_start_ip, check_site.
  pose proof calm_usage_error. calm_tac.
Qed.

Lemma calm_publish stitchdata response :
  emits (publish a stitchdata response) (λ _ evs, calm evs).
Proof.
  unfold publish. destruct (comethost a) as [host|]; [|calm_tac].
  destruct (decide _); [|calm_tac].
  apply calm_for_each. intros req [v n]. unfold publish_request.
  apply calm_bind; [|calm_tac].
  apply calm_for_each. intros sl n'.
  apply calm_for_each. intros nd n''.
  unfold publish_node, comet. calm_tac.
Qed.

Lemma calm_wait_active fuel : ∀ stitchdata st,
  emits (wait_active W a fuel stitchdata st) (λ _ evs, calm evs).
Proof.
  induction fuel as [|fuel IH]; intros; simpl;
    (destruct (decide _); [calm_tac|]); [calm_tac|].
  unfold sleep. calm_tac.
Qed.

Lemma calm_perform_stitch datadir site vlan data :
  emits (perform_stitch W a datadir site vlan data) (λ _ evs, calm evs).
Proof.
  unfold perform_stitch.
  pose proof (silent_load_if_exists W). calm_tac.
Qed.

Lemma calm_stitch fuel stitchdata vlan st :
  emits (stitch W a fuel stitchdata vlan st) (λ _ evs, calm evs).
Proof.
  unfold stitch, sleep.
  pose proof calm_wait_active. pose proof calm_perform_stitch. calm_tac.
Qed.

(** A step of [main] that wraps a pass: it gives [Return] exactly when the
    pass reported failure. *)
Lemma emits_wrap {A B} (ok : A → bool) (m : M A) (k : A → M (flow B)) :
  emits m (pass_post a ok) →
  (∀ x, ok x = false → k x = ret Return) →
  (∀ x, ok x = true → silent (k x) ∧
        ∀ st, (k x st).1 ≠ Ok Return) →
  emits (m ≫= k) (pass_post a flow_ok).
Proof.
  intros Hm Hf Ht. eapply emits_bind; [apply Hm| |by intros].
  intros x evs1 H1. simpl in H1. destruct (ok x) eqn:Hx.
  - destruct (Ht x Hx) as [Hs Hne]. intros st. exists []. split.
    + by rewrite Hs, !app_nil_r.
    + rewrite app_nil_r. specialize (Hne st).
      destruct (k x st).1 as [[y|]|e]; simpl; done.
  - rewrite (Hf x Hx). apply emits_ret. simpl. by rewrite app_nil_r.
Qed.

Lemma emits_chameleon_storage count ss :
  emits (chameleon_storage W a count ss) (pass_post a flow_ok).
Proof.
  unfold chameleon_storage.
  destruct (chameleonsite a) as [site|]; [|apply emits_ret; constructor].
  destruct (chdatadir a) as [dir|]; [|apply emits_ret; constructor].
  apply emits_silent_bind; [unfold subnet_of; silent_tac| |constructor].
  intros es.
  eapply emits_wrap; [apply emits_provision_storage|..].
  - by intros [[[] c] n].
  - intros [[[] c] [n|]] Hx; try done; split; try done; silent_tac.
Qed.

Lemma emits_exogeni_storage count ss sip :
  emits (exogeni_storage W a count ss sip) (pass_post a flow_ok).
Proof.
  unfold exogeni_storage.
  destruct (exogenisite a) as [site|]; [|apply emits_ret; constructor].
  destruct (exodatadir a) as [dir|]; [|apply emits_ret; constructor].
  eapply emits_wrap; [apply emits_provision_storage|..].
  - by intros [[[] c] n].
  - intros [[[] c] n] Hx; try done; split; try done; silent_tac.
Qed.

Lemma emits_chameleon_cluster count stitchdata sn ss :
  emits (chameleon_cluster W a count stitchdata sn ss) (pass_post a flow_ok).
Proof.
  unfold chameleon_cluster.
  destruct (chameleonsite a) as [site|]; [|apply emits_ret; constructor].
  destruct (chdatadir a) as [dir|]; [|apply emits_ret; constructor].
  apply emits_silent_bind; [unfold subnet_of; silent_tac| |constructor].
  intros es.
  apply emits_silent_bind; [silent_tac| |constructor]. intros fip.
  eapply emits_wrap; [apply emits_provision_condor_cluster|..].
  - by intros [[] c].
  - intros [[] c] Hx; try done; split; try done; silent_tac.
Qed.

Lemma emits_exogeni_cluster count sn ss :
  emits (exogeni_cluster W a count sn ss) (pass_post a flow_ok).
Proof.
  unfold exogeni_cluster.
  destruct (exogenisite a) as [site|]; [|apply emits_ret; constructor].
  destruct (exodatadir a) as [dir|]; [|apply emits_ret; constructor].
  apply emits_silent_bind; [unfold subnet_of; silent_tac| |constructor].
  intros es.
  apply emits_silent_bind; [silent_tac| |constructor]. intros fip.
  eapply emits_wrap; [apply emits_provision_condor_cluster|..].
  - by intros [[] c].
  - intros [[] c] Hx; try done; split; try done; silent_tac.
Qed.

Lemma emits_calm_run {A} (m : M A) :
  emits m (λ _ evs, calm evs) → emits m (λ _ evs, ∃ b, shaped a b evs).
Proof.
  intros Hm. eapply emits_weaken; [apply Hm|].
  intros r evs H. exists false. by apply shaped_quiet.
Qed.

(** A step of [main] after which an aborted run returns at once *)
Lemma emits_flow_bind {A B} (m : M (flow A)) (k : flow A → M B) :
  emits m (pass_post a flow_ok) →
  silent (k Return) →
  (∀ x, emits (k (Continue x)) (λ _ evs, ∃ b, shaped a b evs)) →
  emits (m ≫= k) (λ _ evs, ∃ b, shaped a b evs).
Proof.
  intros Hm Hr Hc. eapply emits_bind; [apply Hm| |].
  - intros [x|] evs1 H1; simpl in H1.
    + eapply emits_weaken; [apply Hc|]. intros r evs2 [b H2].
      exists b. by apply shaped_app.
    + apply emits_silent; [done|]. intros r. rewrite app_nil_r. eauto.
  - intros e evs1 H1. simpl in H1. eauto.
Qed.

Lemma emits_create fuel :
  emits (create W a fuel) (λ _ evs, ∃ b, shaped a b evs).
Proof.
  unfold create.
  eapply emits_bind; [apply emits_mobius_call| |by intros ?? (? & [=] & _)].
  intros resp evs1 (? & [= <-] & ->).
  eapply emits_weaken with (P := λ _ evs, ∃ b, shaped a b evs).
  2: { intros r evs [b H]. exists b. by apply shaped_cons. }
  destruct (decide _); [|apply emits_calm_run; calm_tac].
  apply emits_silent_bind; [unfold read_hints, on_str; silent_tac| |].
  2: { intros. exists false. constructor. }
  intros [[stitchdata sip] ss].
  apply emits_flow_bind; [apply emits_chameleon_storage|done|].
  intros [count1 chname].
  apply emits_flow_bind; [apply emits_exogeni_storage|done|].
  intros [count2 exoname].
  apply emits_flow_bind; [apply emits_chameleon_cluster|done|].
  intros count3.
  apply emits_flow_bind; [apply emits_exogeni_cluster|done|].
  intros count4.
  apply emits_calm_run.
  pose proof (calm_publish). pose proof (calm_stitch). calm_tac.
Qed.

Lemma emits_main fuel :
  emits (main W a fuel) (λ _ evs, ∃ b, shaped a b evs).
Proof.
  unfold main.
  destruct (decide _); [apply emits_calm_run; unfold comet; calm_tac|].
  destruct (decide _); [apply emits_calm_run; unfold comet; calm_tac|].
  destruct (decide _); [|apply emits_calm_run; calm_tac].
  eapply emits_bind; [apply calm_validate| |].
  - intros x evs1 H1. eapply emits_weaken; [apply emits_create|].
    intros r evs2 [b H2]. exists b.
    apply shaped_app; [by apply shaped_quiet|done].
  - intros ex evs1 H1. exists false. by apply shaped_quiet.
Qed.

(** C1. In every run, a node creation that Mobius answers with a status other
    than 200 is followed by [delete_workflow] on the workflow and by no other
    event: no later creation, no retry. Each provisioning pass does the same
    and reports failure ([False]) exactly when one of its creations failed. *)
Theorem failed_creation_aborts :
  (∀ fuel st, ∃ evs,
     trace (main W a fuel st).2 = trace st ++ evs ∧ abort_discipline a evs) ∧
  (∀ datadir site count ipStart ss sip es st, ∃ evs,
     let run := provision_storage W a datadir site count ipStart ss sip es st in
     trace run.2 = trace st ++ evs ∧ abort_discipline a evs ∧
     ∀ ok c n, run.1 = Ok (ok, c, n) →
       (ok = false ↔ ∃ e, e ∈ evs ∧ failed_create e = true)) ∧
  (∀ datadir site count ipStart workers sn subnet fip ss st, ∃ evs,
     let run := provision_condor_cluster W a datadir site count ipStart
                  workers sn subnet fip ss st in
     trace run.2 = trace st ++ evs ∧ abort_discipline a evs ∧
     ∀ ok c, run.1 = Ok (ok, c) →
       (ok = false ↔ ∃ e, e ∈ evs ∧ failed_create e = true)).
Proof.
  split_and!.
  - intros fuel st. destruct (emits_main fuel st) as (evs & Ht & b & Hs).
    exists evs. split; [done|]. by eapply shaped_discipline.
  - intros datadir site count ipStart ss sip es st.
    destruct (emits_provision_storage W a datadir site count ipStart ss sip
                es st) as (evs & Ht & Hp).
    exists evs. simpl. split; [done|]. unfold pass_post in Hp.
    destruct (provision_storage _ _ _ _ _ _ _ _ _ _).1 as [[[ok c] n]|e];
      simpl in Hp; split; try (by eapply shaped_discipline); try done.
    intros ??? [= <- <- <-]. rewrite <- (shaped_failed a _ _ Hp).
    by destruct ok.
  - intros datadir site count ipStart workers sn subnet fip ss st.
    destruct (emits_provision_condor_cluster W a datadir site count ipStart
                workers sn subnet fip ss st) as (evs & Ht & Hp).
    exists evs. simpl. split; [done|]. unfold pass_post in Hp.
    destruct (provision_condor_cluster _ _ _ _ _ _ _ _ _ _ _ _).1
      as [[ok c]|e];
      simpl in Hp; split; try (by eapply shaped_discipline); try done.
    intros ?? [= <- <-]. rewrite <- (shaped_failed a _ _ Hp).
    by destruct ok.
Qed.

End RunEvents.

(** ** Node names *)

Section Naming.
Context (W : world).

Lemma node_payload_name o nodename ipStart leaseEnd wid count old site ss sn
    subnet fip o' name :
  node_payload o nodename ipStart leaseEnd wid count old site ss sn subnet fip
    = Ok (o', name) →
  ∃ pv, o !! "hostNamePrefix" = Some pv ∧
        resolve_name pv site wid nodename count = Ok name.
Proof.
  unfold node_payload. intros H.
  destruct (o !! "hostNamePrefix") as [pv|]; [|done]. simpl in H.
  exists pv. split; [done|].
  destruct (resolve_name pv site wid nodename count) as [nm|]; [|done].
  simpl in H. f_equal.
  destruct (match ipStart with Some _ => _ | None => _ end) as [[o1 d]|];
    [|done]. simpl in H.
  destruct (_ !! "postBootScript") as [sv|]; [|done]. simpl in H.
  destruct (match sv with VNone => _ | _ => _ end); [|done].
  simpl in H. congruence.
Qed.

(** C8. A shape with a non-null host-name prefix is named
    [<prefix><counter>] on a site whose name contains [Exogeni] and
    [<workflowId>-<prefix><counter>] on any other site; with a null prefix the
    name passed by the caller, [Node<counter>], is kept. The name
    [create_compute] returns is this one. *)
Theorem node_name_resolution :
  (∀ p site wid nodename count,
     resolve_name (VStr p) site wid nodename count =
     Ok (if PyStr.occurs "Exogeni" site
         then p +:+ PyStr.str count
         else wid +:+ "-" +:+ p +:+ PyStr.str count)) ∧
  (∀ site wid count,
     resolve_name VNone site wid ("Node" +:+ PyStr.str count) count =
     Ok ("Node" +:+ PyStr.str count)) ∧
  resolve_name (VStr "w") "Exogeni:UH (Houston, TX USA) XO Rack" "wf1" "Node3" 3
    = Ok "w3" ∧
  resolve_name (VStr "w") "Chameleon:CHI@UC" "wf1" "Node3" 3 = Ok "wf1-w3" ∧
  (∀ host nodename ipStart leaseEnd wid l count old site ss sn subnet fip
     st o r name st',
     heap st !! l = Some o →
     create_compute W host nodename ipStart leaseEnd wid l count old site ss
       sn subnet fip st = (Ok (r, name), st') →
     ∃ pv, o !! "hostNamePrefix" = Some pv ∧
           resolve_name pv site wid nodename count = Ok name).
Proof.
  split_and!.
  - intros. unfold resolve_name. simpl.
    destruct (PyStr.occurs _ _); [done|].
    by rewrite !PyStrFacts.app_assoc.
  - done.
  - reflexivity.
  - reflexivity.
  - intros host nodename ipStart le wid l count old site ss sn subnet fip
      st o r name st' Hl Hrun.
    destruct (node_payload o nodename ipStart le wid count old site ss
                sn subnet fip) as [[o' name']|e] eqn:Hp.
    + rewrite (create_compute_ok W host _ _ _ _ _ _ _ _ _ _ _ _ _ _ _ _ Hl Hp)
        in Hrun.
      simpl in Hrun. injection Hrun as _ <- _.
      by eapply node_payload_name.
    + destruct (create_compute_raise W host _ _ _ _ _ _ _ _ _ _ _ _ _ _ _ Hl Hp)
        as (st'' & Hr & _).
      congruence.
Qed.

End Naming.

(** ** Validation before the first remote call *)

Section Validation.
Context (W : world) (a : args).

Lemma stops_bind {A B} (m : M A) (f : A → M B) :
  emits m stops → emits (m ≫= f) stops.
Proof.
  intros Hm. eapply emits_bind; [apply Hm| |].
  - intros x evs [(msg & [=] & _)|[[=] _]].
  - intros e evs [(msg & [= ->] & ->)|[[= ->] ->]]; [left|right]; eauto.
Qed.

Lemma passes_bind_stops {A B} (m : M A) (f : A → M B) :
  emits m passes_or_stops → (∀ x, emits (f x) stops) → emits (m ≫= f) stops.
Proof.
  intros Hm Hf. eapply emits_bind; [apply Hm| |].
  - intros x evs [[(msg & [=] & _)|[[=] _]]|(y & [= <-] & ->)]. apply Hf.
  - intros e evs [[(msg & [= ->] & ->)|[[= ->] ->]]|(y & [=] & _)];
      unfold stops; eauto.
Qed.

Lemma passes_bind {A B} (m : M A) (f : A → M B) :
  emits m passes_or_stops → (∀ x, emits (f x) passes_or_stops) →
  emits (m ≫= f) passes_or_stops.
Proof.
  intros Hm Hf. eapply emits_bind; [apply Hm| |].
  - intros x evs [[(msg & [=] & _)|[[=] _]]|(y & [= <-] & ->)]. apply Hf.
  - intros e evs [[(msg & [= ->] & ->)|[[= ->] ->]]|(y & [=] & _)];
      unfold passes_or_stops, stops; eauto 8.
Qed.

Lemma stops_usage_error msg : emits (usage_error msg) stops.
Proof.
  unfold usage_error.
  eapply emits_bind with (P1 := λ r evs, r = Ok tt ∧ evs = [EError msg]);
    [by apply emits_emit| |by intros ?? [[=] _]].
  intros [] evs [_ ->]. apply emits_raise. left. eauto.
Qed.

Lemma stops_passes {A} (m : M A) : emits m stops → emits m passes_or_stops.
Proof. intros. eapply emits_weaken; [done|]. by left. Qed.

Lemma passes_ret {A} (x : A) : emits (ret x) passes_or_stops.
Proof. apply emits_ret. right. eauto. Qed.

Lemma passes_guard (b : bool) msg :
  emits (if b then ret tt else usage_error msg) passes_or_stops.
Proof. destruct b; [apply passes_ret|apply stops_passes, stops_usage_error]. Qed.

Lemma passes_check_start_ip ipStart workers :
  emits (check_start_ip ipStart workers) passes_or_stops.
Proof.
  unfold check_start_ip. destruct ipStart as [ip|]; [|apply passes_ret].
  destruct (is_valid_ipv4_address ip) eqn:Hv.
  2: { apply stops_passes, stops_bind, stops_usage_error. }
  apply passes_bind; [apply passes_ret|]. intros _.
  destruct workers as [w|].
  2: { apply stops_passes, stops_bind, emits_raise. by right. }
  apply passes_bind; [apply passes_ret|]. intros n.
  destruct (can_ip_satisfy_range_total ip n Hv) as [fits E]. rewrite E.
  apply passes_bind; [apply passes_ret|]. intros b. apply passes_guard.
Qed.

Lemma stops_check_start_ip ipStart workers :
  cannot_accommodate ipStart workers →
  emits (check_start_ip ipStart workers) stops.
Proof.
  intros (ip & w & d & -> & -> & Hl & Hd). unfold check_start_ip.
  destruct (is_valid_ipv4_address ip) eqn:Hv.
  2: { apply stops_bind, stops_usage_error. }
  apply emits_ret_bind, emits_ret_bind.
  assert (can_ip_satisfy_range ip (w + 1) = Ok false) as ->.
  { apply valid_inv in Hv as (x & y & z & d' & -> & Hd' & Hx & Hy & Hz).
    rewrite last_octet_dotted in Hl by (auto using octet_ok_free || lia).
    injection Hl as ->.
    rewrite can_ip_satisfy_range_dotted
      by (auto using octet_ok_free || lia).
    by rewrite Hx, Hy, Hz, bool_decide_false by lia. }
  apply emits_lift_bind, stops_usage_error.
Qed.

Lemma stops_validate :
  cannot_accommodate (exoipStart a) (exoworkers a) ∨
  cannot_accommodate (chipStart a) (chworkers a) →
  emits (validate a) stops.
Proof.
  intros H. unfold validate.
  apply passes_bind_stops; [apply passes_ret|]. intros _.
  apply passes_bind_stops.
  { destruct (_ || _); [apply stops_passes, stops_usage_error|apply passes_ret]. }
  intros _. destruct H as [H|H].
  - apply stops_bind. by apply stops_check_start_ip.
  - apply passes_bind_stops; [apply passes_check_start_ip|]. intros _.
    apply stops_bind. by apply stops_check_start_ip.
Qed.

(** C4. A [create] whose exogeni or chameleon start IP cannot take
    [workers + 1] addresses below 256 ends with exit status 1 before any
    remote call: the trace gains one [ERROR] line and no call (or nothing at
    all, when the run dies on the [TypeError] of a start IP given without its
    worker count, which Python reports as a traceback and exit status 1). *)
Theorem start_ip_checked_before_remote_calls (fuel : nat) (st : state) :
  operation a = "create" →
  cannot_accommodate (exoipStart a) (exoworkers a) ∨
  cannot_accommodate (chipStart a) (chworkers a) →
  ∃ evs,
    trace (main W a fuel st).2 = trace st ++ evs ∧
    exit_status (main W a fuel st).1 = 1 ∧
    Forall (λ e, is_remote e = false) evs ∧
    stops (main W a fuel st).1 evs.
Proof.
  intros Hop Hc.
  assert (emits (main W a fuel) stops) as Hm.
  { unfold main. rewrite Hop. simpl. by apply stops_bind, stops_validate. }
  destruct (Hm st) as (evs & Ht & Hs). exists evs. split; [done|].
  destruct Hs as [(msg & Hr & ->)|[Hr ->]]; rewrite Hr; simpl;
    split_and!; try done; try (by repeat constructor).
  left. eauto.
Qed.

End Validation.

(** ** Passes that succeed *)

Section PassRuns.
Context (W : world) (a : args).

#[local] Arguments PyStr.replace : simpl never.
#[local] Arguments PyStr.str : simpl never.

#[local] Abbreviation delete_call :=
  (Mobius.delete_workflow (mobiushost a) (workflowId a)).

Lemma heap_snoc_lookup (h : list obj) o : (h ++ [o]) !! length h = Some o.
Proof. by rewrite lookup_app_r, Nat.sub_diag by lia. Qed.

Lemma heap_snoc_insert (h : list obj) o o' :
  <[length h:=o']> (h ++ [o]) = h ++ [o'].
Proof.
  rewrite insert_app_r_alt by lia. by rewrite Nat.sub_diag.
Qed.

(** The storage pass on the dict [o] of [storage.json]: what it returns and
    leaves behind when nothing is raised. *)
Lemma provision_storage_ok datadir site count ipStart ss sip es st o o1 o2 name :
  files W !! (datadir +:+ "/storage.json") = Some o →
  storage_shape o site ipStart sip = Ok o1 →
  node_payload o1 ("Node" +:+ PyStr.str count) ipStart (leaseEnd a)
    (workflowId a) count "NODENAME" site ss None es VNone = Ok (o2, name) →
  provision_storage W a datadir site count ipStart ss sip es st =
  let e := mobius_event W (trace st)
             (Mobius.create_compute (mobiushost a) (workflowId a) o2) in
  let im := record_ip name ipStart (ipMap st) in
  if decide (status (mobius_reply W (trace st)
               (Mobius.create_compute (mobiushost a) (workflowId a) o2)) ≠ 200)
  then (Ok (false, count, None),
        {| heap := heap st ++ [o2]; ipMap := im;
           trace := trace st ++ [e; mobius_event W (trace st ++ [e]) delete_call] |})
  else (Ok (true, count + 1, Some name),
        {| heap := heap st ++ [o2]; ipMap := im; trace := trace st ++ [e] |}).
Proof.
  intros Hf Hs Hp. unfold provision_storage, load_if_exists. rewrite Hf.
  rewrite !bind_run. cbn [json_load ret mret M_ret].
  set (st1 := {| heap := heap st ++ [o]; ipMap := ipMap st; trace := trace st |}).
  assert (heap st1 !! length (heap st) = Some o) as Hl by apply heap_snoc_lookup.
  assert (heap st1 = heap st ++ [o]) as Hh by done.
  assert (ipMap st1 = ipMap st) as Hi by done.
  assert (trace st1 = trace st) as Ht by done.
  clearbody st1. unfold storage_shape in Hs.
  munfold. unfold replace_method. mrun Hl.
  destruct (_ !! "postBootScript") as [sv|]; [|done]. simpl in Hs.
  assert (heap {| heap := <[length (heap st):=o1]> (heap st1);
                  ipMap := ipMap st1; trace := trace st1 |}
          !! length (heap st) = Some o1) as Hl1
    by (by eapply lookup_insert_heap).
  pose proof (create_compute_ok W (mobiushost a) _ _ _ _ _ _ _ _ _ _ _ _ _
                _ _ _ Hl1 Hp) as Hcc.
  cbn [heap ipMap trace] in Hcc.
  assert (<[length (heap st):=o2]> (<[length (heap st):=o1]> (heap st1))
          = heap st ++ [o2]) as Hfinal
    by (by rewrite insert_insert_heap, Hh, heap_snoc_insert).
  destruct sv as [|s0|z]; simpl in Hs.
  - simplify_eq. mrun Hl. rewrite Hcc.
    cbv beta iota zeta. cbn [fst snd]. rewrite Hfinal, Hi, Ht.
    destruct (decide _); mrun Hl; by rewrite <- ?app_assoc.
  - destruct (match ipStart with Some _ => _ | None => _ end) as [cidr|];
      [|done]. simpl in Hs. simplify_eq.
    mrun Hl. rewrite Hcc.
    cbv beta iota zeta. cbn [fst snd]. rewrite Hfinal, Hi, Ht.
    destruct (decide _); mrun Hl; by rewrite <- ?app_assoc.
  - destruct (match ipStart with Some _ => _ | None => _ end); done.
Qed.

Lemma call_events_app tr cs1 cs2 :
  call_events W tr (cs1 ++ cs2) =
  call_events W tr cs1 ++ call_events W (tr ++ call_events W tr cs1) cs2.
Proof.
  revert tr. induction cs1 as [|c cs1 IH]; intros tr; simpl.
  - by rewrite app_nil_r.
  - f_equal. rewrite IH. by rewrite <- app_assoc.
Qed.

(** The worker loop when every creation succeeds: the dicts it sends are
    those of [worker_payloads], all made from the one dict behind [l]. *)
Lemma worker_loop_ok n : ∀ site l count ipStart old sn subnet fip ss st o ps,
  creations_succeed W →
  heap st !! l = Some o →
  worker_payloads a n site o count ipStart old sn subnet fip ss = Ok ps →
  worker_loop W a n site l count ipStart old sn subnet fip ss st =
  (Ok (true, count + Z.of_nat n),
   {| heap := <[l:=final_dict ps o]> (heap st);
      ipMap := record_ips ps (ipMap st);
      trace := trace st ++
        call_events W (trace st)
          (map (λ p, Mobius.create_compute (mobiushost a) (workflowId a) p.1.1)
             ps) |}).
Proof.
  induction n as [|n IH]; intros site l count ipStart old sn subnet fip ss st
    o ps H200 Hl Hps; simpl in *.
  - simplify_eq. unfold ret, mret, M_ret. simpl.
    rewrite (list_insert_id _ _ _ Hl), Z.add_0_r, app_nil_r. by destruct st.
  - destruct (next_start ipStart) as [ip|] eqn:Hip; [|done]. simpl in Hps.
    destruct (node_payload _ _ _ _ _ _ _ _ _ _ _ _) as [[o' name]|] eqn:Hp;
      [|done]. simpl in Hps.
    destruct (worker_payloads _ _ _ _ _ _ _ _ _ _ _) as [rest|] eqn:Hrest;
      [|done]. simpl in Hps. simplify_eq.
    unfold advance. rewrite bind_run. unfold lift at 1. rewrite Hip.
    cbv beta iota. rewrite bind_run.
    rewrite (create_compute_ok W _ _ _ _ _ _ _ _ _ _ _ _ _ _ _ _ _ Hl Hp).
    cbv beta iota zeta.
    rewrite decide_False by (intros Hne; apply Hne, H200).
    erewrite IH; [|done|by eapply lookup_insert_heap|done].
    cbn [heap ipMap trace]. f_equal; [do 2 f_equal; lia|].
    f_equal.
    + by rewrite insert_insert_heap.
    + by rewrite <- app_assoc.
Qed.

(** The worker loop in any world: the dicts it sends are the first of
    [worker_payloads], up to and including the first creation that fails, and
    the last one sent is the one left behind [l]. *)
Lemma worker_loop_sends n :
  ∀ site l count ipStart old sn subnet fip ss st o ps,
  heap st !! l = Some o →
  worker_payloads a n site o count ipStart old sn subnet fip ss = Ok ps →
  ∃ m, (m ≤ n)%nat ∧
    let st' := (worker_loop W a n site l count ipStart old sn subnet fip ss
                  st).2 in
    sent_payloads (trace st') =
      sent_payloads (trace st) ++ map (λ p, p.1.1) (take m ps) ∧
    heap st' = <[l:=final_dict (take m ps) o]> (heap st).
Proof.
  induction n as [|n IH]; intros site l count ipStart old sn subnet fip ss st
    o ps Hl Hps; simpl in Hps.
  - simplify_eq. exists 0%nat. split; [done|]. cbn.
    by rewrite app_nil_r, (list_insert_id _ _ _ Hl).
  - destruct (next_start ipStart) as [ip|] eqn:Hip; [|done]. simpl in Hps.
    destruct (node_payload _ _ _ _ _ _ _ _ _ _ _ _) as [[o' name]|] eqn:Hp;
      [|done]. simpl in Hps.
    destruct (worker_payloads _ _ _ _ _ _ _ _ _ _ _) as [rest|] eqn:Hrest;
      [|done]. simpl in Hps. simplify_eq.
    set (c := Mobius.create_compute (mobiushost a) (workflowId a) o').
    set (r := mobius_reply W (trace st) c).
    set (st1 := {| heap := <[l:=o']> (heap st);
                   ipMap := record_ip name ip (ipMap st);
                   trace := trace st ++ [EMobius c r] |}).
    assert (worker_loop W a (S n) site l count ipStart old sn subnet fip ss st
            = if decide (status r ≠ 200)
              then (Ok (false, count),
                    {| heap := heap st1; ipMap := ipMap st1;
                       trace := trace st1 ++
                         [mobius_event W (trace st1)
                            (Mobius.delete_workflow (mobiushost a)
                               (workflowId a))] |})
              else worker_loop W a n site l (count + 1) ip name sn subnet fip
                     ss st1) as ->.
    { cbn [worker_loop]. unfold advance. rewrite bind_run. unfold lift at 1.
      rewrite Hip. cbv beta iota. rewrite bind_run.
      rewrite (create_compute_ok W _ _ _ _ _ _ _ _ _ _ _ _ _ _ _ _ _ Hl Hp).
      cbv beta iota zeta. fold c r. by destruct (decide _). }
    destruct (decide _) as [Hbad|Hgood].
    + exists 1%nat. split; [lia|]. cbn [snd heap trace take map final_dict
        fold_left fst]. subst st1. cbn [heap trace].
      unfold sent_payloads. rewrite !omap_app. cbn.
      by rewrite app_nil_r.
    + destruct (IH site l (count + 1) ip name sn subnet fip ss st1 o' rest)
        as (m & Hm & Hsent & Hheap);
        [by eapply lookup_insert_heap|done|].
      exists (S m). split; [lia|]. cbv zeta in *.
      rewrite Hsent, Hheap. subst st1. cbn [heap trace take map].
      unfold sent_payloads at 1. rewrite omap_app. cbn [omap sent_payload].
      rewrite <- app_assoc. split; [done|].
      rewrite insert_insert_heap. done.
Qed.

Lemma alter_snoc (h : list obj) (f : obj → obj) o :
  alter f (length h) (h ++ [o]) = h ++ [f o].
Proof.
  rewrite (heap_alter _ _ o) by apply heap_snoc_lookup.
  apply heap_snoc_insert.
Qed.

Lemma lookup3_0 (h : list obj) x y z : (h ++ [x; y; z]) !! length h = Some x.
Proof. by rewrite lookup_app_r, Nat.sub_diag by lia. Qed.
Lemma lookup3_1 (h : list obj) x y z :
  (h ++ [x; y; z]) !! S (length h) = Some y.
Proof.
  rewrite lookup_app_r by lia. by replace (S (length h) - length h)%nat with 1%nat by lia.
Qed.
Lemma lookup3_2 (h : list obj) x y z :
  (h ++ [x; y; z]) !! S (S (length h)) = Some z.
Proof.
  rewrite lookup_app_r by lia.
  by replace (S (S (length h)) - length h)%nat with 2%nat by lia.
Qed.
Lemma insert3_0 (h : list obj) x y z x' :
  <[length h:=x']> (h ++ [x; y; z]) = h ++ [x'; y; z].
Proof. rewrite insert_app_r_alt by lia. by rewrite Nat.sub_diag. Qed.
Lemma insert3_1 (h : list obj) x y z y' :
  <[S (length h):=y']> (h ++ [x; y; z]) = h ++ [x; y'; z].
Proof.
  rewrite insert_app_r_alt by lia.
  by replace (S (length h) - length h)%nat with 1%nat by lia.
Qed.
Lemma insert3_2 (h : list obj) x y z z' :
  <[S (S (length h)):=z']> (h ++ [x; y; z]) = h ++ [x; y; z'].
Proof.
  rewrite insert_app_r_alt by lia.
  by replace (S (S (length h)) - length h)%nat with 2%nat by lia.
Qed.

(** The cluster pass with its three shape files present, when every creation
    succeeds. *)
Lemma provision_condor_cluster_ok datadir site count ipStart w sn subnet fip
    ss st mo so wo ipm mo2 nm_m ips so2 nm_s ps :
  creations_succeed W →
  files W !! (datadir +:+ "/master.json") = Some mo →
  files W !! (datadir +:+ "/submit.json") = Some so →
  files W !! (datadir +:+ "/worker.json") = Some wo →
  match sn with Some _ => next_start ipStart | None => Ok ipStart end
    = Ok ipm →
  node_payload (<["site":=VStr site]> mo) ("Node" +:+ PyStr.str count) ipm
    (leaseEnd a) (workflowId a) count "NODENAME" site ss sn subnet fip
    = Ok (mo2, nm_m) →
  next_start ipm = Ok ips →
  node_payload (<["site":=VStr site]> so) ("Node" +:+ PyStr.str (count + 1))
    ips (leaseEnd a) (workflowId a) (count + 1) "NODENAME" site ss sn subnet
    fip = Ok (so2, nm_s) →
  worker_payloads a (Z.to_nat w) site (<["site":=VStr site]> wo)
    (count + 1 + 1) ips "NODENAME" sn subnet fip ss = Ok ps →
  provision_condor_cluster W a datadir site count ipStart (Some w) sn subnet
    fip ss st =
  (Ok (true, count + 1 + 1 + Z.of_nat (Z.to_nat w)),
   {| heap := heap st ++
        [mo2; so2; final_dict ps (<["site":=VStr site]> wo)];
      ipMap := record_ips ps
                 (record_ip nm_s ips (record_ip nm_m ipm (ipMap st)));
      trace := trace st ++
        call_events W (trace st)
          (Mobius.create_compute (mobiushost a) (workflowId a) mo2 ::
           Mobius.create_compute (mobiushost a) (workflowId a) so2 ::
           map (λ p, Mobius.create_compute (mobiushost a) (workflowId a)
                       p.1.1) ps) |}).
Proof.
  intros H200 Hm Hs Hw Hipm Hpm Hips Hps Hwp.
  unfold provision_condor_cluster, load_if_exists. rewrite Hm, Hs, Hw.
  unfold json_load, obj_set, ret, mret, M_ret.
  do 9 (rewrite bind_run; cbv beta iota; cbn [heap ipMap trace];
        rewrite ?alter_snoc).
  rewrite <- !app_assoc. cbn [app]. rewrite !length_app. cbn [length].
  rewrite !Nat.add_1_r.
  replace (length (heap st) + 2)%nat with (S (S (length (heap st)))) by lia.
  (* master *)
  assert (∀ (m : M (option string)),
            m = match sn with Some _ => advance ipStart | None => λ st, (Ok ipStart, st) end →
            ∀ st, m st = (Ok ipm, st)) as Hadv.
  { intros m -> st0. unfold advance, lift. by destruct sn; rewrite <- Hipm. }
  rewrite !bind_run. rewrite (Hadv _ eq_refl). cbv beta iota.
  rewrite bind_run.
  cc_step create_compute_ok Hpm ltac:(apply lookup3_0).
  cbv beta iota zeta. cbn [heap ipMap trace].
  rewrite decide_False by (intros Hne; apply Hne, H200).
  rewrite insert3_0.
  (* submit *)
  unfold ret, mret, M_ret. rewrite !bind_run. cbv beta iota.
  unfold advance at 1, lift at 1. rewrite Hips. cbv beta iota.
  rewrite ?bind_run.
  cc_step create_compute_ok Hps ltac:(apply lookup3_1).
  cbv beta iota zeta. cbn [heap ipMap trace].
  rewrite decide_False by (intros Hne; apply Hne, H200).
  rewrite insert3_1. cbv beta iota.
  (* workers *)
  erewrite worker_loop_ok; [|done|cbn [heap]; apply lookup3_2|done].
  cbn [heap ipMap trace]. rewrite insert3_2.
  do 2 f_equal. cbn [call_events]. unfold mobius_event.
  rewrite <- !app_assoc. done.
Qed.

End PassRuns.

(** ** Shapes that can be provisioned *)

Section WellFormed.
Context (W : world) (a : args).

#[local] Arguments PyStr.replace : simpl never.
#[local] Arguments PyStr.str : simpl never.

Lemma wf_field_insert_ne o k k' v :
  k ≠ k' → wf_field (<[k':=v]> o) k = wf_field o k.
Proof. intros. unfold wf_field. by rewrite lookup_insert_ne. Qed.

Lemma wf_field_insert_str o k s : wf_field (<[k:=VStr s]> o) k = true.
Proof. unfold wf_field. by rewrite lookup_insert_eq. Qed.

Lemma wf_shape_site o site :
  wf_shape o = true → wf_shape (<["site":=VStr site]> o) = true.
Proof. unfold wf_shape. by rewrite !wf_field_insert_ne. Qed.

Lemma wf_field_inv o k :
  wf_field o k = true →
  o !! k = Some VNone ∨ ∃ s, o !! k = Some (VStr s).
Proof. unfold wf_field. destruct (o !! k) as [[| |]|]; naive_solver. Qed.

Lemma render_total s wid old nm ss fip subnet ip d sn :
  (fip = VNone ∨ ∃ f, fip = VStr f) →
  ∃ s', render (VStr s) wid old nm ss fip subnet ip d sn = Ok s'.
Proof. intros [->|[f ->]]; unfold render; simpl; eauto. Qed.

Lemma resolve_name_total pv site wid nn c :
  (pv = VNone ∨ ∃ p, pv = VStr p) →
  ∃ name, resolve_name pv site wid nn c = Ok name.
Proof.
  intros [->|[p ->]]; unfold resolve_name; simpl; [eauto|].
  destruct (PyStr.occurs _ _); eauto.
Qed.

(** A well-formed shape given a valid start IP can be sent: the dict sent
    carries that address and is well formed again. *)
Lemma node_payload_wf o nn ip le wid c old site ss sn subnet fip :
  wf_shape o = true →
  is_valid_ipv4_address ip = true →
  (fip = VNone ∨ ∃ f, fip = VStr f) →
  ∃ o' name,
    node_payload o nn (Some ip) le wid c old site ss sn subnet fip
      = Ok (o', name) ∧
    o' !! "ipAddress" = Some (VStr ip) ∧
    wf_shape o' = true ∧
    (∃ pv, o !! "hostNamePrefix" = Some pv ∧
           resolve_name pv site wid nn c = Ok name).
Proof.
  intros [Hp Hs]%andb_true_iff Hv Hf. unfold node_payload.
  assert (∃ pv, o !! "hostNamePrefix" = Some pv ∧
                (pv = VNone ∨ ∃ p, pv = VStr p)) as (pv & Hpv & Hpv').
  { apply wf_field_inv in Hp as [?|[? ?]]; eauto. }
  rewrite Hpv. simpl.
  destruct (resolve_name_total pv site wid nn c Hpv') as [name Hn].
  rewrite Hn. simpl.
  assert (∃ d, get_default_ip_for_condor ip = Ok d) as [d Hd].
  { apply valid_inv in Hv as (x & y & z & q & -> & _ & Hx & Hy & Hz).
    rewrite get_default_ip_dotted by auto using octet_ok_free. eauto. }
  rewrite Hd. simpl.
  set (o1 := match le with
             | Some l => <["leaseEnd":=VStr l]> (<["ipAddress":=VStr ip]> o)
             | None => <["ipAddress":=VStr ip]> o
             end).
  assert (o1 !! "ipAddress" = Some (VStr ip)) as Hip.
  { subst o1. destruct le; by simplify_map_eq. }
  assert (o1 !! "hostNamePrefix" = o !! "hostNamePrefix") as Hk1.
  { subst o1. destruct le; by simplify_map_eq. }
  assert (o1 !! "postBootScript" = o !! "postBootScript") as Hk2.
  { subst o1. destruct le; by simplify_map_eq. }
  rewrite Hk2.
  apply wf_field_inv in Hs as [Hs|[sc Hs]]; rewrite Hs; simpl.
  - exists o1, name. split_and!; [done|done| |eauto].
    unfold wf_shape, wf_field. by rewrite Hk1, Hk2, Hpv, Hs; destruct Hpv' as [->|[? ->]].
  - destruct (render_total sc wid old name ss fip subnet (Some ip) (Some d) sn Hf)
      as [s' Hr].
    rewrite Hr. simpl. eexists _, name. split_and!; [done| | |eauto].
    + by simplify_map_eq.
    + unfold wf_shape, wf_field. simplify_map_eq.
      rewrite Hk1, Hpv. by destruct Hpv' as [->|[? ->]].
Qed.

Lemma storage_shape_wf o site ip sip :
  wf_shape o = true →
  is_valid_ipv4_address ip = true →
  ∃ o1, storage_shape o site (Some ip) sip = Ok o1 ∧ wf_shape o1 = true.
Proof.
  intros Hwf Hv. pose proof (wf_shape_site o site Hwf) as Hwf1.
  unfold storage_shape.
  destruct (andb_prop _ _ Hwf1) as [Hp Hs].
  apply wf_field_inv in Hs as [Hs|[sc Hs]]; rewrite Hs; simpl; [eauto|].
  assert (∃ d, get_cidr_escape ip = Ok d) as [d ->].
  { apply valid_inv in Hv as (x & y & z & q & -> & _ & Hx & Hy & Hz).
    rewrite get_cidr_escape_dotted by auto using octet_ok_free. eauto. }
  simpl. eexists. split; [done|].
  unfold wf_shape. rewrite wf_field_insert_ne, Hp by done.
  apply wf_field_insert_str.
Qed.

End WellFormed.

(** ** Scenario 1: a chameleon site alone *)

Section ChameleonOnly.
Context (W : world) (a : args).

#[local] Arguments PyStr.replace : simpl never.
#[local] Arguments PyStr.str : simpl never.

Lemma check_start_ip_none workers st :
  check_start_ip None workers st = (Ok tt, st).
Proof. done. Qed.

Lemma check_start_ip_fits ip w st :
  is_valid_ipv4_address ip = true →
  can_ip_satisfy_range ip (w + 1) = Ok true →
  check_start_ip (Some ip) (Some w) st = (Ok tt, st).
Proof.
  intros Hv Hf. unfold check_start_ip. rewrite Hv.
  unfold ret, lift, mret, M_ret.
  repeat (rewrite bind_run; cbv beta iota). by rewrite Hf.
Qed.

Lemma check_site_ok site marker st :
  PyStr.occurs marker site = true →
  check_site (Some site) marker st = (Ok tt, st).
Proof. intros H. unfold check_site. by rewrite H. Qed.

Lemma resolve_name_suffix pv site wid c name :
  resolve_name pv site wid ("Node" +:+ PyStr.str c) c = Ok name →
  ∃ pre, name = pre +:+ PyStr.str c.
Proof.
  unfold resolve_name, str_add. destruct pv as [|p|z]; simpl.
  - intros [= <-]. eauto.
  - destruct (PyStr.occurs _ _); simpl; intros [= <-]; eauto.
  - by destruct (PyStr.occurs _ _).
Qed.

Lemma last_char_app pre c :
  PyStr.last_char (pre +:+ String c "") = Some c.
Proof.
  induction pre as [|x pre IH]; [done|].
  change (String x pre +:+ String c "") with (String x (pre +:+ String c "")).
  cbn [PyStr.last_char]. rewrite IH. by destruct pre.
Qed.

#[local] Abbreviation cc p :=
  (Mobius.create_compute (mobiushost a) (workflowId a) p).

(** C2. A [create] with a chameleon site alone, 2 workers, start IP
    [10.0.0.10], no comet host and the four shape files present and well
    formed, every remote call answered with 200: the storage node gets
    [10.0.0.10], the master [10.0.0.11], the submit node [10.0.0.12], the
    workers [10.0.0.13] and [10.0.0.14]; [ipMap] ends with these 5 entries; the
    trace holds the workflow creation, the five node creations and the final
    status query, and no COMET call. *)
Theorem chameleon_only_scenario (fuel : nat) (site dir : string)
    (so mo sbo wo : obj) :
  operation a = "create" →
  exogenisite a = None → exoipStart a = None →
  chameleonsite a = Some site → PyStr.occurs "Chameleon" site = true →
  chworkers a = Some 2 → chipStart a = Some "10.0.0.10" →
  chdatadir a = Some dir → comethost a = None →
  files W !! (dir +:+ "/storage.json") = Some so →
  files W !! (dir +:+ "/master.json") = Some mo →
  files W !! (dir +:+ "/submit.json") = Some sbo →
  files W !! (dir +:+ "/worker.json") = Some wo →
  wf_shape so = true → wf_shape mo = true →
  wf_shape sbo = true → wf_shape wo = true →
  (∀ tr c, status (mobius_reply W tr c) = 200) →
  ∃ st' s1 p0 p1 p2 p3 p4 n0 n1 n2 n3 n4,
    main W a fuel init_state = (Raise (SystemExit 0), st') ∧
    (* the five dicts sent, in this order, and the address of each *)
    trace st' =
      call_events W []
        [Mobius.create_workflow (mobiushost a) (workflowId a);
         cc p0; cc p1; cc p2; cc p3; cc p4;
         Mobius.get_workflow (mobiushost a) (workflowId a)] ∧
    storage_shape so site (Some "10.0.0.10") VNone = Ok s1 ∧
    node_payload s1 "Node0" (Some "10.0.0.10") (leaseEnd a) (workflowId a) 0
      "NODENAME" site None None None VNone = Ok (p0, n0) ∧
    node_payload (<["site":=VStr site]> mo) "Node1" (Some "10.0.0.11")
      (leaseEnd a) (workflowId a) 1 "NODENAME" site None
      (Some (n0 +:+ ".novalocal")) None VNone = Ok (p1, n1) ∧
    node_payload (<["site":=VStr site]> sbo) "Node2" (Some "10.0.0.12")
      (leaseEnd a) (workflowId a) 2 "NODENAME" site None
      (Some (n0 +:+ ".novalocal")) None VNone = Ok (p2, n2) ∧
    node_payload (<["site":=VStr site]> wo) "Node3" (Some "10.0.0.13")
      (leaseEnd a) (workflowId a) 3 "NODENAME" site None
      (Some (n0 +:+ ".novalocal")) None VNone = Ok (p3, n3) ∧
    node_payload p3 "Node4" (Some "10.0.0.14")
      (leaseEnd a) (workflowId a) 4 n3 site None
      (Some (n0 +:+ ".novalocal")) None VNone = Ok (p4, n4) ∧
    p0 !! "ipAddress" = Some (VStr "10.0.0.10") ∧
    p1 !! "ipAddress" = Some (VStr "10.0.0.11") ∧
    p2 !! "ipAddress" = Some (VStr "10.0.0.12") ∧
    p3 !! "ipAddress" = Some (VStr "10.0.0.13") ∧
    p4 !! "ipAddress" = Some (VStr "10.0.0.14") ∧
    (* the allocation map *)
    ipMap st' =
      <[n4:="10.0.0.14"]> (<[n3:="10.0.0.13"]> (<[n2:="10.0.0.12"]>
        (<[n1:="10.0.0.11"]> (<[n0:="10.0.0.10"]> ∅)))) ∧
    size (ipMap st') = 5%nat ∧
    (* no context exchange *)
    Forall (λ e, is_comet e = false) (trace st').
Proof.
  intros Hop Hexo Hexoip Hch Hsite Hw Hip Hdir Hcomet Hfs Hfm Hfb Hfw
    Wso Wmo Wsb Wwo H200.
  assert (creations_succeed W) as Hcs by (intros ????; apply H200).
  (* the five dicts *)
  destruct (storage_shape_wf so site "10.0.0.10" VNone Wso eq_refl)
    as (s1 & Hs1 & Ws1).
  destruct (node_payload_wf s1 "Node0" "10.0.0.10" (leaseEnd a) (workflowId a)
              0 "NODENAME" site None None None VNone Ws1 eq_refl
              (or_introl eq_refl))
    as (p0 & n0 & Hp0 & Hi0 & _ & pv0 & _ & Hn0).
  destruct (node_payload_wf (<["site":=VStr site]> mo) "Node1" "10.0.0.11"
              (leaseEnd a) (workflowId a) 1 "NODENAME" site None
              (Some (n0 +:+ ".novalocal")) None VNone
              (wf_shape_site _ _ Wmo) eq_refl (or_introl eq_refl))
    as (p1 & n1 & Hp1 & Hi1 & _ & pv1 & _ & Hn1).
  destruct (node_payload_wf (<["site":=VStr site]> sbo) "Node2" "10.0.0.12"
              (leaseEnd a) (workflowId a) 2 "NODENAME" site None
              (Some (n0 +:+ ".novalocal")) None VNone
              (wf_shape_site _ _ Wsb) eq_refl (or_introl eq_refl))
    as (p2 & n2 & Hp2 & Hi2 & _ & pv2 & _ & Hn2).
  destruct (node_payload_wf (<["site":=VStr site]> wo) "Node3" "10.0.0.13"
              (leaseEnd a) (workflowId a) 3 "NODENAME" site None
              (Some (n0 +:+ ".novalocal")) None VNone
              (wf_shape_site _ _ Wwo) eq_refl (or_introl eq_refl))
    as (p3 & n3 & Hp3 & Hi3 & Wp3 & pv3 & _ & Hn3).
  destruct (node_payload_wf p3 "Node4" "10.0.0.14"
              (leaseEnd a) (workflowId a) 4 n3 site None
              (Some (n0 +:+ ".novalocal")) None VNone
              Wp3 eq_refl (or_introl eq_refl))
    as (p4 & n4 & Hp4 & Hi4 & _ & pv4 & _ & Hn4).
  (* the run *)
  eexists _, s1, p0, p1, p2, p3, p4, n0, n1, n2, n3, n4.
  unfold main. rewrite Hop.
  rewrite decide_False, decide_False, decide_True by done.
  rewrite bind_run.
  assert (validate a init_state = (Ok tt, init_state)) as ->.
  { unfold validate. rewrite Hexo, Hexoip, Hch, Hw, Hdir, Hip, Hcomet.
    rewrite !andb_false_r. cbn [orb is_none check_start_ip check_site].
    assert (can_ip_satisfy_range "10.0.0.10" (2 + 1) = Ok true) as Hfit
      by (vm_compute; reflexivity).
    assert (is_valid_ipv4_address "10.0.0.10" = true) as ->
      by (vm_compute; reflexivity).
    rewrite Hsite. unfold ret, mret, M_ret, lift, ipMap_new.
    repeat (rewrite bind_run; cbv beta iota; rewrite ?Hfit). done. }
  cbv beta iota. unfold create, init_state.
  (* create_workflow *)
  unfold mobius. mnorm. rewrite decide_True by apply H200.
  (* no exogeni site: no hints *)
  unfold read_hints. rewrite Hexo. mnorm.
  (* the storage node *)
  unfold chameleon_storage. rewrite Hch, Hdir, Hexoip, Hip.
  unfold subnet_of. mnorm.
  erewrite provision_storage_ok; [|done|exact Hs1|exact Hp0].
  mnorm. rewrite decide_False by (intros Hne; apply Hne, H200). mnorm.
  (* no exogeni storage *)
  unfold exogeni_storage. rewrite Hexo. mnorm.
  (* the cluster *)
  unfold chameleon_cluster. rewrite Hch, Hdir, Hexoip, Hip, Hw.
  unfold subnet_of. mnorm.
  erewrite (provision_condor_cluster_ok W a dir site (0 + 1)
              (Some "10.0.0.10") 2 _ None VNone None _ mo sbo wo
              (Some "10.0.0.11") p1 n1 (Some "10.0.0.12") p2 n2
              [(p3, n3, Some "10.0.0.13"); (p4, n4, Some "10.0.0.14")]);
    [|done..| | | | |].
  2: { vm_compute. reflexivity. }
  2: { exact Hp1. }
  2: { vm_compute. reflexivity. }
  2: { exact Hp2. }
  2: { change (Z.to_nat 2) with 2%nat. cbn [worker_payloads].
       assert (next_start (Some "10.0.0.12") = Ok (Some "10.0.0.13")) as ->
         by (vm_compute; reflexivity).
       cbn [mbind res_bind].
       change (node_payload (<["site":=VStr site]> wo) _ _ _ _ _ _ _ _ _ _ _)
         with (node_payload (<["site":=VStr site]> wo) "Node3"
                 (Some "10.0.0.13") (leaseEnd a) (workflowId a) 3 "NODENAME"
                 site None (Some (n0 +:+ ".novalocal")) None VNone).
       rewrite Hp3. cbn [mbind res_bind].
       assert (next_start (Some "10.0.0.13") = Ok (Some "10.0.0.14")) as ->
         by (vm_compute; reflexivity).
       cbn [mbind res_bind].
       change (node_payload p3 _ _ _ _ _ _ _ _ _ _ _)
         with (node_payload p3 "Node4" (Some "10.0.0.14") (leaseEnd a)
                 (workflowId a) 4 n3 site None (Some (n0 +:+ ".novalocal"))
                 None VNone).
       rewrite Hp4. done. }
  mnorm.
  (* no exogeni cluster; the status query; no COMET, no stitching *)
  unfold exogeni_cluster. rewrite Hexo. mnorm.
  unfold publish. rewrite Hcomet. mnorm.
  unfold stitch. mnorm.
  split; [reflexivity|]. cbn [trace ipMap].
  assert (∀ c n pv,
            resolve_name pv site (workflowId a) ("Node" +:+ PyStr.str c) c
              = Ok n →
            ∀ ch, PyStr.str c = String ch "" → PyStr.last_char n = Some ch)
    as Hlast.
  { intros c n pv Hn ch Hc. apply resolve_name_suffix in Hn as [pre ->].
    rewrite Hc. apply last_char_app. }
  pose proof (Hlast 0 n0 pv0 Hn0 "0"%char eq_refl) as L0.
  pose proof (Hlast 1 n1 pv1 Hn1 "1"%char eq_refl) as L1.
  pose proof (Hlast 2 n2 pv2 Hn2 "2"%char eq_refl) as L2.
  pose proof (Hlast 3 n3 pv3 Hn3 "3"%char eq_refl) as L3.
  pose proof (Hlast 4 n4 pv4 Hn4 "4"%char eq_refl) as L4.
  split_and!; try done.
  - change (size (list_to_map [(n4, "10.0.0.14"); (n3, "10.0.0.13");
                               (n2, "10.0.0.12"); (n1, "10.0.0.11");
                               (n0, "10.0.0.10")] : gmap string string)
            = 5%nat).
    rewrite map_size_list_to_map; [done|]. cbn [fmap list_fmap fst].
    repeat (apply NoDup_cons; split;
            [rewrite ?elem_of_cons, elem_of_nil; intros H;
             repeat destruct H as [H|H]; try done; congruence|]).
    apply NoDup_nil_2.
  - cbn [call_events map fst snd]. unfold mobius_event. cbn [app].
    repeat constructor.
Qed.

End ChameleonOnly.

(** ** The allocation map without a start IP *)

Section NoStartIP.
Context (W : world) (a : args).

#[local] Arguments PyStr.replace : simpl never.
#[local] Arguments PyStr.str : simpl never.

Lemma keeps_bind {A B} (m : M A) (f : A → M B) :
  keeps_ipMap m → (∀ x, keeps_ipMap (f x)) → keeps_ipMap (m ≫= f).
Proof.
  intros Hm Hf st. rewrite bind_run. specialize (Hm st).
  destruct (m st) as [[x|e] st1]; simpl in *; [|done]. by rewrite Hf.
Qed.

Lemma keeps_ret {A} (x : A) : keeps_ipMap (ret x).
Proof. done. Qed.
Lemma keeps_raise {A} e : keeps_ipMap (raise e : M A).
Proof. done. Qed.
Lemma keeps_lift {A} (r : res A) : keeps_ipMap (lift r).
Proof. done. Qed.
Lemma keeps_obj_get l k : keeps_ipMap (obj_get l k).
Proof. intros st. unfold obj_get. by destruct (_ !! k). Qed.
Lemma keeps_obj_set l k v : keeps_ipMap (obj_set l k v).
Proof. done. Qed.
Lemma keeps_deref l : keeps_ipMap (deref l).
Proof. done. Qed.
Lemma keeps_mobius c : keeps_ipMap (mobius W c).
Proof. done. Qed.
Lemma keeps_load_if_exists d : keeps_ipMap (load_if_exists W d).
Proof. unfold load_if_exists. by destruct (files W !! d). Qed.

End NoStartIP.

Create HintDb keeps.

#[global] Hint Resolve keeps_ret keeps_raise keeps_lift keeps_obj_get
  keeps_obj_set keeps_deref keeps_mobius keeps_load_if_exists : keeps.

Ltac keeps_tac :=
  repeat first
    [ progress intros
    | apply keeps_bind
    | solve [auto with keeps]
    | match goal with
      | |- keeps_ipMap (match ?x with _ => _ end) => destruct x
      | |- keeps_ipMap (if ?x then _ else _) => destruct x
      | |- keeps_ipMap (let '(_, _) := ?x in _) => destruct x
      end ].

Section ForwardLookup.
Context (W : world) (a : args).

#[local] Arguments PyStr.replace : simpl never.
#[local] Arguments PyStr.str : simpl never.

Lemma keeps_create_compute_no_ip host nn le wid l c old site ss sn subnet fip :
  keeps_ipMap (create_compute W host nn None le wid l c old site ss sn subnet fip).
Proof. unfold create_compute. keeps_tac. Qed.

Lemma keeps_provision_storage_no_ip dir site count ss sip es :
  keeps_ipMap (provision_storage W a dir site count None ss sip es).
Proof.
  unfold provision_storage. pose proof keeps_create_compute_no_ip.
  keeps_tac.
Qed.

Lemma exogeni_cluster_key_error site dir count nm ss st :
  exogenisite a = Some site → exodatadir a = Some dir →
  (∀ ip, chipStart a = Some ip → is_valid_ipv4_address ip = true) →
  ipMap st !! nm = None →
  exogeni_cluster W a count (Some nm) ss st = (Raise KeyError, st).
Proof.
  intros Hs Hd Hv Hnm. unfold exogeni_cluster. rewrite Hs, Hd.
  assert (∃ x, subnet_of (chipStart a) st = (Ok x, st)) as [x Hx].
  { unfold subnet_of. destruct (chipStart a) as [ip|]; [|by eexists].
    destruct (valid_inv ip (Hv ip eq_refl))
      as (p & q & r & d & -> & _ & Hp & Hq & Hr).
    unfold lift. rewrite bind_run, get_cidr_dotted
      by auto using octet_ok_free.
    by eexists. }
  rewrite bind_run, Hx. cbv beta iota. rewrite !bind_run.
  unfold ipMap_get. by rewrite Hnm.
Qed.

#[local] Abbreviation cc p :=
  (Mobius.create_compute (mobiushost a) (workflowId a) p).

(** C10 (amended). With an exogeni site and data directory and no exogeni
    start IP: (1) the exogeni storage pass leaves [ipMap] as it was; (2) the
    exogeni cluster pass, reached with the name of the storage node and no
    [ipMap] entry under it (the chameleon start IP being absent or valid),
    raises [KeyError] at once, before any remote call; (3) when no chameleon
    site is configured, [storage.json] has a null boot script and a
    [stitchIP] and Mobius answers 200, the whole run ends with that
    [KeyError] after the workflow creation and the creation of the storage
    node. *)
Theorem forward_lookup_without_start_ip (site dir : string) :
  exogenisite a = Some site → exodatadir a = Some dir →
  exoipStart a = None →
  (∀ count ss sip st,
     ipMap (exogeni_storage W a count ss sip st).2 = ipMap st) ∧
  (∀ count nm ss st,
     (∀ ip, chipStart a = Some ip → is_valid_ipv4_address ip = true) →
     ipMap st !! nm = None →
     exogeni_cluster W a count (Some nm) ss st = (Raise KeyError, st)) ∧
  (∀ fuel w o x ss,
     operation a = "create" → PyStr.occurs "Exogeni" site = true →
     chameleonsite a = None → chipStart a = None →
     exoworkers a = Some w → comethost a = None →
     (∀ sd, files W !! (dir +:+ "/stitch.json") = Some sd →
            is_Some (sd !! "stitchIP")) →
     files W !! (dir +:+ "/storage.json") = Some o →
     o !! "stitchIP" = Some (VStr x) → get_cidr x = Ok ss →
     o !! "postBootScript" = Some VNone →
     wf_field o "hostNamePrefix" = true →
     (∀ tr c, status (mobius_reply W tr c) = 200) →
     ∃ st' nm,
       main W a fuel init_state = (Raise KeyError, st') ∧
       trace st' =
         call_events W []
           [Mobius.create_workflow (mobiushost a) (workflowId a);
            cc (match leaseEnd a with
                | Some le => <["leaseEnd":=VStr le]> (<["site":=VStr site]> o)
                | None => <["site":=VStr site]> o
                end)] ∧
       (∃ pv, o !! "hostNamePrefix" = Some pv ∧
              resolve_name pv site (workflowId a) "Node0" 0 = Ok nm) ∧
       ipMap st' = ∅).
Proof.
  intros Hs Hd Hip. split_and!.
  - intros count ss sip st. unfold exogeni_storage. rewrite Hs, Hd, Hip.
    pose proof (keeps_provision_storage_no_ip dir site count ss sip None) as Hk.
    revert st. change (keeps_ipMap
      ('(status, count0, exostoragename) ←
         provision_storage W a dir site count None ss sip None;
       if negb status then ret Return
       else ret (Continue (count0, exostoragename)))).
    apply keeps_bind; [done|]. intros [[[] ?] ?]; apply keeps_ret.
  - intros count nm ss st Hv Hnm.
    by apply (exogeni_cluster_key_error site dir).
  - intros fuel w o x ss Hop Hsite Hch Hchip Hw Hcomet Hst Hfo Hx Hss Hpb Hpre
      H200.
    apply wf_field_inv in Hpre as Hpv.
    assert (∃ pv, o !! "hostNamePrefix" = Some pv ∧
                  (pv = VNone ∨ ∃ p, pv = VStr p)) as (pv & Hpv1 & Hpv2)
      by (destruct Hpv as [?|[? ?]]; eauto).
    destruct (resolve_name_total pv site (workflowId a) "Node0" 0 Hpv2)
      as [nm Hnm].
    set (p := match leaseEnd a with
              | Some le => <["leaseEnd":=VStr le]> (<["site":=VStr site]> o)
              | None => <["site":=VStr site]> o
              end).
    assert (storage_shape o site None VNone = Ok (<["site":=VStr site]> o))
      as Hshape.
    { unfold storage_shape. rewrite lookup_insert_ne, Hpb by done. done. }
    assert (node_payload (<["site":=VStr site]> o) ("Node" +:+ PyStr.str 0)
              None (leaseEnd a) (workflowId a) 0 "NODENAME" site (Some ss)
              None None VNone = Ok (p, nm)) as Hpay.
    { unfold node_payload. rewrite lookup_insert_ne, Hpv1 by done.
      cbn [mbind res_bind]. change ("Node" +:+ PyStr.str 0) with "Node0".
      rewrite Hnm. cbn [mbind res_bind]. subst p.
      destruct (leaseEnd a); rewrite !lookup_insert_ne, Hpb by done; done. }
    assert (validate a init_state = (Ok tt, init_state)) as Hval.
    { unfold validate. rewrite Hs, Hip, Hch, Hw, Hd, Hchip, Hcomet.
      cbn [orb andb is_none check_start_ip check_site].
      rewrite Hsite. unfold ret, mret, M_ret, lift, ipMap_new.
      repeat (rewrite bind_run; cbv beta iota). done. }
    (* the hints *)
    assert (∃ h sdl sip, ∀ tr,
      read_hints W a {| heap := []; ipMap := ∅; trace := tr |}
      = (Ok (sdl, sip, Some ss), {| heap := h; ipMap := ∅; trace := tr |}))
      as (h & sdl & sip & Hhints).
    { unfold read_hints, load_if_exists. rewrite Hs, Hd, Hfo.
      destruct (files W !! (dir +:+ "/stitch.json")) as [sd|] eqn:Hsd.
      - destruct (Hst sd eq_refl) as [v Hv].
        exists [sd; o], (Some 0%nat), v. intros tr.
        unfold json_load, obj_get, lift, ret, mret, M_ret.
        repeat (rewrite bind_run; cbv beta iota;
                cbn [heap ipMap trace length app lookup list_lookup default
                     from_option id];
                rewrite ?Hv, ?Hx).
        unfold on_str. by rewrite Hss.
      - exists [o], None, VNone. intros tr.
        unfold json_load, obj_get, lift, ret, mret, M_ret.
        repeat (rewrite bind_run; cbv beta iota;
                cbn [heap ipMap trace length app lookup list_lookup default
                     from_option id];
                rewrite ?Hx).
        unfold on_str. by rewrite Hss. }
    eexists _, nm.
    unfold main. rewrite Hop.
    rewrite decide_False, decide_False, decide_True by done.
    rewrite bind_run, Hval.
    cbv beta iota. unfold create, init_state.
    unfold mobius. mnorm. rewrite decide_True by apply H200.
    rewrite bind_run, Hhints. mnorm.
    unfold chameleon_storage. rewrite Hch. mnorm.
    unfold exogeni_storage. rewrite Hs, Hd, Hip. mnorm.
    erewrite provision_storage_ok; [|exact Hfo| |].
    2: { unfold storage_shape. rewrite lookup_insert_ne, Hpb by done. done. }
    2: { exact Hpay. }
    mnorm. rewrite decide_False by (intros Hne; apply Hne, H200). mnorm.
    unfold chameleon_cluster. rewrite Hch. mnorm.
    erewrite exogeni_cluster_key_error; [|done|done| |].
    2: { intros ip. by rewrite Hchip. }
    2: { apply lookup_empty. }
    split_and!; [reflexivity|reflexivity|eauto|reflexivity].
Qed.

End ForwardLookup.

(** ** Stitching *)

Section Stitching.
Context (W : world) (a : args).

#[local] Abbreviation get_call :=
  (Mobius.get_workflow (mobiushost a) (workflowId a)).

Lemma wait_active_polls l sd t n : ∀ fuel s st,
  heap st !! l = Some sd → sd !! "target" = Some (VStr t) →
  active_after W a t n (trace st) s → (n ≤ fuel)%nat →
  wait_active W a fuel (Some l) s st =
  (Ok tt, {| heap := heap st; ipMap := ipMap st;
             trace := trace st ++ poll_events W a t n (trace st) s |}).
Proof.
  induction n as [|n IH]; intros fuel s st Hl Ht Hact Hle.
  - inversion Hact; subst. destruct fuel; simpl; rewrite app_nil_r;
      by destruct st.
  - inversion Hact as [|n' tr s' Hs Hrest]; subst.
    destruct fuel as [|fuel]; [lia|]. cbn [wait_active].
    rewrite decide_False by done.
    unfold obj_get, lift, mobius, sleep, emit.
    rewrite bind_run, Hl. cbn [default from_option id]. rewrite Ht.
    cbv beta iota. cbn [str_add]. rewrite !bind_run. cbv beta iota.
    cbn [heap ipMap trace].
    rewrite IH; cbn [heap ipMap trace]; [|done|done| |lia].
    + cbn [poll_events]. by rewrite <- !app_assoc.
    + by rewrite <- app_assoc.
Qed.

Lemma wait_active_out_of_fuel l sd t : ∀ fuel s st,
  heap st !! l = Some sd → sd !! "target" = Some (VStr t) →
  (∀ n, (n ≤ fuel)%nat → ¬ active_after W a t n (trace st) s) →
  (wait_active W a fuel (Some l) s st).1 = Raise OutOfFuel.
Proof.
  induction fuel as [|fuel IH]; intros s st Hl Ht Hnever.
  - cbn [wait_active]. rewrite decide_False; [done|].
    intros ->. apply (Hnever 0%nat); [lia|constructor].
  - cbn [wait_active]. rewrite decide_False.
    2: { intros ->. apply (Hnever 0%nat); [lia|constructor]. }
    unfold obj_get, lift, mobius, sleep, emit.
    rewrite bind_run, Hl. cbn [default from_option id]. rewrite Ht.
    cbv beta iota. cbn [str_add]. rewrite !bind_run. cbv beta iota.
    cbn [heap ipMap trace]. apply IH; cbn [heap ipMap trace]; [done|done|].
    intros n Hn Hact. apply (Hnever (S n)); [lia|].
    constructor.
    + intros ->. apply (Hnever 0%nat); [lia|constructor].
    + cbv zeta. by rewrite <- app_assoc in Hact.
Qed.

Lemma publish_requests_vlan host sd reqs : ∀ v s st v' s' st',
  for_each reqs (publish_request a host sd) (v, s) st = (Ok (v', s'), st') →
  v' = vlan_of reqs v.
Proof.
  induction reqs as [|req reqs IH]; intros v s st v' s' st' H.
  - cbn [for_each] in H. unfold ret, mret, M_ret in H. by simplify_eq.
  - cbn [for_each] in H. rewrite bind_run in H.
    destruct (publish_request a host sd req (v, s) st) as [[[v1 s1]|e] st1]
      eqn:Hreq; [|done].
    apply IH in H. subst v'. cbn [vlan_of fold_left]. f_equal.
    unfold publish_request in Hreq. rewrite bind_run in Hreq.
    destruct (for_each (req_slices req) _ s st) as [[s2|e] st2]; [|done].
    unfold ret, mret, M_ret in Hreq. by simplify_eq.
Qed.

(** C3 (amended). When the status published to COMET showed a VLAN for the
    chameleon side and an exogeni site is configured, with the dict of
    [stitch.json] on the heap and its [target] a string: if the target is
    seen [Active] after [n] polls, the stitching step makes exactly these
    [n] polls, each a status query followed by a 5-second sleep, then sleeps
    60 seconds once and submits one stitch request, the dict of
    [stitch.json] with [tag] set to the VLAN. With no VLAN found (which is
    always so when no COMET host is configured) the step does nothing; with
    a COMET host and a status answered 200, the VLAN is the one of the last
    chameleon request of the status that carries one. *)
Theorem stitch_polls_then_submits (fuel : nat) (l : loc) (sd : obj)
    (t vlan site : string) (n : nat) (s : option string) (st : state) :
  exogenisite a = Some site →
  heap st !! l = Some sd → sd !! "target" = Some (VStr t) →
  active_after W a t n (trace st) s → (n ≤ fuel)%nat →
  let polls := poll_events W a t n (trace st) s in
  let payload := <["tag":=VStr vlan]> sd in
  stitch W a fuel (Some l) (Some vlan) s st =
    (Ok tt,
     {| heap := <[l:=payload]> (heap st); ipMap := ipMap st;
        trace := trace st ++ polls ++
          [ESleep 60;
           mobius_event W (trace st ++ polls ++ [ESleep 60])
             (Mobius.create_stitchport (mobiushost a) (workflowId a)
                payload)] |}) ∧
  length polls = (2 * n)%nat ∧
  (∀ i e, polls !! i = Some e →
     if Nat.even i then ∃ r, e = EMobius get_call r else e = ESleep 5) ∧
  payload !! "tag" = Some (VStr vlan) ∧
  (∀ r st0, comethost a = None →
     publish a (Some l) r st0 = (Ok (None, None), st0)) ∧
  (∀ s0 st0, stitch W a fuel (Some l) None s0 st0 = (Ok tt, st0)) ∧
  (∀ host r st0 v s0 st1,
     comethost a = Some host → status r = 200 →
     publish a (Some l) r st0 = (Ok (v, s0), st1) →
     v = vlan_of (value r) None).
Proof.
  intros Hsite Hl Ht Hact Hle polls payload. split_and!.
  - unfold stitch. rewrite Hsite. rewrite bind_run.
    rewrite (wait_active_polls l sd t n fuel s st Hl Ht Hact Hle).
    cbv beta iota. fold polls.
    unfold sleep, emit, perform_stitch, obj_set, deref, mobius, ret, mret,
      M_ret.
    repeat (rewrite bind_run; cbv beta iota; cbn [heap ipMap trace]).
    rewrite (heap_alter _ _ _ _ Hl).
    rewrite list_lookup_insert_eq by (by eapply lookup_lt_Some).
    cbn [default from_option id]. unfold mobius_event.
    by rewrite <- !app_assoc.
  - subst polls. clear. generalize (trace st). revert s.
    induction n as [|k IH]; intros s tr; [done|].
    cbn [poll_events length app]. rewrite IH. lia.
  - subst polls. clear. generalize (trace st). revert s.
    induction n as [|k IH]; intros s tr i e; [done|].
    cbn [poll_events app]. destruct i as [|[|i]]; cbn [lookup list_lookup].
    + intros [= <-]. simpl. eauto.
    + by intros [= <-].
    + intros Hi. apply IH in Hi. by rewrite Nat.even_succ_succ.
  - subst payload. apply lookup_insert_eq.
  - intros r st0 Hc. unfold publish. by rewrite Hc.
  - done.
  - intros host r st0 v s0 st1 Hc Hr. unfold publish.
    rewrite Hc, decide_True by done. apply publish_requests_vlan.
Qed.

End Stitching.

(** ** The workers of one site *)

Section Workers.
Import PyStr PyStrFacts.

#[local] Arguments String.append !s1 s2 : simpl nomatch.
#[local] Arguments PyStr.replace : simpl never.
#[local] Arguments PyStr.str : simpl never.

Lemma lower_cons c s :
  lower (String c s) = negb (is_upper c) && lower s.
Proof. done. Qed.

Lemma lower_split sep s :
  lower s = true → Forall (λ p, lower p = true) (split sep s).
Proof.
  induction s as [|c s IH]; [by repeat constructor|].
  rewrite lower_cons. intros [Hc Hs]%andb_true_iff. specialize (IH Hs).
  cbn [split]. destruct (Ascii.eqb c sep); [by constructor|].
  destruct (split sep s) as [|h t].
  - repeat constructor. by rewrite lower_cons, Hc.
  - inversion IH; subst. constructor; [|done]. by rewrite lower_cons, Hc.
Qed.

Lemma lower_join sep l :
  lower sep = true → Forall (λ p, lower p = true) l →
  lower (join sep l) = true.
Proof.
  intros Hsep. unfold join. induction 1 as [|p l Hp Hl IH]; [done|].
  cbn [String.concat]. destruct l as [|q l]; [done|].
  change ((p ++ sep ++ String.concat sep (q :: l))%string)
    with (p +:+ sep +:+ String.concat sep (q :: l)).
  by rewrite !lower_app, Hp, Hsep, IH.
Qed.

Lemma default_ip_lower ip d :
  plain ip = true → get_default_ip_for_condor ip = Ok d → plain d = true.
Proof.
  intros Hip%plain_lower. unfold get_default_ip_for_condor, list_set.
  pose proof (lower_split "." ip Hip) as Hparts.
  case_decide as Hlen; [|done]. cbn [mbind res_bind]. intros [= <-].
  destruct (split "." ip) as [|p [|q [|r [|t l]]]]; simpl in Hlen; try lia.
  cbn [insert list_insert].
  assert (lower (join "." (p :: q :: r :: "*" :: l)) = true) as Hl.
  { apply lower_join; [done|].
    inversion Hparts as [|? ? ? H1]; subst.
    inversion H1 as [|? ? ? H2]; subst.
    inversion H2 as [|? ? ? H3]; subst.
    inversion H3; subst. by repeat constructor. }
  revert Hl. unfold join. cbn [String.concat].
  destruct p; simpl; done.
Qed.

Lemma replace_sealed_after tok v n1 n2 s :
  tok ≠ "" → n1 ≠ "" → sealed tok n2 = true → occurs tok s = false →
  replace tok v (replace n1 n2 s) = replace n1 n2 s.
Proof. intros. by apply replace_absent, occurs_replace_sealed. Qed.

Lemma safe_ne s : safe s = true → s ≠ "".
Proof. by intros H ->. Qed.

Lemma safe_inv v tok : safe v = true → tok ∈ tokens → sealed tok v = true.
Proof.
  unfold safe. rewrite forallb_forall. intros H Ht. apply H.
  by apply list_elem_of_In.
Qed.

(** A text without upper-case letters shares no character with a token. *)
Lemma plain_safe v : plain v = true → safe v = true.
Proof.
  intros Hv. unfold safe, tokens. cbn [forallb].
  rewrite !andb_true_iff.
  split_and!; try done; apply inert_sealed; try done; by apply plain_inert.
Qed.

(** A safe text followed by a counter is safe; so is the fallback name of a
    node without host-name prefix. *)
Lemma counted_name_safe base c :
  safe base = true → safe (base +:+ str c) = true.
Proof.
  intros Hb. pose proof (plain_safe _ (plain_str c)) as Hs.
  unfold safe. apply forallb_forall. intros tok Ht.
  apply list_elem_of_In in Ht.
  pose proof (safe_inv _ _ Hs Ht) as (H1 & _ & _ & H4)%sealed_inv.
  apply sealed_app; [by apply safe_inv|done..].
Qed.

Lemma fallback_name_safe c : safe ("Node" +:+ str c) = true.
Proof. by apply counted_name_safe. Qed.

End Workers.

Ltac closed_tac :=
  repeat first
    [ apply PyStrFacts.occurs_replace_token; apply safe_inv;
        [first [done | by auto] | by repeat constructor]
    | apply PyStrFacts.occurs_replace_sealed;
        [ first [done | by auto]
        | apply safe_inv; [first [done | by auto] | by repeat constructor]
        | ] ].

Section WorkerScripts.
Import PyStr PyStrFacts.
Context (W : world) (a : args).

#[local] Arguments String.append !s1 s2 : simpl nomatch.
#[local] Arguments PyStr.replace : simpl never.
#[local] Arguments PyStr.str : simpl never.

(** What one rendering leaves of the tokens it substituted for *)
Lemma render_closed s0 wid old n1 ss fip subnet ip1 d1 sn s1 :
  old ≠ "" → safe wid = true → safe n1 = true →
  (∀ x, ss = Some x → safe x = true) →
  (∀ f, fip = VStr f → safe f = true) →
  (∀ v, subnet = Some v → safe v = true) →
  (∀ v, ip1 = Some v → safe v = true) →
  (∀ v, d1 = Some v → safe v = true) →
  (∀ v, sn = Some v → safe v = true) →
  render (VStr s0) wid old n1 ss fip subnet ip1 d1 sn = Ok s1 →
  occurs "WORKFLOW" s1 = false ∧ occurs "SUBMIT" s1 = false ∧
  (fip ≠ VNone ∨ is_Some ip1 →
     occurs "IPADDR" s1 = false ∧
     (is_Some subnet → occurs "SUBNET" s1 = false)) ∧
  (is_Some d1 → occurs "REPLACEIP" s1 = false) ∧
  (is_Some sn → occurs "STORAGENODE" s1 = false).
Proof.
  intros Hold Hwid Hn1 Hx Hf Hsub Hip Hd Hsn. unfold render.
  cbn [replace_method mbind res_bind].
  destruct ss as [x|]; try (pose proof (Hx _ eq_refl));
    (destruct fip as [|f|z]; [| |done]);
    try (pose proof (Hf _ eq_refl));
    destruct subnet as [v|]; try (pose proof (Hsub _ eq_refl));
    destruct ip1 as [i|]; try (pose proof (Hip _ eq_refl));
    destruct d1 as [d|]; try (pose proof (Hd _ eq_refl));
    destruct sn as [n|]; try (pose proof (Hsn _ eq_refl));
    cbn [mbind res_bind]; intros [= <-];
    (split_and!; [| |intros Hc; split; [|intros Hs']|intros Hd'|intros Hn']);
    try (by destruct Hc as [?|[? [=]]]);
    try (by destruct Hs' as [? [=]]);
    try (by destruct Hd' as [? [=]]);
    try (by destruct Hn' as [? [=]]);
    closed_tac.
Qed.

(** The same for values without upper-case letters *)
Lemma render_clean s0 wid old n1 x fip subnet ip1 d1 sn s1 :
  old ≠ "" → plain wid = true → plain n1 = true → plain x = true →
  (∀ f, fip = VStr f → plain f = true) →
  (∀ v, subnet = Some v → plain v = true) →
  (∀ v, ip1 = Some v → plain v = true) →
  (∀ v, d1 = Some v → plain v = true) →
  (∀ v, sn = Some v → plain v = true) →
  render (VStr s0) wid old n1 (Some x) fip subnet ip1 d1 sn = Ok s1 →
  occurs "WORKFLOW" s1 = false ∧ occurs "SUBMIT" s1 = false ∧
  (fip ≠ VNone ∨ is_Some ip1 →
     occurs "IPADDR" s1 = false ∧
     (is_Some subnet → occurs "SUBNET" s1 = false)) ∧
  (is_Some d1 → occurs "REPLACEIP" s1 = false) ∧
  (is_Some sn → occurs "STORAGENODE" s1 = false).
Proof.
  intros Hold Hwid Hn1 Hx Hf Hsub Hip Hd Hsn.
  apply render_closed; auto using plain_safe.
  intros ? [= <-]. by apply plain_safe.
Qed.

(** The rendering of the next worker, applied to what the rendering of this
    one left: only the replacement of this worker's name by the next one's
    changes the text. *)
Lemma render_again s0 wid old n1 n2 ss fip subnet ip1 ip2 d1 d2 sn s1 :
  old ≠ "" → safe wid = true → safe n1 = true → safe n2 = true →
  (∀ x, ss = Some x → safe x = true) →
  (∀ f, fip = VStr f → safe f = true) →
  (∀ v, subnet = Some v → safe v = true) →
  (∀ v, ip1 = Some v → safe v = true) →
  (∀ v, d1 = Some v → safe v = true) →
  (∀ v, sn = Some v → safe v = true) →
  (is_Some ip2 → is_Some ip1) → (is_Some d2 → is_Some d1) →
  render (VStr s0) wid old n1 ss fip subnet ip1 d1 sn = Ok s1 →
  render (VStr s1) wid n1 n2 ss fip subnet ip2 d2 sn =
  Ok (replace n1 n2 s1).
Proof.
  intros Hold Hwid Hn1 Hn2 Hx Hf Hsub Hip Hd Hsn Hip2 Hd2 Hr.
  destruct (render_closed _ _ _ _ _ _ _ _ _ _ _ Hold Hwid Hn1 Hx Hf Hsub Hip
              Hd Hsn Hr) as (Cw & Cs & Ci & Cd & Cn).
  pose proof (safe_ne _ Hn1) as Hne.
  assert (∀ tok, tok ∈ tokens → sealed tok n2 = true) as Hin
    by (intros; by apply safe_inv).
  unfold render. cbn [replace_method mbind res_bind].
  rewrite (replace_absent "WORKFLOW") by done.
  rewrite (replace_sealed_after "SUBMIT")
    by (try apply Hin; first [done | by repeat constructor]).
  assert (match fip with
          | VNone => Ok (replace n1 n2 s1)
          | VStr f =>
              Ok (match subnet with
                  | Some sn0 =>
                      replace "SUBNET" sn0
                        (replace "IPADDR" f (replace n1 n2 s1))
                  | None => replace "IPADDR" f (replace n1 n2 s1)
                  end)
          | VInt _ => Raise TypeError
          end = Ok (replace n1 n2 s1)) as ->.
  { destruct fip as [|f|z]; [done| |].
    - destruct Ci as [Ci Cs']; [by left|].
      rewrite (replace_sealed_after "IPADDR")
        by (try apply Hin; first [done | by repeat constructor]).
      destruct subnet as [v|]; [|done].
      rewrite (replace_sealed_after "SUBNET"); [done..| |by apply Cs'].
      apply Hin. by repeat constructor.
    - by unfold render in Hr. }
  cbn [mbind res_bind]. f_equal.
  assert (match ip2 with
          | Some ip =>
              match subnet with
              | Some sn0 =>
                  replace "SUBNET" sn0 (replace "IPADDR" ip (replace n1 n2 s1))
              | None => replace "IPADDR" ip (replace n1 n2 s1)
              end
          | None => replace n1 n2 s1
          end = replace n1 n2 s1) as ->.
  { destruct ip2 as [i2|]; [|done].
    destruct Ci as [Ci Cs']; [right; by apply Hip2|].
    rewrite (replace_sealed_after "IPADDR")
      by (try apply Hin; first [done | by repeat constructor]).
    destruct subnet as [v|]; [|done].
    rewrite (replace_sealed_after "SUBNET"); [done..| |by apply Cs'].
    apply Hin. by repeat constructor. }
  assert (match d2 with
          | Some d => replace "REPLACEIP" d (replace n1 n2 s1)
          | None => replace n1 n2 s1
          end = replace n1 n2 s1) as ->.
  { destruct d2 as [d|]; [|done].
    rewrite (replace_sealed_after "REPLACEIP"); [done..| |by apply Cd, Hd2].
    apply Hin. by repeat constructor. }
  destruct sn as [n|]; [|done].
  rewrite (replace_sealed_after "STORAGENODE"); [done..| |by apply Cn].
  apply Hin. by repeat constructor.
Qed.

(** Two rounds of the worker loop on the one dict *)
Lemma node_payload_again o nn1 nn2 ip1 ip2 le wid c1 c2 old site ss sn subnet
    fip p1 n1 p2 n2 s :
  node_payload o nn1 ip1 le wid c1 old site ss sn subnet fip
    = Ok (p1, n1) →
  node_payload p1 nn2 ip2 le wid c2 n1 site ss sn subnet fip
    = Ok (p2, n2) →
  old ≠ "" → safe wid = true → safe n1 = true → safe n2 = true →
  (∀ x, ss = Some x → safe x = true) →
  (∀ f, fip = VStr f → safe f = true) →
  (∀ v, subnet = Some v → safe v = true) →
  (∀ v, sn = Some v → safe v = true) →
  (∀ v, ip1 = Some v → plain v = true) →
  (is_Some ip2 → is_Some ip1) →
  p1 !! "postBootScript" = Some (VStr s) →
  p2 !! "postBootScript" = Some (VStr (replace n1 n2 s)).
Proof.
  intros H1 H2 Hold Hwid Hn1 Hn2 Hx Hf Hsub Hsn Hip Hip2 Hs.
  (* the first round *)
  unfold node_payload in H1.
  destruct (o !! "hostNamePrefix") as [pv|]; [|done].
  cbn [mbind res_bind] in H1.
  destruct (resolve_name pv site wid nn1 c1) as [nm|] eqn:Hnm; [|done].
  cbn [mbind res_bind] in H1.
  set (od1 := match ip1 with
              | Some ip => d ← get_default_ip_for_condor ip;
                           Ok (<["ipAddress":=VStr ip]> o, Some d)
              | None => Ok (o, None)
              end) in H1.
  destruct od1 as [[o1 d1]|] eqn:Hod1; [|done]. cbn [mbind res_bind] in H1.
  assert ((∀ v, d1 = Some v → plain v = true) ∧ (is_Some ip1 → is_Some d1))
    as [Hd1 Hd1'].
  { subst od1. destruct ip1 as [i1|].
    - destruct (get_default_ip_for_condor i1) as [d|] eqn:Hd; [|done].
      cbn [mbind res_bind] in Hod1. simplify_eq. split; [|eauto].
      intros v [= <-]. eapply default_ip_lower; [|done]. by apply Hip.
    - simplify_eq. split; [done|]. by intros [? [=]]. }
  set (o1' := match le with
              | Some l => <["leaseEnd":=VStr l]> o1
              | None => o1
              end) in H1.
  destruct (o1' !! "postBootScript") as [[|s0|z]|] eqn:Hsc; [| | |done].
  { cbn [mbind res_bind] in H1. simplify_eq. }
  2: { cbn [mbind res_bind] in H1. by unfold render in H1. }
  cbn [mbind res_bind] in H1.
  destruct (render (VStr s0) wid old nm ss fip subnet ip1 d1 sn)
    as [s'|] eqn:Hr; [|done].
  cbn [mbind res_bind] in H1. simplify_eq.
  rewrite lookup_insert_eq in Hs. simplify_eq.
  (* the second round *)
  unfold node_payload in H2.
  destruct (_ !! "hostNamePrefix") as [pv2|]; [|done].
  cbn [mbind res_bind] in H2.
  destruct (resolve_name pv2 site wid nn2 c2) as [nm2|] eqn:Hnm2; [|done].
  cbn [mbind res_bind] in H2.
  set (od2 := match ip2 with
              | Some ip => d ← get_default_ip_for_condor ip;
                           Ok (<["ipAddress":=VStr ip]>
                                 (<["postBootScript":=VStr s]> o1'), Some d)
              | None => Ok (<["postBootScript":=VStr s]> o1', None)
              end) in H2.
  destruct od2 as [[o2 d2]|] eqn:Hod2; [|done]. cbn [mbind res_bind] in H2.
  assert (o2 !! "postBootScript" = Some (VStr s) ∧ (is_Some d2 → is_Some ip2))
    as [Ho2 Hd2].
  { subst od2. destruct ip2 as [i2|].
    - destruct (get_default_ip_for_condor i2) as [d|]; [|done].
      cbn [mbind res_bind] in Hod2. simplify_eq. split; [|eauto].
      rewrite lookup_insert_ne by done. apply lookup_insert_eq.
    - simplify_eq. split; [apply lookup_insert_eq|]. by intros [? [=]]. }
  set (o2' := match le with
              | Some l => <["leaseEnd":=VStr l]> o2
              | None => o2
              end) in H2.
  assert (o2' !! "postBootScript" = Some (VStr s)) as Ho2'.
  { subst o2'. destruct le; [|done]. by rewrite lookup_insert_ne. }
  rewrite Ho2' in H2. cbn [mbind res_bind] in H2.
  destruct (render (VStr s) wid n1 nm2 ss fip subnet ip2 d2 sn)
    as [s2|] eqn:Hr2; [|done].
  cbn [mbind res_bind] in H2. simplify_eq.
  rewrite (render_again s0 wid old n1 n2 ss fip subnet ip1 ip2 d1 d2 sn s)
    in Hr2 by auto using plain_safe.
  simplify_eq. apply lookup_insert_eq.
Qed.

(** Every round of the loop starts from the dict the round before left, with
    that round's name as the old node name. *)
Lemma worker_payloads_link n : ∀ site o count ipStart old sn subnet fip ss ps,
  worker_payloads a n site o count ipStart old sn subnet fip ss = Ok ps →
  (∀ p, ps !! 0%nat = Some p →
     node_payload o ("Node" +:+ str count) p.2 (leaseEnd a) (workflowId a)
       count old site ss sn subnet fip = Ok p.1) ∧
  (∀ i p q, ps !! i = Some p → ps !! S i = Some q →
     node_payload p.1.1 ("Node" +:+ str (count + Z.of_nat (S i))) q.2
       (leaseEnd a) (workflowId a) (count + Z.of_nat (S i)) p.1.2 site ss sn
       subnet fip = Ok q.1).
Proof.
  induction n as [|n IH];
    intros site o count ipStart old sn subnet fip ss ps Hps.
  { simpl in Hps. simplify_eq. by split. }
  cbn [worker_payloads] in Hps.
  destruct (next_start ipStart) as [ip1|] eqn:Hip1; [|done].
  cbn [mbind res_bind] in Hps.
  destruct (node_payload o _ ip1 _ _ _ old _ _ _ _ _) as [[p1 n1]|] eqn:Hp1;
    [|done].
  cbn [mbind res_bind] in Hps.
  destruct (worker_payloads a n site p1 (count + 1) ip1 n1 sn subnet fip ss)
    as [rest|] eqn:Hrest; [|done].
  cbn [mbind res_bind] in Hps. simplify_eq.
  destruct (IH site p1 (count + 1) ip1 n1 sn subnet fip ss rest Hrest)
    as [IH0 IHS].
  split.
  - intros p [= <-]. done.
  - intros [|i] p q Hp Hq; cbn [lookup list_lookup] in Hp, Hq.
    + simplify_eq. cbn [fst snd].
      replace (count + Z.of_nat 1) with (count + 1) by lia.
      by apply IH0.
    + replace (count + Z.of_nat (S (S i)))
        with (count + 1 + Z.of_nat (S i)) by lia.
      by apply IHS.
Qed.

Lemma worker_payloads_chain n : ∀ site o count ipStart old sn subnet fip ss ps,
  worker_payloads a n site o count ipStart old sn subnet fip ss = Ok ps →
  old ≠ "" → safe (workflowId a) = true →
  (∀ x, ss = Some x → safe x = true) →
  (∀ f, fip = VStr f → safe f = true) →
  (∀ v, subnet = Some v → safe v = true) →
  (∀ v, sn = Some v → safe v = true) →
  Forall (λ p, safe p.1.2 = true ∧ ∀ i, p.2 = Some i → plain i = true) ps →
  ∀ i p q s,
    ps !! i = Some p → ps !! S i = Some q →
    p.1.1 !! "postBootScript" = Some (VStr s) →
    q.1.1 !! "postBootScript" = Some (VStr (replace p.1.2 q.1.2 s)).
Proof.
  induction n as [|n IH];
    intros site o count ipStart old sn subnet fip ss ps Hps Hold Hwid Hx Hf
      Hsub Hsn Hall i p q s Hp Hq Hs.
  { simpl in Hps. by simplify_eq. }
  cbn [worker_payloads] in Hps.
  destruct (next_start ipStart) as [ip1|] eqn:Hip1; [|done].
  cbn [mbind res_bind] in Hps.
  destruct (node_payload o _ ip1 _ _ _ old _ _ _ _ _) as [[p1 n1]|] eqn:Hp1;
    [|done].
  cbn [mbind res_bind] in Hps.
  destruct (worker_payloads a n site p1 (count + 1) ip1 n1 sn subnet fip ss)
    as [rest|] eqn:Hrest; [|done].
  cbn [mbind res_bind] in Hps. simplify_eq.
  inversion Hall as [|? ? [Hn1 Hi1] Hall']; subst. cbn [fst snd] in *.
  destruct i as [|i].
  - cbn [lookup list_lookup] in Hp, Hq. simplify_eq. cbn [fst snd] in *.
    destruct n as [|n]; [simpl in Hrest; by simplify_eq|].
    cbn [worker_payloads] in Hrest.
    destruct (next_start ip1) as [ip2|] eqn:Hip2; [|done].
    cbn [mbind res_bind] in Hrest.
    destruct (node_payload p1 _ ip2 _ _ _ n1 _ _ _ _ _) as [[p2 n2]|] eqn:Hp2;
      [|done].
    cbn [mbind res_bind] in Hrest.
    destruct (worker_payloads a n site p2 _ ip2 n2 sn subnet fip ss)
      as [rest'|]; [|done].
    cbn [mbind res_bind] in Hrest. simplify_eq.
    cbn [lookup list_lookup] in Hq. simplify_eq. cbn [fst snd].
    inversion Hall' as [|? ? [Hn2 _] _]; subst. cbn [fst snd] in *.
    eapply (node_payload_again o); [exact Hp1|exact Hp2|done..| |done].
    destruct ip1; [eauto|]. simpl in Hip2. simplify_eq. by intros [? [=]].
  - cbn [lookup list_lookup] in Hp, Hq.
    eapply (IH site p1 (count + 1) ip1 n1); [exact Hrest| |done..].
    by apply safe_ne.
Qed.

(** C9 (amended). Every worker is made from the one dict loaded from
    [worker.json], as the rounds before left it. In any world the dicts the
    loop sends are the first of [worker_payloads], up to and including the
    first creation that fails, and the last one sent stays behind [l]; when
    every creation is answered with 200 all of them are sent. The first worker is made from
    the loaded dict; worker k+1 is made from the dict sent for worker k: its
    script is rendered from that worker's rendered script, with that worker's
    name as the old node name. When no substituted value can complete a token
    ([safe]: the workflow id, the node names, and the submit subnet, forward
    IP, subnet and storage node name that are present; an absent submit
    subnet is substituted as [None], which is such a text) and the addresses
    have no upper-case letter, then from the second worker on the script sent
    is the script of the worker before with that worker's name replaced by
    the new one: the other substitutions change nothing any more. *)
Theorem workers_share_one_dict (n : nat) (site : string) (l : loc)
    (count : Z) (ipStart : option string) (old : string)
    (sn subnet : option string) (fip : val) (ss : option string) (st : state)
    (o : obj) (ps : list (obj * string * option string)) :
  heap st !! l = Some o →
  worker_payloads a n site o count ipStart old sn subnet fip ss = Ok ps →
  (∃ m, (m ≤ n)%nat ∧
     let st' := (worker_loop W a n site l count ipStart old sn subnet fip ss
                   st).2 in
     sent_payloads (trace st') =
       sent_payloads (trace st) ++ map (λ p, p.1.1) (take m ps) ∧
     heap st' = <[l:=final_dict (take m ps) o]> (heap st)) ∧
  (creations_succeed W →
   worker_loop W a n site l count ipStart old sn subnet fip ss st =
     (Ok (true, count + Z.of_nat n),
      {| heap := <[l:=final_dict ps o]> (heap st);
         ipMap := record_ips ps (ipMap st);
         trace := trace st ++
           call_events W (trace st)
             (map (λ p, Mobius.create_compute (mobiushost a) (workflowId a)
                          p.1.1) ps) |})) ∧
  (∀ p, ps !! 0%nat = Some p →
     node_payload o ("Node" +:+ str count) p.2 (leaseEnd a) (workflowId a)
       count old site ss sn subnet fip = Ok p.1) ∧
  (∀ i p q, ps !! i = Some p → ps !! S i = Some q →
     node_payload p.1.1 ("Node" +:+ str (count + Z.of_nat (S i))) q.2
       (leaseEnd a) (workflowId a) (count + Z.of_nat (S i)) p.1.2 site ss sn
       subnet fip = Ok q.1) ∧
  (old ≠ "" → safe (workflowId a) = true →
   (∀ x, ss = Some x → safe x = true) →
   (∀ f, fip = VStr f → safe f = true) →
   (∀ v, subnet = Some v → safe v = true) →
   (∀ v, sn = Some v → safe v = true) →
   Forall (λ p, safe p.1.2 = true ∧ ∀ i, p.2 = Some i → plain i = true) ps →
   ∀ i p q s,
     ps !! i = Some p → ps !! S i = Some q →
     p.1.1 !! "postBootScript" = Some (VStr s) →
     q.1.1 !! "postBootScript" = Some (VStr (replace p.1.2 q.1.2 s))).
Proof.
  intros Hl Hps.
  destruct (worker_payloads_link n site o count ipStart old sn subnet fip ss
              ps Hps) as [H0 HS].
  split_and!; [| |done|done|].
  - by apply (worker_loop_sends W a n site l count ipStart old sn subnet fip
                ss st o ps).
  - intros H200.
    by apply (worker_loop_ok W a n site l count ipStart old sn subnet fip
                ss st o ps).
  - intros Hold Hwid Hx Hf Hsub Hsn Hall.
    by apply (worker_payloads_chain n site o count ipStart old sn subnet fip
                ss ps).
Qed.

End WorkerScripts.

(** * The sample runs *)

Section SampleRuns.
Import Examples.

#[local] Abbreviation host := "http://localhost:8080/mobius".

(** Scenario 1 on the sample files *)
Lemma chameleon_only_scenario_witness :
  ∃ st',
    main chameleon_world (chameleon_args "wf1" "10.0.0.10" 2) 0 init_state
      = (Raise (SystemExit 0), st') ∧
    size (ipMap st') = 5%nat ∧
    Forall (λ e, is_comet e = false) (trace st').
Proof.
  destruct (chameleon_only_scenario chameleon_world
              (chameleon_args "wf1" "10.0.0.10" 2) 0 "Chameleon:CHI@UC" "d"
              storage_json master_json submit_json worker_json)
    as (st' & s1 & p0 & p1 & p2 & p3 & p4 & n0 & n1 & n2 & n3 & n4 & Hrun & H);
    try reflexivity.
  exists st'. split; [exact Hrun|]. split; apply H.
Defined.

(** Scenario 2: ten slots from [10.0.0.250] *)
Lemma start_ip_checked_before_remote_calls_witness :
  ∃ evs,
    trace (main chameleon_world (chameleon_args "wf1" "10.0.0.250" 9) 0
             init_state).2 = trace init_state ++ evs ∧
    exit_status (main chameleon_world (chameleon_args "wf1" "10.0.0.250" 9) 0
                   init_state).1 = 1 ∧
    Forall (λ e, is_remote e = false) evs ∧
    stops (main chameleon_world (chameleon_args "wf1" "10.0.0.250" 9) 0
             init_state).1 evs.
Proof.
  apply (start_ip_checked_before_remote_calls chameleon_world
           (chameleon_args "wf1" "10.0.0.250" 9) 0 init_state).
  - reflexivity.
  - right. exists "10.0.0.250", 9, 250. repeat split; reflexivity.
Defined.

(** C3, as stated, fails without a COMET host: the status lists the
    chameleon side with VLAN 3291 and an exogeni site is configured, yet the
    run ends without a poll sleep, a settle sleep or a stitch request. *)
Lemma vlan_present_but_no_stitch :
  exogenisite (two_site_args None (Some "192.168.10.10"))
    = Some exogeni_site ∧
  (∀ tr,
     ∃ req,
       req ∈ value (mobius_reply two_site_world tr
                      (Mobius.get_workflow host "wf1")) ∧
       PyStr.occurs "Chameleon" (req_site req) = true ∧
       req_vlan req = Some (VStr "3291")) ∧
  ∃ st',
    main two_site_world (two_site_args None (Some "192.168.10.10")) 10
      init_state = (Raise (SystemExit 0), st') ∧
    filter (λ e, is_stitch_step e = true) (trace st') = [].
Proof.
  split; [reflexivity|]. split.
  - intros tr. cbn [two_site_world mobius_reply].
    destruct (2 <=? _)%nat; eexists; (split; [apply list_elem_of_here|]);
      split; reflexivity.
  - eexists. split; [vm_compute; reflexivity|]. vm_compute. reflexivity.
Qed.

(** The stitching step on the sample world, entered with the target
    [Ticketed]: three polls, the settle sleep, one request. *)
Lemma stitch_polls_then_submits_witness :
  ∃ st',
    stitch two_site_world (two_site_args None (Some "192.168.10.10")) 5
      (Some 0%nat) (Some "3291") (Some "Ticketed")
      {| heap := [stitch_json "st1"]; ipMap := ∅; trace := [] |}
      = (Ok tt, st') ∧
    filter (λ e, is_stitch_step e = true) (trace st') =
      [ESleep 5; ESleep 5; ESleep 5; ESleep 60;
       EMobius (Mobius.create_stitchport host "wf1"
                  (<["tag":=VStr "3291"]> (stitch_json "st1"))) ok_reply].
Proof.
  destruct (stitch_polls_then_submits two_site_world
              (two_site_args None (Some "192.168.10.10")) 5 0%nat
              (stitch_json "st1") "st1" "3291" exogeni_site 3
              (Some "Ticketed")
              {| heap := [stitch_json "st1"]; ipMap := ∅; trace := [] |})
    as (Hrun & _).
  - reflexivity.
  - reflexivity.
  - reflexivity.
  - apply active_later; [discriminate|]. cbv zeta.
    apply active_later; [vm_compute; discriminate|]. cbv zeta.
    apply active_later; [vm_compute; discriminate|]. cbv zeta.
    apply active_now.
  - lia.
  - eexists. split; [exact Hrun|]. vm_compute. reflexivity.
Defined.

(** Scenario 5 as a whole run with a COMET host: the target is [Active] at
    the second poll. *)
Lemma stitching_scenario_run :
  ∃ st',
    main two_site_world
      (two_site_args (Some "https://comet") (Some "192.168.10.10")) 5
      init_state = (Raise (SystemExit 0), st') ∧
    filter (λ e, is_stitch_step e = true) (trace st') =
      [ESleep 5; ESleep 5; ESleep 60;
       EMobius (Mobius.create_stitchport host "wf1"
                  (<["tag":=VStr "3291"]> (stitch_json "st1"))) ok_reply].
Proof.
  eexists. split; [vm_compute; reflexivity|]. vm_compute. reflexivity.
Qed.

(** C9, as stated, fails for a workflow id that contains the token it is
    substituted for: the second worker's script has it substituted a second
    time. *)
Lemma workflow_token_substituted_twice :
  sent_scripts
    (trace (main chameleon_world (chameleon_args "xWORKFLOW" "10.0.0.10" 2) 0
              init_state).2) =
  ["mount 10.0.0.0\/24 for xWORKFLOW";
   "master of xWORKFLOW at xWORKFLOW-st0.novalocal";
   "xWORKFLOW-w3 of xWORKFLOW from 10.0.0.13 to 10.0.0.*";
   "xxWORKFLOW-w4 of xxWORKFLOW from 10.0.0.13 to 10.0.0.*"].
Proof. vm_compute. reflexivity. Qed.

(** Two workers of the sample chameleon site *)
Lemma workers_share_one_dict_witness :
  (∃ st',
     worker_loop chameleon_world (chameleon_args "wf1" "10.0.0.10" 2) 2
       "Chameleon:CHI@UC" 0 3 (Some "10.0.0.12") "NODENAME"
       (Some "wf1-st0.novalocal") None VNone None
       {| heap := [worker_json]; ipMap := ∅; trace := [] |}
       = (Ok (true, 5), st') ∧
     sent_scripts (trace st') =
       ["wf1-w3 of wf1 from 10.0.0.13 to 10.0.0.*";
        "wf1-w4 of wf1 from 10.0.0.13 to 10.0.0.*"]) ∧
  second_worker !! "postBootScript" =
    Some (VStr (PyStr.replace "wf1-w3" "wf1-w4"
                  "wf1-w3 of wf1 from 10.0.0.13 to 10.0.0.*")).
Proof.
  destruct (workers_share_one_dict chameleon_world
               (chameleon_args "wf1" "10.0.0.10" 2) 2 "Chameleon:CHI@UC"
               0 3 (Some "10.0.0.12") "NODENAME" (Some "wf1-st0.novalocal")
               None VNone None
               {| heap := [worker_json]; ipMap := ∅; trace := [] |}
               worker_json sample_workers) as (_ & Hrun & _ & _ & Hchain).
  - reflexivity.
  - vm_compute. reflexivity.
  - split.
    + eexists. split; [apply Hrun; intros tr h w p; reflexivity|].
      vm_compute. reflexivity.
    + apply (Hchain ltac:(discriminate) ltac:(reflexivity)
               ltac:(discriminate) ltac:(discriminate) ltac:(discriminate)
               ltac:(by intros v [= <-])
               ltac:(repeat constructor; try (intros i [= <-]); reflexivity)
               0%nat (first_worker, "wf1-w3", Some "10.0.0.13")
               (second_worker, "wf1-w4", Some "10.0.0.14")
               "wf1-w3 of wf1 from 10.0.0.13 to 10.0.0.*");
        reflexivity.
Defined.

(** C10, as stated, fails when the chameleon cluster pass between the
    exogeni storage node and the lookup fails: the run deletes the workflow
    and returns. *)
Lemma failed_master_hides_key_error :
  exogenisite (two_site_args None None) = Some exogeni_site ∧
  exoipStart (two_site_args None None) = None ∧
  is_Some (files failing_master_world !! "e/storage.json") ∧
  ∃ st',
    main failing_master_world (two_site_args None None) 0 init_state
      = (Ok tt, st') ∧
    map is_remote (trace st') = [true; true; true; true; true] ∧
    ipMap st' !! "st1" = None.
Proof.
  split; [reflexivity|]. split; [reflexivity|]. split; [by eexists|].
  eexists. split; [vm_compute; reflexivity|].
  split; vm_compute; reflexivity.
Qed.

(** An exogeni site alone, no start IP *)
Lemma forward_lookup_without_start_ip_witness :
  ∃ st', main two_site_world exogeni_args 0 init_state
           = (Raise KeyError, st') ∧ ipMap st' = ∅.
Proof.
  destruct (forward_lookup_without_start_ip two_site_world exogeni_args
              exogeni_site "e" eq_refl eq_refl eq_refl) as (_ & _ & H).
  destruct (H 0%nat 1 exo_storage_json "192.168.10.5" "192.168.10.0/24")
    as (st' & nm & Hrun & _ & _ & Hmap); try reflexivity.
  - intros sd [= <-]. by eexists.
  - intros tr [] ; try reflexivity.
    cbn [two_site_world mobius_reply]. by destruct (2 <=? _)%nat.
  - exists st'. by split.
Defined.

End SampleRuns.

(** * Further properties *)

(** ** The address helpers on their edges *)

Section AddressEdges.
Import PyStr PyStrFacts.
#[local] Arguments String.append !s1 s2 : simpl nomatch.

(** X1. The next address of a valid address lies in the same /24: it has
    the same [get_cidr], [get_cidr_escape] and [get_default_ip_for_condor]
    texts. *)
Theorem next_ip_keeps_subnet (ip : string) :
  is_valid_ipv4_address ip = true →
  ∃ ip',
    get_next_ip ip = Ok ip' ∧
    get_cidr ip' = get_cidr ip ∧
    get_cidr_escape ip' = get_cidr_escape ip ∧
    get_default_ip_for_condor ip' = get_default_ip_for_condor ip.
Proof.
  intros (p & q & r & d & -> & Hd & Hp & Hq & Hr)%valid_inv.
  apply octet_ok_free in Hp, Hq, Hr.
  exists (dotted p q r (d + 1)).
  rewrite get_next_ip_dotted by (done || lia).
  by rewrite !get_cidr_dotted, !get_cidr_escape_dotted, !get_default_ip_dotted.
Qed.

Lemma next_ip_keeps_subnet_witness :
  ∃ ip',
    get_next_ip "10.0.0.13" = Ok ip' ∧
    get_cidr ip' = get_cidr "10.0.0.13" ∧
    get_cidr_escape ip' = get_cidr_escape "10.0.0.13" ∧
    get_default_ip_for_condor ip' = get_default_ip_for_condor "10.0.0.13".
Proof. apply (next_ip_keeps_subnet "10.0.0.13"). reflexivity. Defined.

(** X2. On a text with fewer than four dot-separated fields every address
    helper raises [IndexError] at [octets[3]]. *)
Theorem short_address_index_error (ip : string) (n : Z) :
  (length (split "." ip) < 4)%nat →
  get_cidr ip = Raise IndexError ∧
  get_cidr_escape ip = Raise IndexError ∧
  get_default_ip_for_condor ip = Raise IndexError ∧
  get_next_ip ip = Raise IndexError ∧
  can_ip_satisfy_range ip n = Raise IndexError.
Proof.
  intros Hlen.
  unfold get_cidr, get_cidr_escape, get_default_ip_for_condor, get_next_ip,
    can_ip_satisfy_range, list_set, list_get.
  rewrite !decide_False by lia.
  rewrite (lookup_ge_None_2 _ 3) by lia. done.
Qed.

Lemma short_address_index_error_witness :
  get_cidr "10.0.0" = Raise IndexError ∧
  get_cidr_escape "10.0.0" = Raise IndexError ∧
  get_default_ip_for_condor "10.0.0" = Raise IndexError ∧
  get_next_ip "10.0.0" = Raise IndexError ∧
  can_ip_satisfy_range "10.0.0" 3 = Raise IndexError.
Proof. apply (short_address_index_error "10.0.0" 3). vm_compute. lia. Defined.

End AddressEdges.

(** ** The addresses of a cluster pass *)

Section ClusterAddresses.
Import PyStr PyStrFacts.
Context (W : world) (a : args).
#[local] Arguments String.append !s1 s2 : simpl nomatch.
#[local] Arguments PyStr.replace : simpl never.
#[local] Arguments PyStr.str : simpl never.

Lemma node_payload_dotted o nn p q r d le wid c old site ss sn subnet fip :
  wf_shape o = true →
  free_of "." p → free_of "." q → free_of "." r →
  (fip = VNone ∨ ∃ f, fip = VStr f) →
  ∃ o' name,
    node_payload o nn (Some (dotted p q r d)) le wid c old site ss sn subnet
      fip = Ok (o', name) ∧
    payload_address o' = Some (dotted p q r d) ∧
    wf_shape o' = true.
Proof.
  intros [Hp Hs]%andb_true_iff Fp Fq Fr Hf. unfold node_payload.
  assert (∃ pv, o !! "hostNamePrefix" = Some pv ∧
                (pv = VNone ∨ ∃ x, pv = VStr x)) as (pv & Hpv & Hpv').
  { apply wf_field_inv in Hp as [?|[? ?]]; eauto. }
  rewrite Hpv. cbn [mbind res_bind].
  destruct (resolve_name_total pv site wid nn c Hpv') as [name Hn].
  rewrite Hn. cbn [mbind res_bind].
  rewrite get_default_ip_dotted by done. cbn [mbind res_bind].
  set (ip := dotted p q r d).
  set (o1 := match le with
             | Some l => <["leaseEnd":=VStr l]> (<["ipAddress":=VStr ip]> o)
             | None => <["ipAddress":=VStr ip]> o
             end).
  assert (o1 !! "ipAddress" = Some (VStr ip)) as Hip.
  { subst o1. destruct le; by simplify_map_eq. }
  assert (o1 !! "hostNamePrefix" = o !! "hostNamePrefix") as Hk1.
  { subst o1. destruct le; by simplify_map_eq. }
  assert (o1 !! "postBootScript" = o !! "postBootScript") as Hk2.
  { subst o1. destruct le; by simplify_map_eq. }
  rewrite Hk2.
  apply wf_field_inv in Hs as [Hs|[sc Hs]]; rewrite Hs; cbn [mbind res_bind].
  - exists o1, name. split_and!; [done| |].
    + unfold payload_address. by rewrite Hip.
    + unfold wf_shape, wf_field.
      by rewrite Hk1, Hk2, Hpv, Hs; destruct Hpv' as [->|[? ->]].
  - destruct (render_total sc wid old name ss fip subnet (Some ip)
                (Some (p +:+ "." +:+ q +:+ "." +:+ r +:+ ".*")) sn Hf)
      as [s' Hr].
    rewrite Hr. cbn [mbind res_bind]. eexists _, name. split_and!; [done| |].
    + unfold payload_address. by simplify_map_eq.
    + unfold wf_shape, wf_field. simplify_map_eq.
      rewrite Hk1, Hpv. by destruct Hpv' as [->|[? ->]].
Qed.

Lemma worker_payloads_dotted p q r site sn subnet fip ss n :
  free_of "." p → free_of "." q → free_of "." r →
  (fip = VNone ∨ ∃ f, fip = VStr f) →
  ∀ o count d old,
    wf_shape o = true → 0 ≤ d →
    ∃ ps,
      worker_payloads a n site o count (Some (dotted p q r d)) old sn subnet
        fip ss = Ok ps ∧
      map (λ x, payload_address x.1.1) ps =
        map Some (address_run p q r (d + 1) n).
Proof.
  intros Fp Fq Fr Hf. induction n as [|n IH]; intros o count d old Hwf Hd.
  { exists []. done. }
  cbn [worker_payloads next_start].
  rewrite get_next_ip_dotted by done. cbn [mbind res_bind].
  destruct (node_payload_dotted o ("Node" +:+ str count) p q r (d + 1)
              (leaseEnd a) (workflowId a) count old site ss sn subnet fip
              Hwf Fp Fq Fr Hf) as (o' & name & -> & Hip & Hwf').
  cbn [mbind res_bind].
  destruct (IH o' (count + 1) (d + 1) name Hwf' ltac:(lia)) as (ps & -> & Hps).
  cbn [mbind res_bind]. eexists. split; [done|].
  cbn [map fst snd]. rewrite Hip, Hps. unfold address_run.
  cbn [seq map]. f_equal; [do 2 f_equal; lia|].
  rewrite <- seq_shift, !map_map. apply map_ext. intros i.
  do 2 f_equal. lia.
Qed.

Lemma sent_addresses_call_events tr (ps : list obj) :
  sent_addresses
    (call_events W tr
       (map (Mobius.create_compute (mobiushost a) (workflowId a)) ps)) =
  omap payload_address ps.
Proof.
  revert tr. induction ps as [|p ps IH]; intros tr; [done|].
  cbn [map call_events]. unfold sent_addresses in *. cbn [omap list_omap].
  rewrite IH. done.
Qed.

Lemma omap_of_map {A B C} (f : B → option C) (g : A → B) (l : list A) :
  ∀ l', map (λ x, f (g x)) l = map Some l' → omap f (map g l) = l'.
Proof.
  induction l as [|x l IH]; intros [|y l'] H; try done.
  cbn [map] in H. injection H as Hx Hl.
  cbn [map omap list_omap]. rewrite Hx. f_equal. by apply IH.
Qed.

Lemma address_run_cons p q r d n :
  address_run p q r d (S n) = dotted p q r d :: address_run p q r (d + 1) n.
Proof.
  unfold address_run. cbn [seq map]. rewrite Z.add_0_r. f_equal.
  rewrite <- seq_shift, map_map. apply map_ext. intros i. f_equal. lia.
Qed.

Lemma address_run_valid p q r d n :
  octet_ok p = true → octet_ok q = true → octet_ok r = true → 0 ≤ d →
  Forall (λ x, is_valid_ipv4_address x = true) (address_run p q r d (S n))
  ↔ d + Z.of_nat n ≤ 255.
Proof.
  intros Hp Hq Hr Hd. unfold address_run.
  rewrite Forall_fmap, Forall_seq. unfold compose. split.
  - intros H. specialize (H n ltac:(lia)).
    rewrite valid_dotted in H by (auto using octet_ok_free || lia).
    rewrite Hp, Hq, Hr in H. by apply bool_decide_eq_true in H.
  - intros H i Hi.
    rewrite valid_dotted by (auto using octet_ok_free || lia).
    rewrite Hp, Hq, Hr. apply bool_decide_eq_true. lia.
Qed.

(** X3. A cluster pass with its three shape files, a valid start IP
    [a.b.c.d], [w] workers and every creation answered with 200 sends
    [w + 2] creations whose addresses are consecutive: the master gets
    [a.b.c.d], or [a.b.c.(d+1)] when a storage node name was passed, the
    submit node and the workers follow one by one. Nothing bounds them: they
    are all valid addresses exactly when the last one, [d + k + w + 1], is at
    most 255. *)
Theorem cluster_addresses (dir site : string) (count : Z) (ip : string)
    (w : Z) (sn subnet : option string) (fip : val) (ss : option string)
    (st : state) (mo so wo : obj) :
  creations_succeed W →
  files W !! (dir +:+ "/master.json") = Some mo →
  files W !! (dir +:+ "/submit.json") = Some so →
  files W !! (dir +:+ "/worker.json") = Some wo →
  wf_shape mo = true → wf_shape so = true → wf_shape wo = true →
  is_valid_ipv4_address ip = true → 0 ≤ w →
  (fip = VNone ∨ ∃ f, fip = VStr f) →
  ∃ p q r d st' evs,
    ip = dotted p q r d ∧ last_octet ip = Ok d ∧
    provision_condor_cluster W a dir site count (Some ip) (Some w) sn subnet
      fip ss st = (Ok (true, count + 2 + w), st') ∧
    trace st' = trace st ++ evs ∧
    let k := match sn with Some _ => 1 | None => 0 end in
    sent_addresses evs = address_run p q r (d + k) (Z.to_nat w + 2) ∧
    (Forall (λ x, is_valid_ipv4_address x = true) (sent_addresses evs)
     ↔ d + k + w + 1 ≤ 255).
Proof.
  intros H200 Hm Hs Hw Wm Ws Ww Hv Hw0 Hf.
  destruct (valid_inv ip Hv) as (p & q & r & d & -> & Hd & Hp & Hq & Hr).
  pose proof (octet_ok_free _ Hp) as Fp.
  pose proof (octet_ok_free _ Hq) as Fq.
  pose proof (octet_ok_free _ Hr) as Fr.
  set (k := match sn with Some _ => 1 | None => 0 end).
  assert (match sn with
          | Some _ => next_start (Some (dotted p q r d))
          | None => Ok (Some (dotted p q r d))
          end = Ok (Some (dotted p q r (d + k)))) as Hipm.
  { subst k. destruct sn; cbn [next_start].
    - by rewrite get_next_ip_dotted by (done || lia).
    - by rewrite Z.add_0_r. }
  destruct (node_payload_dotted (<["site":=VStr site]> mo)
              ("Node" +:+ str count) p q r (d + k) (leaseEnd a)
              (workflowId a) count "NODENAME" site ss sn subnet fip
              (wf_shape_site _ _ Wm) Fp Fq Fr Hf) as (mo2 & nm & Hpm & Him & _).
  assert (next_start (Some (dotted p q r (d + k)))
          = Ok (Some (dotted p q r (d + k + 1)))) as Hips.
  { cbn [next_start]. rewrite get_next_ip_dotted; [done..|].
    subst k; destruct sn; lia. }
  destruct (node_payload_dotted (<["site":=VStr site]> so)
              ("Node" +:+ str (count + 1)) p q r (d + k + 1) (leaseEnd a)
              (workflowId a) (count + 1) "NODENAME" site ss sn subnet fip
              (wf_shape_site _ _ Ws) Fp Fq Fr Hf) as (so2 & ns & Hps & His & _).
  destruct (worker_payloads_dotted p q r site sn subnet fip ss (Z.to_nat w)
              Fp Fq Fr Hf (<["site":=VStr site]> wo) (count + 1 + 1)
              (d + k + 1) "NODENAME" (wf_shape_site _ _ Ww))
    as (ps & Hwp & Hwa); [subst k; destruct sn; lia|].
  eexists p, q, r, d, _, _. split; [done|].
  split; [apply last_octet_dotted; (done || lia)|].
  rewrite (provision_condor_cluster_ok W a dir site count _ w sn subnet fip ss
             st mo so wo _ mo2 nm _ so2 ns ps H200 Hm Hs Hw Hipm Hpm Hips Hps
             Hwp).
  split; [do 3 f_equal; lia|]. cbn [trace]. split; [done|].
  assert (sent_addresses
            (call_events W (trace st)
               (Mobius.create_compute (mobiushost a) (workflowId a) mo2
                :: Mobius.create_compute (mobiushost a) (workflowId a) so2
                :: map (λ x, Mobius.create_compute (mobiushost a)
                               (workflowId a) x.1.1) ps))
          = address_run p q r (d + k) (Z.to_nat w + 2)) as ->.
  { transitivity
      (sent_addresses
         (call_events W (trace st)
            (map (Mobius.create_compute (mobiushost a) (workflowId a))
               (mo2 :: so2 ::
                map (λ x : obj * string * option string, x.1.1) ps)))).
    { cbn [map]. by rewrite map_map. }
    rewrite sent_addresses_call_events.
    cbn [omap list_omap]. rewrite Him, His.
    rewrite (omap_of_map payload_address _ ps _ Hwa).
    replace (Z.to_nat w + 2)%nat with (S (S (Z.to_nat w))) by lia.
    rewrite !address_run_cons. do 3 f_equal. }
  split; [done|].
  replace (Z.to_nat w + 2)%nat with (S (Z.to_nat w + 1)) by lia.
  rewrite address_run_valid by (done || subst k; destruct sn; lia). lia.
Qed.

End ClusterAddresses.

(** ** The checks of a [create] *)

Section ArgumentChecks.
Context (W : world) (a : args).

Lemma check_start_ip_accepts ip w st :
  start_ip_ok ip w = true → check_start_ip ip w st = (Ok tt, st).
Proof.
  destruct ip as [ip|]; [|done]. cbn [start_ip_ok].
  intros [Hv Hw]%andb_true_iff. destruct w as [w|]; [|done].
  destruct (can_ip_satisfy_range ip (w + 1)) as [[]|] eqn:E; try done.
  by apply check_start_ip_fits.
Qed.

Lemma check_start_ip_rejects ip w :
  start_ip_ok ip w = false → emits (check_start_ip ip w) stops.
Proof.
  destruct ip as [ip|]; [|done]. cbn [start_ip_ok]. unfold check_start_ip.
  destruct (is_valid_ipv4_address ip) eqn:Hv; cbn [andb].
  2: { intros _. apply stops_bind, stops_usage_error. }
  destruct w as [w|].
  2: { intros _. apply emits_ret_bind, stops_bind, emits_raise. by right. }
  destruct (can_ip_satisfy_range_total ip (w + 1) Hv) as [fits E]. rewrite E.
  intros ->. apply emits_ret_bind, emits_ret_bind. cbv beta. rewrite E.
  apply emits_lift_bind, stops_usage_error.
Qed.

Lemma check_site_accepts site marker st :
  site_ok site marker = true → check_site site marker st = (Ok tt, st).
Proof. destruct site; [apply check_site_ok|done]. Qed.

Lemma passes_check_site site marker :
  emits (check_site site marker) passes_or_stops.
Proof.
  unfold check_site. destruct site; [apply passes_guard|apply passes_ret].
Qed.

Lemma validate_accepts st :
  arguments_ok a = true →
  validate a st = (Ok tt, {| heap := heap st; ipMap := ∅; trace := trace st |}).
Proof.
  unfold arguments_ok.
  intros [[[[[H1 H2]%andb_true_iff H3]%andb_true_iff H4]%andb_true_iff
            H5]%andb_true_iff H6]%andb_true_iff.
  apply negb_true_iff in H1. unfold validate. rewrite H1.
  unfold ipMap_new, ret, mret, M_ret.
  rewrite ?bind_run. cbv beta iota.
  rewrite ?bind_run, (check_start_ip_accepts _ _ _ H2). cbv beta iota.
  rewrite ?bind_run, (check_start_ip_accepts _ _ _ H3). cbv beta iota.
  rewrite ?bind_run.
  assert (∀ st0, match comethost a with
                 | Some _ =>
                     if is_none (cert a) || is_none (key a)
                     then usage_error "ERROR: comet certificate and key must be specified when comethost is indicated"
                     else λ st : state, (Ok (), st)
                 | None => λ st : state, (Ok (), st)
                 end st0 = (Ok tt, st0)) as ->.
  { intros st0. destruct (comethost a); [|done].
    apply negb_true_iff in H4. by rewrite H4. }
  cbv beta iota.
  rewrite ?bind_run, (check_site_accepts _ _ _ H5). cbv beta iota.
  by rewrite (check_site_accepts _ _ _ H6).
Qed.

Lemma validate_rejects :
  arguments_ok a = false → emits (validate a) stops.
Proof.
  unfold arguments_ok, validate. intros H.
  apply passes_bind_stops; [apply passes_ret|]. intros _.
  destruct ((is_none (exogenisite a) && is_none (chameleonsite a))
            || (is_none (exoworkers a) && is_none (chworkers a))
            || (is_none (exodatadir a) && is_none (chdatadir a))) eqn:H1.
  { apply stops_bind, stops_usage_error. }
  apply emits_ret_bind. cbn [negb andb] in H.
  destruct (start_ip_ok (exoipStart a) (exoworkers a)) eqn:H2.
  2: { by apply stops_bind, check_start_ip_rejects. }
  apply passes_bind_stops; [apply passes_check_start_ip|]. intros _.
  destruct (start_ip_ok (chipStart a) (chworkers a)) eqn:H3.
  2: { by apply stops_bind, check_start_ip_rejects. }
  apply passes_bind_stops; [apply passes_check_start_ip|]. intros _.
  cbn [andb] in H.
  destruct (match comethost a with
            | Some _ => negb (is_none (cert a) || is_none (key a))
            | None => true
            end) eqn:H4.
  2: { apply stops_bind. destruct (comethost a); [|done].
       apply negb_false_iff in H4. rewrite H4. apply stops_usage_error. }
  apply passes_bind_stops.
  { destruct (comethost a); [|apply passes_ret].
    destruct (is_none (cert a) || is_none (key a));
      [apply stops_passes, stops_usage_error|apply passes_ret]. }
  intros _. cbn [andb] in H.
  destruct (site_ok (chameleonsite a) "Chameleon") eqn:H5.
  2: { apply stops_bind. unfold check_site.
       destruct (chameleonsite a); [|done]. simpl in H5. rewrite H5.
       apply stops_usage_error. }
  apply passes_bind_stops; [apply passes_check_site|]. intros _.
  cbn [andb] in H. unfold check_site.
  destruct (exogenisite a); [|done]. simpl in H. rewrite H.
  apply stops_usage_error.
Qed.

(** X4. A [create] whose arguments fail one of the checks of lines 216-252 ends
    with exit status 1 and without a remote call. *)
Theorem rejected_create_makes_no_call (fuel : nat) (st : state) :
  operation a = "create" → arguments_ok a = false →
  ∃ evs,
    trace (main W a fuel st).2 = trace st ++ evs ∧
    exit_status (main W a fuel st).1 = 1 ∧
    Forall (λ e, is_remote e = false) evs.
Proof.
  intros Hop Hc.
  assert (emits (main W a fuel) stops) as Hm.
  { unfold main. rewrite Hop. simpl. by apply stops_bind, validate_rejects. }
  destruct (Hm st) as (evs & Ht & Hs). exists evs. split; [done|].
  destruct Hs as [(msg & Hr & ->)|[Hr ->]]; rewrite Hr; simpl;
    split_and!; try done; by repeat constructor.
Qed.

(** X5. A [create] whose arguments pass every check calls
    [create_workflow]; when Mobius answers it with a status other than 200,
    that call is the only one of the run and the exit status is 0. *)
Theorem refused_workflow_exits_zero (fuel : nat) (st : state) :
  operation a = "create" → arguments_ok a = true →
  status (mobius_reply W (trace st)
            (Mobius.create_workflow (mobiushost a) (workflowId a))) ≠ 200 →
  main W a fuel st =
    (Raise (SystemExit 0),
     {| heap := heap st; ipMap := ∅;
        trace := trace st ++
          [mobius_event W (trace st)
             (Mobius.create_workflow (mobiushost a) (workflowId a))] |}).
Proof.
  intros Hop Hok Hr. unfold main. rewrite Hop.
  rewrite decide_False, decide_False, decide_True by done.
  rewrite bind_run, (validate_accepts st Hok). cbv beta iota.
  unfold create, mobius. rewrite bind_run. cbv beta iota. cbn [trace].
  by rewrite decide_False.
Qed.

End ArgumentChecks.

Section MissingInputs.
Context (W : world) (a : args).

#[local] Arguments PyStr.replace : simpl never.
#[local] Arguments PyStr.str : simpl never.

#[local] Abbreviation create_call :=
  (Mobius.create_workflow (mobiushost a) (workflowId a)).
#[local] Abbreviation status_call :=
  (Mobius.get_workflow (mobiushost a) (workflowId a)).

Lemma main_create fuel st :
  operation a = "create" → arguments_ok a = true →
  status (mobius_reply W (trace st) create_call) = 200 →
  main W a fuel st =
  (let st1 := {| heap := heap st; ipMap := ∅;
                 trace := trace st ++ [mobius_event W (trace st) create_call] |} in
   ('(stitchdata, sip, submitSubnet) ← read_hints W a;
    r ← chameleon_storage W a 0 submitSubnet;
    match r with
    | Return => ret tt
    | Continue (count, chstoragename) =>
    r ← exogeni_storage W a count submitSubnet sip;
    match r with
    | Return => ret tt
    | Continue (count, exostoragename) =>
    r ← chameleon_cluster W a count stitchdata chstoragename submitSubnet;
    match r with
    | Return => ret tt
    | Continue count =>
    r ← exogeni_cluster W a count exostoragename submitSubnet;
    match r with
    | Return => ret tt
    | Continue count =>
    response ← mobius W status_call;
    '(stitcVlanToChameleon, stitchNodeStatus) ← publish a stitchdata response;
    stitch W a fuel stitchdata stitcVlanToChameleon stitchNodeStatus;;
    raise (SystemExit 0)
    end end end end) st1).
Proof.
  intros Hop Hok Hr. unfold main. rewrite Hop.
  rewrite decide_False, decide_False, decide_True by done.
  rewrite bind_run, (validate_accepts a st Hok). cbv beta iota.
  unfold create. rewrite bind_run. unfold mobius at 1. cbv beta iota.
  cbn [trace]. by rewrite decide_True.
Qed.

Lemma read_hints_none st :
  exogenisite a = None ∨ exodatadir a = None →
  read_hints W a st = (Ok (None, VNone, None), st).
Proof.
  unfold read_hints. intros [->| ->]; [done|]. by destruct (exogenisite a).
Qed.

Lemma exogeni_storage_none count ss sip st :
  exogenisite a = None ∨ exodatadir a = None →
  exogeni_storage W a count ss sip st = (Ok (Continue (count, None)), st).
Proof.
  unfold exogeni_storage. intros [->| ->]; [done|]. by destruct (exogenisite a).
Qed.

Lemma exogeni_cluster_none count sn ss st :
  exogenisite a = None ∨ exodatadir a = None →
  exogeni_cluster W a count sn ss st = (Ok (Continue count), st).
Proof.
  unfold exogeni_cluster. intros [->| ->]; [done|]. by destruct (exogenisite a).
Qed.

Lemma chameleon_storage_none count ss st :
  chameleonsite a = None ∨ chdatadir a = None →
  chameleon_storage W a count ss st = (Ok (Continue (count, None)), st).
Proof.
  unfold chameleon_storage. intros [->| ->]; [done|].
  by destruct (chameleonsite a).
Qed.

Lemma chameleon_cluster_none count sd sn ss st :
  chameleonsite a = None ∨ chdatadir a = None →
  chameleon_cluster W a count sd sn ss st = (Ok (Continue count), st).
Proof.
  unfold chameleon_cluster. intros [->| ->]; [done|].
  by destruct (chameleonsite a).
Qed.

(** X6. A [create] in which neither site has both its name and its data
    directory (the checks pair them across sites) creates the workflow,
    requests no node, queries the status once and exits with 0. *)
Theorem nothing_to_provision (fuel : nat) (st : state) :
  operation a = "create" → arguments_ok a = true →
  exogenisite a = None ∨ exodatadir a = None →
  chameleonsite a = None ∨ chdatadir a = None →
  comethost a = None →
  status (mobius_reply W (trace st) create_call) = 200 →
  main W a fuel st =
    (Raise (SystemExit 0),
     {| heap := heap st; ipMap := ∅;
        trace := trace st ++ call_events W (trace st) [create_call; status_call] |}).
Proof.
  intros Hop Hok Hexo Hch Hcomet Hr.
  rewrite (main_create fuel st Hop Hok Hr). cbv zeta.
  rewrite bind_run, (read_hints_none _ Hexo). cbv beta iota.
  rewrite bind_run, (chameleon_storage_none _ _ _ Hch). cbv beta iota.
  rewrite bind_run, (exogeni_storage_none _ _ _ _ Hexo). cbv beta iota.
  rewrite bind_run, (chameleon_cluster_none _ _ _ _ _ Hch). cbv beta iota.
  rewrite bind_run, (exogeni_cluster_none _ _ _ _ Hexo). cbv beta iota.
  unfold mobius, publish, stitch. rewrite Hcomet.
  unfold ret, raise, mret, M_ret.
  repeat (rewrite bind_run; cbv beta iota; cbn [heap ipMap trace]).
  cbn [call_events]. by rewrite <- app_assoc.
Qed.

Lemma subnet_of_accepts ip w :
  start_ip_ok ip w = true → ∃ x, ∀ st, subnet_of ip st = (Ok x, st).
Proof.
  destruct ip as [ip|]; [|by eexists]. cbn [start_ip_ok].
  intros [Hv _]%andb_true_iff.
  destruct (valid_inv ip Hv) as (p & q & r & d & -> & _ & Hp & Hq & Hr).
  eexists. intros st. unfold subnet_of, lift.
  rewrite bind_run, get_cidr_dotted by auto using octet_ok_free. done.
Qed.

(** X7. A chameleon site whose data directory has no [storage.json]: the
    workflow is created, then [None + ".novalocal"] ends the run with a
    [TypeError]; no node is requested and the workflow is not deleted. *)
Theorem chameleon_needs_storage_file (fuel : nat) (st : state)
    (site dir : string) :
  operation a = "create" → arguments_ok a = true →
  exogenisite a = None ∨ exodatadir a = None →
  chameleonsite a = Some site → chdatadir a = Some dir →
  files W !! (dir +:+ "/storage.json") = None →
  status (mobius_reply W (trace st) create_call) = 200 →
  main W a fuel st =
    (Raise TypeError,
     {| heap := heap st; ipMap := ∅;
        trace := trace st ++ [mobius_event W (trace st) create_call] |}).
Proof.
  intros Hop Hok Hexo Hsite Hdir Hfile Hr.
  rewrite (main_create fuel st Hop Hok Hr). cbv zeta.
  rewrite bind_run, (read_hints_none _ Hexo). cbv beta iota.
  assert (start_ip_ok (exoipStart a) (exoworkers a) = true) as Hip.
  { unfold arguments_ok in Hok. by repeat (apply andb_true_iff in Hok as [Hok ?]). }
  destruct (subnet_of_accepts _ _ Hip) as [es Hes].
  rewrite bind_run. unfold chameleon_storage. rewrite Hsite, Hdir.
  rewrite bind_run, Hes. cbv beta iota.
  unfold provision_storage, load_if_exists. rewrite Hfile.
  unfold ret, raise, mret, M_ret.
  by repeat (rewrite bind_run; cbv beta iota; cbn [negb]).
Qed.

(** X8. A storage shape that has a boot script needs a start IP: without one the
    storage step dies on [get_cidr_escape(None)] before any remote call. *)
Theorem storage_script_needs_start_ip (dir site : string) (count : Z)
    (ss : option string) (sip : val) (es : option string) (st : state)
    (o : obj) (v : val) :
  files W !! (dir +:+ "/storage.json") = Some o →
  o !! "postBootScript" = Some v → v ≠ VNone →
  provision_storage W a dir site count None ss sip es st =
    (Raise AttributeError,
     {| heap := heap st ++ [<["site":=VStr site]> o]; ipMap := ipMap st;
        trace := trace st |}).
Proof.
  intros Hfile Hv Hne. unfold provision_storage, load_if_exists.
  rewrite Hfile. unfold json_load, obj_set, obj_get, lift, ret, mret, M_ret.
  repeat (rewrite bind_run; cbv beta iota; cbn [heap ipMap trace]).
  rewrite alter_snoc, heap_snoc_lookup. cbn [default from_option id].
  rewrite lookup_insert_ne, Hv by done.
  destruct v; [done|..]; by repeat (rewrite bind_run; cbv beta iota).
Qed.

(** X9. The exogeni [stitch.json] and [storage.json] are read for their
    [stitchIP] right after the workflow is created: a file that lacks the key
    ends the run with a [KeyError], before any node is requested. *)
Theorem stitch_ip_key_required (fuel : nat) (st : state) (site dir : string) :
  operation a = "create" → arguments_ok a = true →
  exogenisite a = Some site → exodatadir a = Some dir →
  (∃ sd, files W !! (dir +:+ "/stitch.json") = Some sd ∧
         sd !! "stitchIP" = None) ∨
  ((∀ sd, files W !! (dir +:+ "/stitch.json") = Some sd →
          is_Some (sd !! "stitchIP")) ∧
   ∃ o, files W !! (dir +:+ "/storage.json") = Some o ∧
        o !! "stitchIP" = None) →
  status (mobius_reply W (trace st) create_call) = 200 →
  ∃ st',
    main W a fuel st = (Raise KeyError, st') ∧
    trace st' = trace st ++ [mobius_event W (trace st) create_call].
Proof.
  intros Hop Hok Hsite Hdir Hfiles Hr.
  rewrite (main_create fuel st Hop Hok Hr). cbv zeta.
  rewrite bind_run. unfold read_hints, load_if_exists. rewrite Hsite, Hdir.
  unfold json_load, obj_get, lift, ret, mret, M_ret.
  destruct Hfiles as [(sd & -> & Hsd)|[Hst (o & Ho & Hmiss)]].
  - repeat (rewrite bind_run; cbv beta iota; cbn [heap ipMap trace]).
    rewrite heap_snoc_lookup. cbn [default from_option id]. rewrite Hsd.
    eexists. split; reflexivity.
  - rewrite Ho.
    destruct (files W !! (dir +:+ "/stitch.json")) as [sd|] eqn:Hsd.
    + destruct (Hst sd eq_refl) as [x Hx].
      repeat (rewrite bind_run; cbv beta iota; cbn [heap ipMap trace]).
      rewrite heap_snoc_lookup. cbn [default from_option id]. rewrite Hx.
      repeat (rewrite bind_run; cbv beta iota; cbn [heap ipMap trace]).
      rewrite heap_snoc_lookup. cbn [default from_option id]. rewrite Hmiss.
      eexists. split; reflexivity.
    + repeat (rewrite bind_run; cbv beta iota; cbn [heap ipMap trace]).
      rewrite heap_snoc_lookup. cbn [default from_option id]. rewrite Hmiss.
      eexists. split; reflexivity.
Qed.

End MissingInputs.

(** ** Events a run never has *)

Section Avoids.
Context (W : world) (p : event → bool).

Lemma avoids_silent {A} (m : M A) : silent m → avoids p m.
Proof. intros. apply emits_silent; [done|]. intros. constructor. Qed.

Lemma avoids_bind {A B} (m : M A) (f : A → M B) :
  avoids p m → (∀ x, avoids p (f x)) → avoids p (m ≫= f).
Proof.
  intros Hm Hf. eapply emits_bind; [apply Hm| |done].
  intros x evs1 H1. eapply emits_weaken; [apply Hf|].
  intros r evs2 H2. by apply Forall_app.
Qed.

Lemma avoids_mobius c :
  (∀ r, p (EMobius c r) = false) → avoids p (mobius W c).
Proof. intros Hc. apply emits_mobius. intros r. by repeat constructor. Qed.

Lemma avoids_emit e : p e = false → avoids p (emit e).
Proof. intros He. apply emits_emit. by repeat constructor. Qed.

Lemma avoids_for_each {A S} (l : list A) (body : A → S → M S) :
  (∀ x s, avoids p (body x s)) → ∀ s, avoids p (for_each l body s).
Proof.
  intros Hb. induction l as [|x l IH]; intros s; simpl.
  - by apply avoids_silent.
  - apply avoids_bind; [apply Hb|]. intros s'. apply IH.
Qed.

End Avoids.

Ltac avoids_tac :=
  repeat first
    [ progress intros
    | match goal with H : _ |- _ => solve [apply H] end
    | apply avoids_bind
    | solve [apply avoids_silent; silent_tac]
    | solve [apply avoids_mobius; reflexivity]
    | solve [apply avoids_emit; reflexivity]
    | match goal with
      | |- avoids _ (match ?x with _ => _ end) => destruct x
      | |- avoids _ (if ?x then _ else _) => destruct x
      | |- avoids _ (let '(_, _) := ?x in _) => destruct x
      end ].

Section NoComet.
Context (W : world) (a : args).

Lemma no_comet_create_compute host nn ip le wid l c old site ss sn subnet fip :
  avoids is_comet
    (create_compute W host nn ip le wid l c old site ss sn subnet fip).
Proof. unfold create_compute. avoids_tac. Qed.

Lemma no_comet_provision_storage dir site count ip ss sip es :
  avoids is_comet (provision_storage W a dir site count ip ss sip es).
Proof.
  unfold provision_storage. pose proof no_comet_create_compute.
  pose proof (silent_load_if_exists W). avoids_tac.
Qed.

Lemma no_comet_worker_loop n : ∀ site l count ip old sn subnet fip ss,
  avoids is_comet (worker_loop W a n site l count ip old sn subnet fip ss).
Proof.
  induction n as [|n IH]; intros; cbn [worker_loop]; [avoids_tac|].
  pose proof no_comet_create_compute. unfold advance. avoids_tac.
Qed.

Lemma no_comet_provision_condor_cluster dir site count ip w sn subnet fip ss :
  avoids is_comet
    (provision_condor_cluster W a dir site count ip w sn subnet fip ss).
Proof.
  unfold provision_condor_cluster. pose proof no_comet_create_compute.
  pose proof no_comet_worker_loop. pose proof (silent_load_if_exists W).
  unfold advance. avoids_tac.
Qed.

Lemma no_comet_wait_active fuel : ∀ sd s,
  avoids is_comet (wait_active W a fuel sd s).
Proof.
  induction fuel as [|fuel IH]; intros; cbn [wait_active];
    (destruct (decide _); [avoids_tac|]); [avoids_tac|].
  unfold sleep. avoids_tac.
Qed.

(** X10. Without a COMET host no run of the script, whatever the operation,
    makes a COMET call. *)
Theorem no_comet_call_without_host (fuel : nat) (st : state) :
  comethost a = None →
  ∃ evs,
    trace (main W a fuel st).2 = trace st ++ evs ∧
    Forall (λ e, is_comet e = false) evs.
Proof.
  intros Hc.
  assert (avoids is_comet (main W a fuel)) as Hm; [|apply Hm].
  unfold main, create, publish, stitch, perform_stitch, validate,
    check_start_ip, check_site, usage_error, sleep, read_hints,
    chameleon_storage, exogeni_storage, chameleon_cluster, exogeni_cluster,
    subnet_of, on_str.
  rewrite Hc.
  pose proof no_comet_provision_storage.
  pose proof no_comet_provision_condor_cluster.
  pose proof no_comet_wait_active.
  pose proof (silent_load_if_exists W).
  avoids_tac.
Qed.

End NoComet.

(** ** How a run ends *)

Section ExitAfterFailure.
Context (W : world) (a : args).

Lemma ends_calm (m : M unit) :
  emits m (λ _ evs, calm evs) → emits m (ends_quietly a).
Proof.
  intros Hm. eapply emits_weaken; [apply Hm|].
  intros r evs H. exists false. split; [by apply shaped_quiet|done].
Qed.

Lemma ends_flow_bind {A} (m : M (flow A)) (k : flow A → M unit) :
  emits m (pass_post a flow_ok) →
  k Return = ret tt →
  (∀ x, emits (k (Continue x)) (ends_quietly a)) →
  emits (m ≫= k) (ends_quietly a).
Proof.
  intros Hm Hr Hc. eapply emits_bind; [apply Hm| |].
  - intros [x|] evs1 H1; simpl in H1.
    + eapply emits_weaken; [apply Hc|]. intros r evs2 (b & H2 & Hb).
      exists b. split; [by apply shaped_app|done].
    + rewrite Hr. apply emits_ret. rewrite app_nil_r. by exists true.
  - intros e evs1 H1. simpl in H1. by exists false.
Qed.

Lemma ends_create fuel : emits (create W a fuel) (ends_quietly a).
Proof.
  unfold create.
  eapply emits_bind; [apply emits_mobius_call| |by intros ?? (? & [=] & _)].
  intros resp evs1 (? & [= <-] & ->).
  eapply emits_weaken with (P := ends_quietly a).
  2: { intros r evs (b & H & Hb). exists b. split; [by apply shaped_cons|done]. }
  destruct (decide _); [|apply ends_calm; calm_tac].
  apply emits_silent_bind; [unfold read_hints, on_str; silent_tac| |].
  2: { intros. exists false. split; [constructor|done]. }
  intros [[stitchdata sip] ss].
  apply ends_flow_bind; [apply emits_chameleon_storage|done|].
  intros [count1 chname].
  apply ends_flow_bind; [apply emits_exogeni_storage|done|].
  intros [count2 exoname].
  apply ends_flow_bind; [apply emits_chameleon_cluster|done|].
  intros count3.
  apply ends_flow_bind; [apply emits_exogeni_cluster|done|].
  intros count4.
  apply ends_calm.
  pose proof (calm_publish a). pose proof (calm_stitch W a). calm_tac.
Qed.

Lemma ends_main fuel : emits (main W a fuel) (ends_quietly a).
Proof.
  unfold main.
  destruct (decide _); [apply ends_calm; unfold comet; calm_tac|].
  destruct (decide _); [apply ends_calm; unfold comet; calm_tac|].
  destruct (decide _); [|apply ends_calm; calm_tac].
  eapply emits_bind; [apply calm_validate| |].
  - intros x evs1 H1. eapply emits_weaken; [apply ends_create|].
    intros r evs2 (b & H2 & Hb). exists b.
    split; [|done]. apply shaped_app; [by apply shaped_quiet|done].
  - intros ex evs1 H1. exists false. split; [by apply shaped_quiet|done].
Qed.

(** X11. A run in which a node creation failed returns from [main] normally:
    its exit status is 0, as for a run that provisioned everything. *)
Theorem failed_creation_exits_zero (fuel : nat) (st : state) :
  ∃ evs,
    trace (main W a fuel st).2 = trace st ++ evs ∧
    ((∃ e, e ∈ evs ∧ failed_create e = true) →
     (main W a fuel st).1 = Ok tt ∧ exit_status (main W a fuel st).1 = 0).
Proof.
  destruct (ends_main fuel st) as (evs & Ht & b & Hs & Hb).
  exists evs. split; [done|]. intros Hf.
  apply (shaped_failed a b evs Hs) in Hf. rewrite (Hb Hf). done.
Qed.

End ExitAfterFailure.

Section StitchEdges.
Context (W : world) (a : args).

#[local] Abbreviation status_call :=
  (Mobius.get_workflow (mobiushost a) (workflowId a)).

Lemma for_each_keeps {A S} (P : S → Prop) (l : list A) (body : A → S → M S) :
  (∀ x s st, P s → ∃ s' st', body x s st = (Ok s', st') ∧ P s') →
  ∀ s st, P s → ∃ s' st', for_each l body s st = (Ok s', st') ∧ P s'.
Proof.
  intros Hb. induction l as [|x l IH]; intros s st Hs; cbn [for_each].
  - by exists s, st.
  - rewrite bind_run. destruct (Hb x s st Hs) as (s1 & st1 & -> & H1).
    by apply IH.
Qed.

Lemma publish_node_no_stitch_data host slice_name n st :
  ∃ st', publish_node a host None slice_name n None st = (Ok None, st').
Proof.
  unfold publish_node, comet, emit, ipMap_mem, ipMap_get, ret, mret, M_ret.
  destruct (PyStr.occurs "Chameleon" slice_name);
    repeat (rewrite bind_run; cbv beta iota; cbn [heap ipMap trace]);
    (destruct (ipMap st !! node_name n) as [ip|] eqn:Hip;
     [rewrite bool_decide_true by eauto|
      rewrite bool_decide_false by (by intros [? [=]])]);
    repeat (rewrite bind_run; cbv beta iota; cbn [heap ipMap trace]);
    rewrite ?Hip; cbv beta iota;
    rewrite ?bind_run; cbv beta iota; eauto.
Qed.

(** X12. Without [stitch.json] the published status never yields a stitch-node
    state, and the wait loop then dies on [stitchdata["target"]] before its
    first poll: the fallback load of [perform_stitch] is never reached from
    [main]. *)
Theorem stitching_needs_stitch_file :
  (∀ r st v s st', publish a None r st = (Ok (v, s), st') → s = None) ∧
  (∀ fuel vlan site st,
     exogenisite a = Some site →
     stitch W a (S fuel) None (Some vlan) None st = (Raise TypeError, st)).
Proof.
  split.
  - intros r st vr sr str Hret.
    assert (∃ v st', publish a None r st = (Ok (v, None), st'))
      as (v1 & st1 & Hrun); [|rewrite Hrun in Hret; by simplify_eq].
    clear Hret. unfold publish.
    destruct (comethost a) as [host|]; [|by eexists _, _].
    destruct (decide _); [|by eexists _, _].
    destruct (for_each_keeps (λ vs : option string * option string, vs.2 = None)
                (value r) (publish_request a host None)) with (s := (@None string, @None string)) (st := st)
      as ([v s] & st' & Hrun & Hs); [|done|].
    + intros req [v s] st0 Hs. simpl in Hs. subst s.
      unfold publish_request. rewrite bind_run.
      destruct (for_each_keeps (λ s : option string, s = None)
                  (req_slices req)
                  (λ sl s0, for_each (slice_nodes sl)
                              (publish_node a host None (slice_slice sl)) s0))
        with (s := @None string) (st := st0) as (s' & st' & -> & ->); [|done|].
      * intros sl s0 st1 ->.
        apply (for_each_keeps (λ s : option string, s = None)); [|done].
        intros nd s1 st2 ->.
        destruct (publish_node_no_stitch_data host (slice_slice sl) nd st2)
          as [st3 ->]. eauto.
      * cbv beta iota. unfold ret, mret, M_ret. eexists (_, None), _. eauto.
    + simpl in Hs. subst s. eauto.
  - intros fuel vlan site st Hsite. unfold stitch. rewrite Hsite.
    cbn [wait_active]. rewrite decide_False by done. done.
Qed.

(** X13. The wait loop has no bound and no exit on errors: while the status
    query is answered with a status other than 200, every round polls,
    sleeps 5 seconds and goes on. *)
Theorem polling_has_no_limit (fuel : nat) (l : loc) (sd : obj) (t : string)
    (s : option string) (st : state) :
  heap st !! l = Some sd → sd !! "target" = Some (VStr t) →
  s ≠ Some "Active" →
  (∀ tr, status (mobius_reply W tr status_call) ≠ 200) →
  wait_active W a fuel (Some l) s st =
    (Raise OutOfFuel,
     {| heap := heap st; ipMap := ipMap st;
        trace := trace st ++ poll_events W a t fuel (trace st) s |}) ∧
  length (poll_events W a t fuel (trace st) s) = (2 * fuel)%nat.
Proof.
  intros Hl Ht Hs Hdown. revert st Hl.
  induction fuel as [|fuel IH]; intros st Hl.
  - cbn [wait_active poll_events]. rewrite decide_False by done.
    rewrite app_nil_r. by destruct st.
  - cbn [wait_active poll_events]. rewrite decide_False by done.
    unfold obj_get, lift, mobius, sleep, emit.
    rewrite bind_run, Hl. cbn [default from_option id]. rewrite Ht.
    cbv beta iota. cbn [str_add]. rewrite !bind_run. cbv beta iota.
    cbn [heap ipMap trace].
    assert (observe (VStr t) (mobius_reply W (trace st) status_call) s = s)
      as Hobs by (unfold observe; by rewrite decide_False).
    rewrite Hobs.
    destruct (IH {| heap := heap st; ipMap := ipMap st;
                    trace := (trace st ++
                      [EMobius status_call
                         (mobius_reply W (trace st) status_call)]) ++
                      [ESleep 5] |} Hl) as [-> Hlen].
    cbn [heap ipMap trace] in *. rewrite <- !app_assoc in *. cbn [app] in *.
    split; [done|]. cbn [length]. rewrite Hlen. lia.
Qed.

End StitchEdges.

(** ** What a node creation touches *)

Section Frames.
Import PyStr PyStrFacts.
Context (W : world) (a : args).
#[local] Arguments String.append !s1 s2 : simpl nomatch.
#[local] Arguments PyStr.replace : simpl never.
#[local] Arguments PyStr.str : simpl never.

Lemma node_payload_frame o nn ip le wid c old site ss sn subnet fip o' name :
  node_payload o nn ip le wid c old site ss sn subnet fip = Ok (o', name) →
  ∀ k, k ≠ "ipAddress" → k ≠ "leaseEnd" → k ≠ "postBootScript" →
       o' !! k = o !! k.
Proof.
  unfold node_payload. intros H k K1 K2 K3.
  destruct (o !! "hostNamePrefix") as [pv|]; [|done].
  cbn [mbind res_bind] in H.
  destruct (resolve_name pv site wid nn c) as [nm|]; [|done].
  cbn [mbind res_bind] in H.
  set (od := match ip with
             | Some i => d ← get_default_ip_for_condor i;
                         Ok (<["ipAddress":=VStr i]> o, Some d)
             | None => Ok (o, None)
             end) in H.
  destruct od as [[o1 d1]|] eqn:Hod; [|done]. cbn [mbind res_bind] in H.
  assert (o1 !! k = o !! k) as H1.
  { subst od. destruct ip as [i|]; [|by simplify_eq].
    destruct (get_default_ip_for_condor i); [|done].
    cbn [mbind res_bind] in Hod. simplify_eq. by rewrite lookup_insert_ne. }
  set (o2 := match le with
             | Some l => <["leaseEnd":=VStr l]> o1
             | None => o1
             end) in H.
  assert (o2 !! k = o !! k) as H2.
  { subst o2. destruct le; [by rewrite lookup_insert_ne|done]. }
  destruct (o2 !! "postBootScript") as [[|s0|z]|]; cbn [mbind res_bind] in H;
    [by simplify_eq| | |done].
  - destruct (render _ _ _ _ _ _ _ _ _ _) as [s'|]; [|done].
    cbn [mbind res_bind] in H. simplify_eq. by rewrite lookup_insert_ne.
  - destruct (render _ _ _ _ _ _ _ _ _ _) as [s'|]; [|done].
    cbn [mbind res_bind] in H. simplify_eq. by rewrite lookup_insert_ne.
Qed.

(** X18. A node creation that returns has changed, in the shape it was given,
    at most the keys [ipAddress], [leaseEnd] and [postBootScript], has left
    every other dict and every other [ipMap] entry alone, and has made
    exactly one remote call, whose payload is the shape as it now is. *)
Theorem create_compute_frame (host nn : string) (ip le : option string)
    (wid : string) (l : loc) (c : Z) (old site : string)
    (ss sn subnet : option string) (fip : val) (st st' : state) (o : obj)
    (r : response) (name : string) :
  heap st !! l = Some o →
  create_compute W host nn ip le wid l c old site ss sn subnet fip st
    = (Ok (r, name), st') →
  ∃ o',
    heap st' = <[l:=o']> (heap st) ∧
    (∀ k, k ≠ "ipAddress" → k ≠ "leaseEnd" → k ≠ "postBootScript" →
          o' !! k = o !! k) ∧
    (∀ k, k ≠ name → ipMap st' !! k = ipMap st !! k) ∧
    (∀ i, ip = Some i →
          ipMap st' !! name = Some i ∧ o' !! "ipAddress" = Some (VStr i)) ∧
    trace st' = trace st ++ [EMobius (Mobius.create_compute host wid o') r].
Proof.
  intros Hl Hrun.
  destruct (node_payload o nn ip le wid c old site ss sn subnet fip)
    as [[o' name']|e] eqn:Hp.
  2: { destruct (create_compute_raise W host _ _ _ _ _ _ _ _ _ _ _ _ _ _ _
                   Hl Hp) as (st'' & Hr & _). congruence. }
  rewrite (create_compute_ok W host _ _ _ _ _ _ _ _ _ _ _ _ _ _ _ _ Hl Hp)
    in Hrun.
  cbv zeta in Hrun. simplify_eq. exists o'. cbn [heap ipMap trace].
  split_and!; [done|by eapply node_payload_frame| | |done].
  - intros k Hk. destruct ip; [by rewrite lookup_insert_ne|done].
  - intros i ->. split; [apply lookup_insert_eq|].
    revert Hp. unfold node_payload.
    destruct (o !! "hostNamePrefix") as [pv|]; [|done].
    cbn [mbind res_bind].
    destruct (resolve_name pv site wid nn c) as [nm|]; [|done].
    cbn [mbind res_bind].
    destruct (get_default_ip_for_condor i) as [d|]; [|done].
    cbn [mbind res_bind].
    set (o2 := match le with
               | Some l0 => <["leaseEnd":=VStr l0]> (<["ipAddress":=VStr i]> o)
               | None => <["ipAddress":=VStr i]> o
               end).
    assert (o2 !! "ipAddress" = Some (VStr i)) as H2.
    { subst o2. destruct le; by simplify_map_eq. }
    destruct (o2 !! "postBootScript") as [[|s0|z]|]; cbn [mbind res_bind];
      [by intros [= <- <-]| | |done];
      (destruct (render _ _ _ _ _ _ _ _ _ _) as [s'|]; [|done]);
      cbn [mbind res_bind]; intros [= <- <-]; by rewrite lookup_insert_ne.
Qed.

(** The base of a node name: what [resolve_name] puts before the counter *)
Lemma resolve_name_base pv site wid :
  ∃ base, ∀ c name,
    resolve_name pv site wid ("Node" +:+ str c) c = Ok name →
    name = base +:+ str c.
Proof.
  destruct pv as [|p|z].
  - exists "Node". intros c name. by intros [= <-].
  - unfold resolve_name, str_add. destruct (occurs "Exogeni" site).
    + exists p. intros c name. cbn [mbind res_bind]. by intros [= <-].
    + exists (wid +:+ "-" +:+ p). intros c name. cbn [mbind res_bind].
      intros [= <-]. by rewrite !app_assoc.
  - exists "". intros c name. unfold resolve_name, str_add.
    by destruct (occurs "Exogeni" site).
Qed.

Lemma worker_names site sn subnet fip ss n : ∀ o pv base count ip old ps,
  o !! "hostNamePrefix" = Some pv →
  (∀ c name, resolve_name pv site (workflowId a) ("Node" +:+ str c) c
             = Ok name → name = base +:+ str c) →
  worker_payloads a n site o count ip old sn subnet fip ss = Ok ps →
  map (λ x, x.1.2) ps =
  map (λ i, base +:+ str (count + Z.of_nat i)) (seq 0 n).
Proof.
  induction n as [|n IH]; intros o pv base count ip old ps Hpv Hbase Hps.
  { cbn in Hps. by simplify_eq. }
  cbn [worker_payloads] in Hps.
  destruct (next_start ip) as [ip1|]; [|done]. cbn [mbind res_bind] in Hps.
  destruct (node_payload o _ ip1 _ _ _ old _ _ _ _ _) as [[o1 n1]|] eqn:Hp;
    [|done].
  cbn [mbind res_bind] in Hps.
  destruct (worker_payloads a n site o1 (count + 1) ip1 n1 sn subnet fip ss)
    as [rest|] eqn:Hrest; [|done].
  cbn [mbind res_bind] in Hps. simplify_eq.
  destruct (node_payload_name _ _ _ _ _ _ _ _ _ _ _ _ _ _ Hp)
    as (pv' & Hpv' & Hn1).
  rewrite Hpv in Hpv'. simplify_eq.
  assert (o1 !! "hostNamePrefix" = Some pv') as Hpv1.
  { rewrite (node_payload_frame _ _ _ _ _ _ _ _ _ _ _ _ _ _ Hp); done. }
  cbn [map seq fst snd]. f_equal.
  - rewrite Z.add_0_r. by apply Hbase.
  - rewrite (IH o1 pv' base (count + 1) ip1 n1 rest Hpv1 Hbase Hrest).
    rewrite <- seq_shift, map_map. apply map_ext. intros i.
    do 2 f_equal. lia.
Qed.

Lemma worker_payloads_length sn subnet fip ss site n : ∀ o count ip old ps,
  worker_payloads a n site o count ip old sn subnet fip ss = Ok ps →
  length ps = n.
Proof.
  induction n as [|n IH]; intros o count ip old ps Hps.
  { cbn in Hps. by simplify_eq. }
  cbn [worker_payloads] in Hps.
  destruct (next_start ip) as [ip1|]; [|done]. cbn [mbind res_bind] in Hps.
  destruct (node_payload o _ ip1 _ _ _ old _ _ _ _ _) as [[o1 n1]|];
    [|done].
  cbn [mbind res_bind] in Hps.
  destruct (worker_payloads a n site o1 (count + 1) ip1 n1 sn subnet fip ss)
    as [rest|] eqn:Hrest; [|done].
  cbn [mbind res_bind] in Hps. simplify_eq. cbn [length]. f_equal.
  by eapply IH.
Qed.

(** The names of the workers of one pass: one base text followed by the
    running counter. *)
Lemma worker_names_counted n site o count ip old sn subnet fip ss ps :
  worker_payloads a n site o count ip old sn subnet fip ss = Ok ps →
  ∃ base, map (λ x, x.1.2) ps =
          map (λ i, base +:+ str (count + Z.of_nat i)) (seq 0 n).
Proof.
  intros Hps.
  destruct n as [|n]; [cbn in Hps; simplify_eq; by exists ""|].
  assert (∃ pv, o !! "hostNamePrefix" = Some pv) as [pv Hpv].
  { cbn [worker_payloads] in Hps.
    destruct (next_start ip) as [ip1|]; [|done]. cbn [mbind res_bind] in Hps.
    destruct (node_payload o _ ip1 _ _ _ old _ _ _ _ _) as [[o1 n1]|] eqn:Hp;
      [|done].
    destruct (node_payload_name _ _ _ _ _ _ _ _ _ _ _ _ _ _ Hp)
      as (pv & Hpv & _). eauto. }
  destruct (resolve_name_base pv site (workflowId a)) as [base Hbase].
  exists base.
  apply (worker_names site sn subnet fip ss (S n) o pv base count ip old ps
           Hpv Hbase Hps).
Qed.

Lemma counted_names_distinct base count n :
  NoDup (map (λ i, base +:+ str (count + Z.of_nat i)) (seq 0 n)).
Proof.
  apply NoDup_fmap_2; [|apply NoDup_seq].
  intros i j Hij. apply (inj (String.app base)) in Hij.
  apply (inj pretty) in Hij. lia.
Qed.

(** A worker has an address exactly when the pass has a start IP. *)
Lemma worker_payloads_addressed sn subnet fip ss site n :
  ∀ o count ip old ps,
  worker_payloads a n site o count ip old sn subnet fip ss = Ok ps →
  ∀ p, p ∈ ps → is_Some p.2 ↔ is_Some ip.
Proof.
  induction n as [|n IH]; intros o count ip old ps Hps p Hin.
  { cbn in Hps. simplify_eq. by apply elem_of_nil in Hin. }
  cbn [worker_payloads] in Hps.
  destruct (next_start ip) as [ip1|] eqn:Hip; [|done].
  cbn [mbind res_bind] in Hps.
  destruct (node_payload o _ ip1 _ _ _ old _ _ _ _ _) as [[o1 n1]|];
    [|done].
  cbn [mbind res_bind] in Hps.
  destruct (worker_payloads a n site o1 (count + 1) ip1 n1 sn subnet fip ss)
    as [rest|] eqn:Hrest; [|done].
  cbn [mbind res_bind] in Hps. simplify_eq.
  assert (is_Some ip1 ↔ is_Some ip) as Hiff.
  { unfold next_start in Hip. destruct ip as [i|].
    - destruct (get_next_ip i); [|done]. cbn [mbind res_bind] in Hip.
      simplify_eq. split; eauto.
    - by simplify_eq. }
  apply elem_of_cons in Hin as [->|Hin]; [done|].
  rewrite <- Hiff. by eapply IH.
Qed.

Lemma record_ips_other ps : ∀ m k,
  k ∉ map (λ x : obj * string * option string, x.1.2) ps →
  record_ips ps m !! k = m !! k.
Proof.
  induction ps as [|p ps IH]; intros m k Hk; [done|].
  cbn [map] in Hk. apply not_elem_of_cons in Hk as [Hk1 Hk2].
  change (record_ips (p :: ps) m)
    with (record_ips ps (record_ip p.1.2 p.2 m)).
  rewrite IH by done. unfold record_ip.
  destruct p.2; [by rewrite lookup_insert_ne|done].
Qed.

Lemma record_ips_own ps : ∀ m p i,
  NoDup (map (λ x : obj * string * option string, x.1.2) ps) →
  p ∈ ps → p.2 = Some i → record_ips ps m !! p.1.2 = Some i.
Proof.
  induction ps as [|p0 ps IH]; intros m p i Hnd Hin Hi.
  { by apply elem_of_nil in Hin. }
  cbn [map] in Hnd. apply NoDup_cons in Hnd as [Hfresh Hnd].
  change (record_ips (p0 :: ps) m)
    with (record_ips ps (record_ip p0.1.2 p0.2 m)).
  apply elem_of_cons in Hin as [->|Hin]; [|by apply IH].
  rewrite record_ips_other by done. unfold record_ip. rewrite Hi.
  apply lookup_insert_eq.
Qed.

Lemma record_ips_none ps m :
  (∀ p, p ∈ ps → p.2 = None) → record_ips ps m = m.
Proof.
  revert m. induction ps as [|p ps IH]; intros m Hn; [done|].
  change (record_ips (p :: ps) m)
    with (record_ips ps (record_ip p.1.2 p.2 m)).
  rewrite IH by (intros q Hq; apply Hn; by right).
  unfold record_ip. rewrite (Hn p); [done|by left].
Qed.

(** X14. The workers of one pass get pairwise different names, a common base
    followed by the running counter, one per requested worker. A worker has
    an address exactly when the pass has a start IP. When every creation is
    answered with 200, [ipMap] after the loop holds under each worker's name
    that worker's own address, and what it held before under every other
    name; without a start IP it is left as it was. *)
Theorem worker_names_distinct (n : nat) (site : string) (l : loc)
    (count : Z) (ip : option string) (old : string)
    (sn subnet : option string) (fip : val) (ss : option string)
    (st : state) (o : obj) (ps : list (obj * string * option string)) :
  creations_succeed W →
  heap st !! l = Some o →
  worker_payloads a n site o count ip old sn subnet fip ss = Ok ps →
  let names := map (λ x, x.1.2) ps in
  let st' := (worker_loop W a n site l count ip old sn subnet fip ss st).2 in
  length ps = n ∧ NoDup names ∧
  (∃ base, names = map (λ i, base +:+ str (count + Z.of_nat i)) (seq 0 n)) ∧
  (∀ p, p ∈ ps → is_Some p.2 ↔ is_Some ip) ∧
  (∀ p i, p ∈ ps → p.2 = Some i → ipMap st' !! p.1.2 = Some i) ∧
  (∀ k, k ∉ names → ipMap st' !! k = ipMap st !! k) ∧
  (ip = None → ipMap st' = ipMap st).
Proof.
  intros H200 Hl Hps names st'.
  assert (ipMap st' = record_ips ps (ipMap st)) as Him.
  { subst st'.
    by rewrite (worker_loop_ok W a n site l count ip old sn subnet fip ss st
                  o ps H200 Hl Hps). }
  destruct (worker_names_counted _ _ _ _ _ _ _ _ _ _ _ Hps) as [base Hbase].
  assert (NoDup names) as Hnd.
  { subst names. rewrite Hbase. apply counted_names_distinct. }
  pose proof (worker_payloads_addressed _ _ _ _ _ _ _ _ _ _ _ Hps) as Haddr.
  split_and!.
  - by eapply worker_payloads_length.
  - done.
  - by exists base.
  - done.
  - intros p i Hin Hi. rewrite Him. by apply record_ips_own.
  - intros k Hk. rewrite Him. by apply record_ips_other.
  - intros ->. rewrite Him. apply record_ips_none. intros p Hin.
    destruct (p.2) eqn:E; [|done].
    destruct (proj1 (Haddr p Hin)) as [? [=]]. by rewrite E.
Qed.

(** X15. What a rendering leaves of the tokens: when the values substituted are
    non-empty and without upper-case letters, the result has no [WORKFLOW]
    and no [SUBMIT] token left, and none of the tokens whose value was
    present. *)
Theorem render_leaves_no_token (s0 wid old nm x : string) (fip : val)
    (subnet ip d sn : option string) (s1 : string) :
  old ≠ "" → plain wid = true → plain nm = true → plain x = true →
  (∀ f, fip = VStr f → plain f = true) →
  (∀ v, subnet = Some v → plain v = true) →
  (∀ v, ip = Some v → plain v = true) →
  (∀ v, d = Some v → plain v = true) →
  (∀ v, sn = Some v → plain v = true) →
  render (VStr s0) wid old nm (Some x) fip subnet ip d sn = Ok s1 →
  occurs "WORKFLOW" s1 = false ∧ occurs "SUBMIT" s1 = false ∧
  (fip ≠ VNone ∨ is_Some ip →
     occurs "IPADDR" s1 = false ∧
     (is_Some subnet → occurs "SUBNET" s1 = false)) ∧
  (is_Some d → occurs "REPLACEIP" s1 = false) ∧
  (is_Some sn → occurs "STORAGENODE" s1 = false).
Proof. apply render_clean. Qed.

End Frames.

(** ** The records published to COMET *)

Section HostRecords.
Import PyStr PyStrFacts.
Context (a : args).
#[local] Arguments String.append !s1 s2 : simpl nomatch.

Lemma replace_app_skip tok new p s :
  tok ≠ "" → (∀ c, c ∈ chars p → c ∉ chars tok) →
  replace tok new (p +:+ s) = p +:+ replace tok new s.
Proof.
  intros Htok. induction p as [|c p IH]; intros Hp; [done|].
  change (String c p +:+ s) with (String c (p +:+ s)).
  rewrite replace_step.
  - change (String c p +:+ replace tok new s)
      with (String c (p +:+ replace tok new s)).
    f_equal. apply IH. intros c' Hc'. apply Hp. simpl. set_solver.
  - destruct tok as [|t0 tok]; [done|]. rewrite prefix_cons.
    rewrite bool_decide_false; [done|]. intros ->.
    apply (Hp c); simpl; set_solver.
Qed.

Lemma lower_skip tok h :
  upper tok = true → lower h = true → ∀ c, c ∈ chars h → c ∉ chars tok.
Proof.
  unfold upper, lower. rewrite !forallb_forall. intros Ht Hh c Hc Hc'.
  apply list_elem_of_In in Hc, Hc'.
  specialize (Ht _ Hc'). specialize (Hh _ Hc). by rewrite Ht in Hh.
Qed.

Lemma skip_check tok p :
  forallb (λ c, negb (existsb (Ascii.eqb c) (chars tok))) (chars p) = true →
  ∀ c, c ∈ chars p → c ∉ chars tok.
Proof.
  rewrite forallb_forall. intros H c Hc Hc'.
  apply list_elem_of_In in Hc. specialize (H c Hc).
  apply negb_true_iff in H.
  assert (existsb (Ascii.eqb c) (chars tok) = true) as E; [|congruence].
  apply existsb_exists. exists c. split; [by apply list_elem_of_In|].
  apply Ascii.eqb_refl.
Qed.

Lemma label_lower s : label s = true → lower s = true.
Proof.
  unfold label, lower. rewrite !forallb_forall. intros H c Hc.
  specialize (H c Hc). revert H. clear.
  destruct c as [[] [] [] [] [] [] [] []]; by vm_compute.
Qed.

Lemma label_app s1 s2 : label (s1 +:+ s2) = label s1 && label s2.
Proof. unfold label. by rewrite chars_app, forallb_app. Qed.

Lemma host_record_replace h ip :
  lower h = true →
  replace "IPADDR" ip (replace "REPLACE" h hostNameVal) = host_record h ip.
Proof.
  intros Hh.
  set (P1 := "{" +:+ dq +:+ "val_" +:+ dq +:+ ": " +:+ dq +:+
             "[{" +:+ bsdq +:+ "hostName" +:+ bsdq +:+ ":" +:+ bsdq).
  set (P2 := bsdq +:+ "," +:+ bsdq +:+ "ip" +:+ bsdq +:+ ":" +:+ bsdq).
  set (P3 := bsdq +:+ "}]" +:+ dq +:+ "}").
  change hostNameVal with (P1 +:+ ("REPLACE" +:+ (P2 +:+ ("IPADDR" +:+ P3)))).
  change (host_record h ip) with (P1 +:+ (h +:+ (P2 +:+ (ip +:+ P3)))).
  rewrite (replace_app_skip "REPLACE" h P1)
    by (done || by apply skip_check).
  rewrite replace_match by done.
  rewrite (replace_absent "REPLACE" h (P2 +:+ ("IPADDR" +:+ P3))) by done.
  rewrite (replace_app_skip "IPADDR" ip P1)
    by (done || by apply skip_check).
  rewrite (replace_app_skip "IPADDR" ip h) by (done || by apply lower_skip).
  rewrite (replace_app_skip "IPADDR" ip P2)
    by (done || by apply skip_check).
  rewrite replace_match by done.
  by rewrite (replace_absent "IPADDR" ip P3) by done.
Qed.

(** X16. The two records published for a node of a chameleon slice, COMET
    answering each call as its client expects: the keys record, then the
    host record, whose host name is the node name followed by [.novalocal]
    and whose address is the [ipMap] entry of the node, or the empty text
    when there is none. Node name and address are texts of lower-case
    letters, digits, [-] and [.]. *)
Theorem chameleon_host_record (host : string) (sd : option loc)
    (slice_name : string) (n : node) (s : option string) (st : state) :
  occurs "Chameleon" slice_name = true →
  label (node_name n) = true →
  (∀ ip, ipMap st !! node_name n = Some ip → label ip = true) →
  publish_node a host sd slice_name n s st =
    (Ok s,
     {| heap := heap st; ipMap := ipMap st;
        trace := trace st ++
          node_records a host (node_name n) (node_name n +:+ ".novalocal")
            (default "" (ipMap st !! node_name n)) |}).
Proof.
  intros Hs Hn%label_lower _.
  unfold publish_node, comet, emit, ipMap_mem, ipMap_get.
  rewrite Hs. unfold ret, mret, M_ret.
  repeat (rewrite bind_run; cbv beta iota; cbn [heap ipMap trace]).
  assert (lower (node_name n +:+ ".novalocal") = true) as Hl
    by (by rewrite lower_app, Hn).
  destruct (ipMap st !! node_name n) as [ip|] eqn:Hip;
    [rewrite bool_decide_true by eauto|
     rewrite bool_decide_false by (by intros [? [=]])];
    repeat (rewrite bind_run; cbv beta iota; cbn [heap ipMap trace]);
    rewrite ?Hip; cbv beta iota; cbn [heap ipMap trace];
    rewrite host_record_replace by done;
    rewrite ?bind_run; cbv beta iota; cbn [heap ipMap trace];
    unfold node_records; by rewrite <- List.app_assoc.
Qed.

(** X17. A node of another slice with [stitch.json] loaded, under the same
    conditions: when the [target] of the stitch data occurs in the node
    name, the target is overwritten by the full node name in the shared dict
    and the node's state becomes the stitch status; the host name published
    is the node name itself. *)
Theorem exogeni_host_record (host : string) (l : loc) (d : obj)
    (t slice_name : string) (n : node) (s : option string) (st : state) :
  occurs "Chameleon" slice_name = false →
  heap st !! l = Some d → d !! "target" = Some (VStr t) →
  label (node_name n) = true →
  (∀ ip, ipMap st !! node_name n = Some ip → label ip = true) →
  publish_node a host (Some l) slice_name n s st =
    (Ok (if occurs t (node_name n) then Some (node_state n) else s),
     {| heap := if occurs t (node_name n)
                then <[l:=<["target":=VStr (node_name n)]> d]> (heap st)
                else heap st;
        ipMap := ipMap st;
        trace := trace st ++
          node_records a host (node_name n) (node_name n)
            (default "" (ipMap st !! node_name n)) |}).
Proof.
  intros Hs Hl Ht Hn%label_lower _.
  unfold publish_node, comet, emit, ipMap_mem, ipMap_get, obj_get, obj_set.
  rewrite Hs. unfold ret, mret, M_ret.
  repeat (rewrite bind_run; cbv beta iota; cbn [heap ipMap trace]).
  rewrite Hl. cbn [default from_option id]. rewrite Ht.
  destruct (occurs t (node_name n)) eqn:Hocc;
    repeat (rewrite bind_run; cbv beta iota; cbn [heap ipMap trace]);
    rewrite ?(heap_alter _ _ _ _ Hl);
    (destruct (ipMap st !! node_name n) as [ip|] eqn:Hip;
     [rewrite bool_decide_true by eauto|
      rewrite bool_decide_false by (by intros [? [=]])]);
    repeat (rewrite bind_run; cbv beta iota; cbn [heap ipMap trace]);
    rewrite ?Hip; cbv beta iota; cbn [heap ipMap trace];
    rewrite host_record_replace by done;
    rewrite ?bind_run; cbv beta iota; cbn [heap ipMap trace];
    unfold node_records; by rewrite <- List.app_assoc.
Qed.

End HostRecords.

(** ** A cluster pass without its worker count *)

Section WorkerCount.
Context (W : world) (a : args).
#[local] Arguments PyStr.replace : simpl never.
#[local] Arguments PyStr.str : simpl never.

Lemma node_payload_no_ip o nn le wid c old site ss sn subnet fip :
  wf_shape o = true →
  (fip = VNone ∨ ∃ f, fip = VStr f) →
  ∃ o' name,
    node_payload o nn None le wid c old site ss sn subnet fip = Ok (o', name).
Proof.
  intros [Hp Hs]%andb_true_iff Hf. unfold node_payload.
  assert (∃ pv, o !! "hostNamePrefix" = Some pv ∧
                (pv = VNone ∨ ∃ x, pv = VStr x)) as (pv & Hpv & Hpv').
  { apply wf_field_inv in Hp as [?|[? ?]]; eauto. }
  rewrite Hpv. cbn [mbind res_bind].
  destruct (resolve_name_total pv site wid nn c Hpv') as [name Hn].
  rewrite Hn. cbn [mbind res_bind].
  set (o1 := match le with
             | Some l => <["leaseEnd":=VStr l]> o
             | None => o
             end).
  assert (o1 !! "postBootScript" = o !! "postBootScript") as Hk.
  { subst o1. destruct le; by simplify_map_eq. }
  rewrite Hk.
  apply wf_field_inv in Hs as [Hs|[sc Hs]]; rewrite Hs; cbn [mbind res_bind];
    [eauto|].
  destruct (render_total sc wid old name ss fip subnet None None sn Hf)
    as [s' Hr].
  rewrite Hr. cbn [mbind res_bind]. eauto.
Qed.

(** X19. A cluster pass that finds [worker.json] but has no worker count (the
    checks accept the count of the other site in its place) creates the
    master and the submit node and then dies on [range(None)]: two nodes are
    requested, the workflow is not deleted. *)
Theorem cluster_needs_worker_count (dir site : string) (count : Z)
    (sn subnet : option string) (fip : val) (ss : option string)
    (st : state) (mo so wo : obj) :
  creations_succeed W →
  files W !! (dir +:+ "/master.json") = Some mo →
  files W !! (dir +:+ "/submit.json") = Some so →
  files W !! (dir +:+ "/worker.json") = Some wo →
  wf_shape mo = true → wf_shape so = true →
  (fip = VNone ∨ ∃ f, fip = VStr f) →
  ∃ st' mo2 so2,
    provision_condor_cluster W a dir site count None None sn subnet fip ss st
      = (Raise TypeError, st') ∧
    trace st' = trace st ++
      call_events W (trace st)
        [Mobius.create_compute (mobiushost a) (workflowId a) mo2;
         Mobius.create_compute (mobiushost a) (workflowId a) so2].
Proof.
  intros H200 Hm Hs Hw Wm Ws Hf.
  destruct (node_payload_no_ip (<["site":=VStr site]> mo)
              ("Node" +:+ PyStr.str count) (leaseEnd a) (workflowId a) count
              "NODENAME" site ss sn subnet fip (wf_shape_site _ _ Wm) Hf)
    as (mo2 & nm & Hpm).
  destruct (node_payload_no_ip (<["site":=VStr site]> so)
              ("Node" +:+ PyStr.str (count + 1)) (leaseEnd a) (workflowId a)
              (count + 1) "NODENAME" site ss sn subnet fip
              (wf_shape_site _ _ Ws) Hf)
    as (so2 & ns & Hps).
  eexists _, mo2, so2.
  unfold provision_condor_cluster, load_if_exists. rewrite Hm, Hs, Hw.
  unfold json_load, obj_set, ret, mret, M_ret.
  do 9 (rewrite bind_run; cbv beta iota; cbn [heap ipMap trace];
        rewrite ?alter_snoc).
  rewrite <- !app_assoc. cbn [app]. rewrite !length_app. cbn [length].
  rewrite !Nat.add_1_r.
  replace (length (heap st) + 2)%nat with (S (S (length (heap st)))) by lia.
  assert (∀ (m : M (option string)),
            m = match sn with
                | Some _ => advance None
                | None => λ st, (Ok None, st)
                end →
            ∀ st, m st = (Ok None, st)) as Hadv.
  { intros m -> st0. by destruct sn. }
  rewrite !bind_run. rewrite (Hadv _ eq_refl). cbv beta iota.
  rewrite bind_run.
  cc_step create_compute_ok Hpm ltac:(apply lookup3_0).
  cbv beta iota zeta. cbn [heap ipMap trace].
  rewrite decide_False by (intros Hne; apply Hne, H200).
  rewrite insert3_0.
  unfold ret, mret, M_ret. rewrite !bind_run. cbv beta iota.
  unfold advance at 1, lift at 1. cbn [next_start]. cbv beta iota.
  rewrite ?bind_run.
  cc_step create_compute_ok Hps ltac:(apply lookup3_1).
  cbv beta iota zeta. cbn [heap ipMap trace].
  rewrite decide_False by (intros Hne; apply Hne, H200).
  rewrite insert3_1. cbv beta iota.
  split; [reflexivity|]. cbn [trace call_events]. unfold mobius_event.
  by rewrite <- !app_assoc.
Qed.

End WorkerCount.

(** ** The dicts a pass leaves alone *)

Section LoadedDicts.
Context (W : world) (h : list obj).

Lemma loaded_same {A} (m : M A) :
  (∀ st, heap (m st).2 = heap st) → keeps_loaded h m.
Proof. intros Hm st ext Hst. exists ext. by rewrite Hm. Qed.

Lemma loaded_bind {A B} (m : M A) (f : A → M B) :
  keeps_loaded h m → (∀ x, keeps_loaded h (f x)) → keeps_loaded h (m ≫= f).
Proof.
  intros Hm Hf st ext Hst. rewrite bind_run.
  destruct (Hm st ext Hst) as [ext1 H1].
  destruct (m st) as [[x|e] st1]; simpl in *; [|eauto].
  by apply (Hf x st1 ext1).
Qed.

Lemma loaded_ret {A} (x : A) : keeps_loaded h (ret x).
Proof. by apply loaded_same. Qed.
Lemma loaded_raise {A} e : keeps_loaded h (raise e : M A).
Proof. by apply loaded_same. Qed.
Lemma loaded_lift {A} (r : res A) : keeps_loaded h (lift r).
Proof. by apply loaded_same. Qed.
Lemma loaded_obj_get l k : keeps_loaded h (obj_get l k).
Proof. apply loaded_same. intros st. unfold obj_get. by destruct (_ !! k). Qed.
Lemma loaded_deref l : keeps_loaded h (deref l).
Proof. by apply loaded_same. Qed.
Lemma loaded_mobius c : keeps_loaded h (mobius W c).
Proof. by apply loaded_same. Qed.
Lemma loaded_ipMap_set k v : keeps_loaded h (ipMap_set k v).
Proof. by apply loaded_same. Qed.

Lemma loaded_obj_set l k v :
  (length h ≤ l)%nat → keeps_loaded h (obj_set l k v).
Proof.
  intros Hl st ext Hst. unfold obj_set. cbn [snd heap]. rewrite Hst.
  exists (alter (λ o : obj, <[k:=v]> o) (l - length h)%nat ext).
  by rewrite alter_app_r_alt by done.
Qed.

Lemma loaded_load {B} d (k : option loc → M B) :
  (∀ l, (length h ≤ l)%nat → keeps_loaded h (k (Some l))) →
  keeps_loaded h (k None) →
  keeps_loaded h (load_if_exists W d ≫= k).
Proof.
  intros Hs Hn st ext Hst. rewrite bind_run. unfold load_if_exists.
  destruct (files W !! d) as [o|]; [|by apply (Hn st ext)].
  unfold json_load, ret, mret, M_ret. rewrite bind_run. cbv beta iota.
  apply (Hs (length (heap st))) with (ext := ext ++ [o]).
  - rewrite Hst, length_app. lia.
  - cbn [heap]. by rewrite Hst, <- app_assoc.
Qed.

End LoadedDicts.

Create HintDb loaded.
#[global] Hint Resolve loaded_ret loaded_raise loaded_lift loaded_obj_get
  loaded_deref loaded_mobius loaded_ipMap_set : loaded.

Ltac loaded_tac :=
  repeat first
    [ progress intros
    | match goal with H : _ |- _ => solve [apply H] end
    | solve [auto with loaded]
    | solve [apply loaded_obj_set; lia]
    | apply loaded_load
    | apply loaded_bind
    | match goal with
      | |- keeps_loaded _ (match ?x with _ => _ end) => destruct x
      | |- keeps_loaded _ (if ?x then _ else _) => destruct x
      | |- keeps_loaded _ (let '(_, _) := ?x in _) => destruct x
      end ].

Section LoadedDictsKept.
Context (W : world) (a : args).

Lemma loaded_create_compute h host nn ip le wid l c old site ss sn subnet fip :
  (length h ≤ l)%nat →
  keeps_loaded h
    (create_compute W host nn ip le wid l c old site ss sn subnet fip).
Proof. intros Hl. unfold create_compute. loaded_tac. Qed.

Lemma loaded_worker_loop h n : ∀ site l count ip old sn subnet fip ss,
  (length h ≤ l)%nat →
  keeps_loaded h (worker_loop W a n site l count ip old sn subnet fip ss).
Proof.
  induction n as [|n IH]; intros site l count ip old sn subnet fip ss Hl;
    cbn [worker_loop]; [loaded_tac|].
  pose proof (loaded_create_compute h) as Hcc.
  unfold advance.
  apply loaded_bind; [loaded_tac|]. intros ip'.
  apply loaded_bind; [by apply Hcc|]. intros [r name].
  destruct (decide _); [loaded_tac|]. by apply IH.
Qed.

(** X20. A provisioning pass changes only the dicts it loads itself: every dict
    that was loaded before it (the stitch data among them) is left as it
    was. *)
Theorem passes_keep_loaded_dicts :
  (∀ dir site count ip ss sip es st,
     ∃ ext, heap (provision_storage W a dir site count ip ss sip es st).2
            = heap st ++ ext) ∧
  (∀ dir site count ip w sn subnet fip ss st,
     ∃ ext, heap (provision_condor_cluster W a dir site count ip w sn subnet
                    fip ss st).2 = heap st ++ ext).
Proof.
  split.
  - intros dir site count ip ss sip es st.
    assert (keeps_loaded (heap st)
              (provision_storage W a dir site count ip ss sip es)) as H.
    { unfold provision_storage. apply loaded_load; [|loaded_tac].
      intros l Hl. pose proof (loaded_create_compute (heap st)) as Hcc.
      apply loaded_bind; [loaded_tac|]. intros _.
      apply loaded_bind; [loaded_tac|]. intros script.
      apply loaded_bind; [loaded_tac|]. intros _.
      apply loaded_bind; [by apply Hcc|]. loaded_tac. }
    apply (H st []). by rewrite app_nil_r.
  - intros dir site count ip w sn subnet fip ss st.
    assert (keeps_loaded (heap st)
              (provision_condor_cluster W a dir site count ip w sn subnet fip
                 ss)) as H.
    { unfold provision_condor_cluster.
      pose proof (loaded_create_compute (heap st)) as Hcc.
      pose proof (loaded_worker_loop (heap st)) as Hwl.
      unfold advance.
      apply loaded_load; [intros lm Hlm; apply loaded_bind; [loaded_tac|]|];
        intros; (apply loaded_load;
                 [intros ls Hls; apply loaded_bind; [loaded_tac|]|]);
        intros; (apply loaded_load;
                 [intros lw Hlw; apply loaded_bind; [loaded_tac|]|]);
        intros.
      all: repeat first
             [ progress intros
             | solve [apply Hcc; lia]
             | solve [apply Hwl; lia]
             | solve [auto with loaded]
             | apply loaded_bind
             | match goal with
               | |- keeps_loaded _ (match ?x with _ => _ end) => destruct x
               | |- keeps_loaded _ (if ?x then _ else _) => destruct x
               | |- keeps_loaded _ (let '(_, _) := ?x in _) => destruct x
               end ]. }
    apply (H st []). by rewrite app_nil_r.
Qed.

End LoadedDictsKept.

(** ** More sample runs *)

Section MoreSampleRuns.
Import Examples MoreExamples.

(** One worker from [10.0.0.253], which the checks accept: with a storage
    node before it the cluster pass hands out an address past 255. *)
Lemma cluster_addresses_witness :
  arguments_ok (chameleon_args "wf1" "10.0.0.253" 1) = true ∧
  ∃ st' evs,
    provision_condor_cluster chameleon_world
      (chameleon_args "wf1" "10.0.0.253" 1) "d" "Chameleon:CHI@UC" 1
      (Some "10.0.0.253") (Some 1) (Some "wf1-st0.novalocal") None VNone None
      init_state = (Ok (true, 1 + 2 + 1), st') ∧
    trace st' = trace init_state ++ evs ∧
    ¬ Forall (λ x, is_valid_ipv4_address x = true) (sent_addresses evs).
Proof.
  split; [reflexivity|].
  destruct (cluster_addresses chameleon_world
              (chameleon_args "wf1" "10.0.0.253" 1) "d" "Chameleon:CHI@UC" 1
              "10.0.0.253" 1 (Some "wf1-st0.novalocal") None VNone None
              init_state master_json submit_json worker_json)
    as (p & q & r & d & st' & evs & Hip & Hd & Hrun & Htr & Hsent & Hvalid);
    try reflexivity.
  - intros tr h w x. reflexivity.
  - lia.
  - by left.
  - exists st', evs. split; [exact Hrun|]. split; [exact Htr|].
    intros Hall. apply Hvalid in Hall.
    assert (d = 253) as -> by (vm_compute in Hd; congruence).
    simpl in Hall. lia.
Defined.

Lemma rejected_create_makes_no_call_witness :
  ∃ evs,
    trace (main chameleon_world keyless_args 0 init_state).2
      = trace init_state ++ evs ∧
    exit_status (main chameleon_world keyless_args 0 init_state).1 = 1 ∧
    Forall (λ e, is_remote e = false) evs.
Proof.
  apply (rejected_create_makes_no_call chameleon_world keyless_args 0
           init_state); reflexivity.
Defined.

Lemma refused_workflow_exits_zero_witness :
  exit_status
    (main refusing_world (chameleon_args "wf1" "10.0.0.10" 2) 0 init_state).1
    = 0.
Proof.
  rewrite (refused_workflow_exits_zero refusing_world
             (chameleon_args "wf1" "10.0.0.10" 2) 0 init_state);
    [reflexivity|reflexivity|reflexivity|]. cbn. lia.
Defined.

Lemma nothing_to_provision_witness :
  ∃ st', main chameleon_world crossed_args 0 init_state
           = (Raise (SystemExit 0), st') ∧
         length (trace st') = 2%nat.
Proof.
  eexists. split.
  - apply (nothing_to_provision chameleon_world crossed_args 0 init_state);
      try reflexivity; first [by left|by right].
  - reflexivity.
Defined.

Lemma chameleon_needs_storage_file_witness :
  (main empty_world (chameleon_args "wf1" "10.0.0.10" 2) 0 init_state).1
    = Raise TypeError.
Proof.
  rewrite (chameleon_needs_storage_file empty_world
             (chameleon_args "wf1" "10.0.0.10" 2) 0 init_state
             "Chameleon:CHI@UC" "d"); try reflexivity. by left.
Defined.

Lemma storage_script_needs_start_ip_witness :
  (provision_storage chameleon_world (chameleon_args "wf1" "10.0.0.10" 2)
     "d" "Chameleon:CHI@UC" 0 None None VNone None init_state).1
    = Raise AttributeError.
Proof.
  rewrite (storage_script_needs_start_ip chameleon_world
             (chameleon_args "wf1" "10.0.0.10" 2) "d" "Chameleon:CHI@UC" 0
             None VNone None init_state storage_json
             (VStr "mount CIDR for WORKFLOW")); [reflexivity..|discriminate].
Defined.

Lemma stitch_ip_key_required_witness :
  ∃ st', main bare_storage_world exogeni_args 0 init_state
           = (Raise KeyError, st') ∧ length (trace st') = 1%nat.
Proof.
  destruct (stitch_ip_key_required bare_storage_world exogeni_args 0
              init_state exogeni_site "e") as (st' & Hrun & Htr);
    try reflexivity.
  - right. split; [intros sd [=]|].
    exists (shape (VStr "st") VNone). split; reflexivity.
  - exists st'. split; [exact Hrun|]. by rewrite Htr.
Defined.

Lemma no_comet_call_without_host_witness :
  ∃ evs,
    trace (main chameleon_world (chameleon_args "wf1" "10.0.0.10" 2) 0
             init_state).2 = trace init_state ++ evs ∧
    Forall (λ e, is_comet e = false) evs.
Proof.
  apply (no_comet_call_without_host chameleon_world
           (chameleon_args "wf1" "10.0.0.10" 2) 0 init_state).
  reflexivity.
Defined.

Lemma polling_has_no_limit_witness :
  (wait_active refusing_world (chameleon_args "wf1" "10.0.0.10" 2) 7
     (Some 0%nat) None
     {| heap := [stitch_json "st1"]; ipMap := ∅; trace := [] |}).1
    = Raise OutOfFuel.
Proof.
  assert (∀ tr, status (mobius_reply refusing_world tr
                          (Mobius.get_workflow "http://localhost:8080/mobius"
                             "wf1")) ≠ 200) as Hdown
    by (intros tr; cbn; lia).
  destruct (polling_has_no_limit refusing_world
              (chameleon_args "wf1" "10.0.0.10" 2) 7 0%nat
              (stitch_json "st1") "st1" None
              {| heap := [stitch_json "st1"]; ipMap := ∅; trace := [] |}
              eq_refl eq_refl ltac:(discriminate) Hdown) as [Hrun _].
  by rewrite Hrun.
Defined.

Lemma worker_names_distinct_witness :
  let st' :=
    (worker_loop chameleon_world (chameleon_args "wf1" "10.0.0.10" 2) 2
       "Chameleon:CHI@UC" 0 3 (Some "10.0.0.12") "NODENAME"
       (Some "wf1-st0.novalocal") None VNone None worker_state).2 in
  ipMap st' !! "wf1-w3" = Some "10.0.0.13" ∧
  ipMap st' !! "wf1-w4" = Some "10.0.0.14" ∧
  ipMap st' !! "wf1-m1" = None.
Proof.
  intros st'.
  destruct (worker_names_distinct chameleon_world
              (chameleon_args "wf1" "10.0.0.10" 2) 2 "Chameleon:CHI@UC"
              0 3 (Some "10.0.0.12") "NODENAME" (Some "wf1-st0.novalocal")
              None VNone None worker_state worker_json sample_workers)
    as (_ & _ & _ & _ & Hown & Hother & _).
  - intros tr h w p. reflexivity.
  - reflexivity.
  - vm_compute. reflexivity.
  - split_and!.
    + apply (Hown (first_worker, "wf1-w3", Some "10.0.0.13"));
        [by left|done].
    + apply (Hown (second_worker, "wf1-w4", Some "10.0.0.14"));
        [right; by left|done].
    + rewrite Hother; [done|].
      cbn [map sample_workers fst snd]. intros Hin.
      repeat (apply elem_of_cons in Hin as [[=]|Hin]).
      by apply elem_of_nil in Hin.
Defined.

Lemma render_leaves_no_token_witness :
  PyStr.occurs "WORKFLOW"
    "wf1-w3 of wf1 from 10.0.0.13 to 10.0.0.* via 10.1.0.0/24" = false.
Proof.
  apply (render_leaves_no_token
           "NODENAME of WORKFLOW from IPADDR to REPLACEIP via SUBMIT" "wf1"
           "NODENAME" "wf1-w3" "10.1.0.0/24" VNone None (Some "10.0.0.13")
           (Some "10.0.0.*") None);
    try reflexivity; try discriminate; intros v [= <-]; reflexivity.
Defined.

Lemma chameleon_host_record_witness :
  (publish_node (chameleon_args "wf1" "10.0.0.10" 2) "https://comet" None
     "Chameleon:CHI@UC" {| node_name := "wf1-st0"; node_state := "ACTIVE" |}
     None {| heap := []; ipMap := {[ "wf1-st0" := "10.0.0.10" ]};
             trace := [] |}).1 = Ok None.
Proof.
  rewrite (chameleon_host_record (chameleon_args "wf1" "10.0.0.10" 2));
    try reflexivity.
  intros ip [= <-]. reflexivity.
Defined.

Lemma exogeni_host_record_witness :
  (publish_node (chameleon_args "wf1" "10.0.0.10" 2) "https://comet"
     (Some 0%nat) exogeni_site
     {| node_name := "st1"; node_state := "Ticketed" |} None
     {| heap := [stitch_json "st"]; ipMap := ∅; trace := [] |}).1
    = Ok (Some "Ticketed").
Proof.
  rewrite (exogeni_host_record (chameleon_args "wf1" "10.0.0.10" 2)
             "https://comet" 0%nat (stitch_json "st") "st");
    try reflexivity.
  intros ip [=].
Defined.

Lemma create_compute_frame_witness :
  ∃ o',
    heap sample_creation.2 = <[0%nat:=o']> (heap worker_state) ∧
    o' !! "hostNamePrefix" = worker_json !! "hostNamePrefix".
Proof.
  destruct (create_compute_frame chameleon_world
              "http://localhost:8080/mobius" "Node3" (Some "10.0.0.13") None
              "wf1" 0%nat 3 "NODENAME" "Chameleon:CHI@UC" None None None VNone
              worker_state sample_creation.2 worker_json ok_reply "wf1-w3")
    as (o' & Hheap & Hframe & _).
  - reflexivity.
  - vm_compute. reflexivity.
  - exists o'. split; [exact Hheap|]. by apply Hframe.
Defined.

Lemma cluster_needs_worker_count_witness :
  (provision_condor_cluster chameleon_world crossed_args "d"
     "Chameleon:CHI@UC" 0 None None None None VNone None init_state).1
    = Raise TypeError.
Proof.
  assert (creations_succeed chameleon_world) as H200
    by (intros tr h w p; reflexivity).
  destruct (cluster_needs_worker_count chameleon_world crossed_args "d"
              "Chameleon:CHI@UC" 0 None None VNone None init_state
              master_json submit_json worker_json H200 eq_refl eq_refl
              eq_refl eq_refl eq_refl (or_introl eq_refl))
    as (st' & mo2 & so2 & Hrun & _).
  by rewrite Hrun.
Defined.

End MoreSampleRuns.
